(** * ThumbGrid IME: the edit session and the shared-state channel

    A shallow embedding of [src/ime_custom.c], the helpers of
    [include/plugin_common.h], the sequence-counter reader of
    [include/thumbgrid_ipc.h], the staleness logic of the poll thread
    in [shell-overlay/src/main.c], the grid of [src/thumbgrid.c], the
    button edges of [src/input.c], and the input router and shared-record
    writer of [src/ime_hook.c].

    Conventions.
    - [uint32_t], [uint16_t], [uint64_t] values are [Z]; arithmetic that
      can wrap goes through [u32] / [u64].
    - A C array is a [list Z] whose length is the declared size.  An
      access outside the array is undefined behaviour in C; the model
      makes it an explicit [OutOfBounds] outcome carrying the index.
    - Functions receive the session by value and return the updated
      session; the [!session] null-pointer guards of the source have no
      counterpart, a session argument is always present. *)

From Stdlib Require Import ZArith Lia Bool String Ascii.
From stdpp Require Import base tactics option list.

Local Open Scope Z_scope.

(** ** Machine integers *)

Definition u32 (z : Z) : Z := z mod 2 ^ 32.
Definition u64 (z : Z) : Z := z mod 2 ^ 64.

Definition U32_MAX : Z := 2 ^ 32 - 1.

(** A value reduced to the range of [int] / [int32_t] in two's
    complement: the conversion of a [uint32_t] to [int], and the result
    of [int] arithmetic on the machine. *)
Definition i32 (z : Z) : Z := (z + 2 ^ 31) mod 2 ^ 32 - 2 ^ 31.

(** ** Outcomes of array accesses *)

Inductive outcome (A : Type) : Type :=
| Done (a : A)
| OutOfBounds (i : Z).

Arguments Done {A} a.
Arguments OutOfBounds {A} i.

#[global] Instance outcome_ret : MRet outcome := fun A a => Done a.
#[global] Instance outcome_bind : MBind outcome := fun A B f m =>
  match m with
  | Done a => f a
  | OutOfBounds i => OutOfBounds i
  end.

(** [a[i]] as an rvalue. *)
Definition load (a : list Z) (i : Z) : outcome Z :=
  if (i <? 0) then OutOfBounds i
  else match a !! Z.to_nat i with
       | Some v => Done v
       | None => OutOfBounds i
       end.

(** [a[i] = v]. *)
Definition store (a : list Z) (i v : Z) : outcome (list Z) :=
  if (i <? 0) then OutOfBounds i
  else if (i <? Z.of_nat (length a)) then Done (<[Z.to_nat i := v]> a)
  else OutOfBounds i.

(** [memcpy(&dst[d], &src[s], n * sizeof(uint16_t))], element by element. *)
Fixpoint memcpy_u16 (n : nat) (dst : list Z) (d : Z) (src : list Z) (s : Z)
  : outcome (list Z) :=
  match n with
  | O => Done dst
  | S n' =>
      v ← load src s;
      dst' ← store dst d v;
      memcpy_u16 n' dst' (d + 1) src (s + 1)
  end.

(** ** plugin_common.h *)

Definition IME_OK : Z := 0.

Definition CLAMP (val lo hi : Z) : Z :=
  if val <? lo then lo else if hi <? val then hi else val.

(** [while (len < max_len && str[len] != 0) len++;]  The loop runs at most
    [max_len] times; [fuel] is that bound. *)
Fixpoint safe_u16_strlen_loop (fuel : nat) (str : list Z) (len max_len : Z)
  : outcome Z :=
  match fuel with
  | O => Done len
  | S f =>
      if len <? max_len then
        c ← load str len;
        if c =? 0 then Done len
        else safe_u16_strlen_loop f str (u32 (len + 1)) max_len
      else Done len
  end.

(** A pointer to a [uint16_t] buffer is [None] for [NULL] and otherwise the
    contents of the memory it points to. *)
Definition safe_u16_strlen (str : option (list Z)) (max_len : Z) : outcome Z :=
  match str with
  | None => Done 0
  | Some str => safe_u16_strlen_loop (Z.to_nat max_len) str 0 max_len
  end.

(** [while (i < limit && src[i] != 0) { dst[i] = src[i]; i++; }]
    returning the updated destination and the final [i]. *)
Fixpoint safe_u16_copy_loop (fuel : nat) (dst src : list Z) (i limit : Z)
  : outcome (list Z * Z) :=
  match fuel with
  | O => Done (dst, i)
  | S f =>
      if i <? limit then
        c ← load src i;
        if c =? 0 then Done (dst, i)
        else
          dst' ← store dst i c;
          safe_u16_copy_loop f dst' src (u32 (i + 1)) limit
      else Done (dst, i)
  end.

Definition safe_u16_copy (dst : option (list Z)) (src : option (list Z))
    (max_dst_chars : Z) : outcome (option (list Z)) :=
  match dst with
  | None => Done None
  | Some d =>
      if max_dst_chars =? 0 then Done (Some d)
      else match src with
           | None => d' ← store d 0 0; Done (Some d')
           | Some sr =>
               let limit := u32 (max_dst_chars - 1) in
               '(d1, i) ← safe_u16_copy_loop (Z.to_nat limit) d sr 0 limit;
               d2 ← store d1 i 0;
               Done (Some d2)
           end
  end.

(** ** ime_custom.h *)

Definition u16 (z : Z) : Z := z mod 2 ^ 16.

Definition IME_MAX_OUTPUT_LENGTH : Z := 256.
Definition IME_MAX_CHARSET_SIZE : Z := 96.

(** A C string literal: the character codes followed by the terminating
    NUL. *)
Definition c_string (s : string) : list Z :=
  map (fun a => Z.of_N (N_of_ascii a)) (list_ascii_of_string s) ++ [0].

Definition IME_DEFAULT_CHARSET : list Z :=
  c_string "ABCDEFGHIJKLMNOPQRSTUVWXYZabcdefghijklmnopqrstuvwxyz0123456789 .,!?'-:;@#$%&*()".
Definition IME_NUMERIC_CHARSET : list Z := c_string "0123456789.-+".
Definition IME_URL_CHARSET : list Z :=
  c_string "abcdefghijklmnopqrstuvwxyz0123456789.-_~:/?#[]@!$&'()*+,;=%".

Definition ORBIS_IME_PANEL_TYPE_URL : Z := 2.
Definition ORBIS_IME_PANEL_TYPE_MAIL : Z := 3.
Definition ORBIS_IME_PANEL_TYPE_NUMBER : Z := 4.

Record ImeCycleConfig : Type := {
  initial_delay_ms : Z;
  repeat_interval_ms : Z;
  accel_threshold_ms : Z;
  accel_interval_ms : Z
}.

Inductive ImeCustomState : Type :=
| IME_STATE_INACTIVE
| IME_STATE_ACTIVE
| IME_STATE_CONFIRMING
| IME_STATE_CANCELLED.

#[global] Instance ImeCustomState_eq_dec : EqDecision ImeCustomState.
Proof. solve_decision. Defined.

Record ImeSession : Type := {
  state : ImeCustomState;
  charset : list Z;
  charset_length : Z;
  cursor_index : Z;
  output : list Z;
  output_length : Z;
  max_output_length : Z;
  text_cursor : Z;
  selected_all : bool;
  sel_start : Z;
  sel_end : Z;
  last_cycle_time_us : Z;
  hold_start_time_us : Z;
  dpad_held : bool;
  hold_direction : Z;
  cycle_config : ImeCycleConfig;
  caller_buffer : option (list Z);
  panel_type : Z;
  clipboard : list Z;
  clipboard_length : Z
}.

(** Field assignments [session->f = v]. *)
Definition set_state (v : ImeCustomState) (s : ImeSession) : ImeSession :=
  {| state := v; charset := charset s; charset_length := charset_length s;
     cursor_index := cursor_index s; output := output s;
     output_length := output_length s; max_output_length := max_output_length s;
     text_cursor := text_cursor s; selected_all := selected_all s;
     sel_start := sel_start s; sel_end := sel_end s;
     last_cycle_time_us := last_cycle_time_us s;
     hold_start_time_us := hold_start_time_us s; dpad_held := dpad_held s;
     hold_direction := hold_direction s; cycle_config := cycle_config s;
     caller_buffer := caller_buffer s; panel_type := panel_type s;
     clipboard := clipboard s; clipboard_length := clipboard_length s |}.

Definition set_cursor_index (v : Z) (s : ImeSession) : ImeSession :=
  {| state := state s; charset := charset s; charset_length := charset_length s;
     cursor_index := v; output := output s;
     output_length := output_length s; max_output_length := max_output_length s;
     text_cursor := text_cursor s; selected_all := selected_all s;
     sel_start := sel_start s; sel_end := sel_end s;
     last_cycle_time_us := last_cycle_time_us s;
     hold_start_time_us := hold_start_time_us s; dpad_held := dpad_held s;
     hold_direction := hold_direction s; cycle_config := cycle_config s;
     caller_buffer := caller_buffer s; panel_type := panel_type s;
     clipboard := clipboard s; clipboard_length := clipboard_length s |}.

Definition set_output (v : list Z) (s : ImeSession) : ImeSession :=
  {| state := state s; charset := charset s; charset_length := charset_length s;
     cursor_index := cursor_index s; output := v;
     output_length := output_length s; max_output_length := max_output_length s;
     text_cursor := text_cursor s; selected_all := selected_all s;
     sel_start := sel_start s; sel_end := sel_end s;
     last_cycle_time_us := last_cycle_time_us s;
     hold_start_time_us := hold_start_time_us s; dpad_held := dpad_held s;
     hold_direction := hold_direction s; cycle_config := cycle_config s;
     caller_buffer := caller_buffer s; panel_type := panel_type s;
     clipboard := clipboard s; clipboard_length := clipboard_length s |}.

Definition set_output_length (v : Z) (s : ImeSession) : ImeSession :=
  {| state := state s; charset := charset s; charset_length := charset_length s;
     cursor_index := cursor_index s; output := output s;
     output_length := v; max_output_length := max_output_length s;
     text_cursor := text_cursor s; selected_all := selected_all s;
     sel_start := sel_start s; sel_end := sel_end s;
     last_cycle_time_us := last_cycle_time_us s;
     hold_start_time_us := hold_start_time_us s; dpad_held := dpad_held s;
     hold_direction := hold_direction s; cycle_config := cycle_config s;
     caller_buffer := caller_buffer s; panel_type := panel_type s;
     clipboard := clipboard s; clipboard_length := clipboard_length s |}.

Definition set_text_cursor (v : Z) (s : ImeSession) : ImeSession :=
  {| state := state s; charset := charset s; charset_length := charset_length s;
     cursor_index := cursor_index s; output := output s;
     output_length := output_length s; max_output_length := max_output_length s;
     text_cursor := v; selected_all := selected_all s;
     sel_start := sel_start s; sel_end := sel_end s;
     last_cycle_time_us := last_cycle_time_us s;
     hold_start_time_us := hold_start_time_us s; dpad_held := dpad_held s;
     hold_direction := hold_direction s; cycle_config := cycle_config s;
     caller_buffer := caller_buffer s; panel_type := panel_type s;
     clipboard := clipboard s; clipboard_length := clipboard_length s |}.

Definition set_selected_all (v : bool) (s : ImeSession) : ImeSession :=
  {| state := state s; charset := charset s; charset_length := charset_length s;
     cursor_index := cursor_index s; output := output s;
     output_length := output_length s; max_output_length := max_output_length s;
     text_cursor := text_cursor s; selected_all := v;
     sel_start := sel_start s; sel_end := sel_end s;
     last_cycle_time_us := last_cycle_time_us s;
     hold_start_time_us := hold_start_time_us s; dpad_held := dpad_held s;
     hold_direction := hold_direction s; cycle_config := cycle_config s;
     caller_buffer := caller_buffer s; panel_type := panel_type s;
     clipboard := clipboard s; clipboard_length := clipboard_length s |}.

Definition set_sel_start (v : Z) (s : ImeSession) : ImeSession :=
  {| state := state s; charset := charset s; charset_length := charset_length s;
     cursor_index := cursor_index s; output := output s;
     output_length := output_length s; max_output_length := max_output_length s;
     text_cursor := text_cursor s; selected_all := selected_all s;
     sel_start := v; sel_end := sel_end s;
     last_cycle_time_us := last_cycle_time_us s;
     hold_start_time_us := hold_start_time_us s; dpad_held := dpad_held s;
     hold_direction := hold_direction s; cycle_config := cycle_config s;
     caller_buffer := caller_buffer s; panel_type := panel_type s;
     clipboard := clipboard s; clipboard_length := clipboard_length s |}.

Definition set_sel_end (v : Z) (s : ImeSession) : ImeSession :=
  {| state := state s; charset := charset s; charset_length := charset_length s;
     cursor_index := cursor_index s; output := output s;
     output_length := output_length s; max_output_length := max_output_length s;
     text_cursor := text_cursor s; selected_all := selected_all s;
     sel_start := sel_start s; sel_end := v;
     last_cycle_time_us := last_cycle_time_us s;
     hold_start_time_us := hold_start_time_us s; dpad_held := dpad_held s;
     hold_direction := hold_direction s; cycle_config := cycle_config s;
     caller_buffer := caller_buffer s; panel_type := panel_type s;
     clipboard := clipboard s; clipboard_length := clipboard_length s |}.

Definition set_last_cycle_time_us (v : Z) (s : ImeSession) : ImeSession :=
  {| state := state s; charset := charset s; charset_length := charset_length s;
     cursor_index := cursor_index s; output := output s;
     output_length := output_length s; max_output_length := max_output_length s;
     text_cursor := text_cursor s; selected_all := selected_all s;
     sel_start := sel_start s; sel_end := sel_end s;
     last_cycle_time_us := v;
     hold_start_time_us := hold_start_time_us s; dpad_held := dpad_held s;
     hold_direction := hold_direction s; cycle_config := cycle_config s;
     caller_buffer := caller_buffer s; panel_type := panel_type s;
     clipboard := clipboard s; clipboard_length := clipboard_length s |}.

Definition set_caller_buffer (v : option (list Z)) (s : ImeSession) : ImeSession :=
  {| state := state s; charset := charset s; charset_length := charset_length s;
     cursor_index := cursor_index s; output := output s;
     output_length := output_length s; max_output_length := max_output_length s;
     text_cursor := text_cursor s; selected_all := selected_all s;
     sel_start := sel_start s; sel_end := sel_end s;
     last_cycle_time_us := last_cycle_time_us s;
     hold_start_time_us := hold_start_time_us s; dpad_held := dpad_held s;
     hold_direction := hold_direction s; cycle_config := cycle_config s;
     caller_buffer := v; panel_type := panel_type s;
     clipboard := clipboard s; clipboard_length := clipboard_length s |}.

Definition set_clipboard (v : list Z) (s : ImeSession) : ImeSession :=
  {| state := state s; charset := charset s; charset_length := charset_length s;
     cursor_index := cursor_index s; output := output s;
     output_length := output_length s; max_output_length := max_output_length s;
     text_cursor := text_cursor s; selected_all := selected_all s;
     sel_start := sel_start s; sel_end := sel_end s;
     last_cycle_time_us := last_cycle_time_us s;
     hold_start_time_us := hold_start_time_us s; dpad_held := dpad_held s;
     hold_direction := hold_direction s; cycle_config := cycle_config s;
     caller_buffer := caller_buffer s; panel_type := panel_type s;
     clipboard := v; clipboard_length := clipboard_length s |}.

Definition set_clipboard_length (v : Z) (s : ImeSession) : ImeSession :=
  {| state := state s; charset := charset s; charset_length := charset_length s;
     cursor_index := cursor_index s; output := output s;
     output_length := output_length s; max_output_length := max_output_length s;
     text_cursor := text_cursor s; selected_all := selected_all s;
     sel_start := sel_start s; sel_end := sel_end s;
     last_cycle_time_us := last_cycle_time_us s;
     hold_start_time_us := hold_start_time_us s; dpad_held := dpad_held s;
     hold_direction := hold_direction s; cycle_config := cycle_config s;
     caller_buffer := caller_buffer s; panel_type := panel_type s;
     clipboard := clipboard s; clipboard_length := v |}.

Definition is_active (s : ImeSession) : bool :=
  bool_decide (state s = IME_STATE_ACTIVE).

(** ** ime_custom.c: helpers *)

(** [while (cs[len] != '\0' && len < IME_MAX_CHARSET_SIZE) len++;]
    At most 96 increments and one more test. *)
Fixpoint charset_len_loop (fuel : nat) (cs : list Z) (len : Z) : outcome Z :=
  match fuel with
  | O => Done len
  | S f =>
      c ← load cs len;
      if c =? 0 then Done len
      else if len <? IME_MAX_CHARSET_SIZE
           then charset_len_loop f cs (u32 (len + 1))
           else Done len
  end.

Definition charset_for_panel (panel_type : Z) : outcome (list Z * Z) :=
  let cs :=
    if panel_type =? ORBIS_IME_PANEL_TYPE_NUMBER then IME_NUMERIC_CHARSET
    else if (panel_type =? ORBIS_IME_PANEL_TYPE_URL)
            || (panel_type =? ORBIS_IME_PANEL_TYPE_MAIL) then IME_URL_CHARSET
    else IME_DEFAULT_CHARSET in
  len ← charset_len_loop 97 cs 0;
  Done (cs, len).

(** [index] is an [int64_t], [length] a [uint32_t]; C's [%] truncates
    towards zero, which is [Z.rem]. *)
Definition wrap_index (index length : Z) : Z :=
  if length =? 0 then 0
  else
    let wrapped := Z.rem index length in
    let wrapped := if wrapped <? 0 then wrapped + length else wrapped in
    u32 wrapped.

(** ** Session lifecycle *)

(** [memset(session, 0, sizeof(ImeSession))]: every field becomes zero,
    whatever the object held before. *)
Definition zero_session : ImeSession :=
  {| state := IME_STATE_INACTIVE; charset := []; charset_length := 0;
     cursor_index := 0;
     output := replicate (Z.to_nat IME_MAX_OUTPUT_LENGTH) 0;
     output_length := 0; max_output_length := 0; text_cursor := 0;
     selected_all := false; sel_start := 0; sel_end := 0;
     last_cycle_time_us := 0; hold_start_time_us := 0; dpad_held := false;
     hold_direction := 0;
     cycle_config := {| initial_delay_ms := 0; repeat_interval_ms := 0;
                        accel_threshold_ms := 0; accel_interval_ms := 0 |};
     caller_buffer := None; panel_type := 0;
     clipboard := replicate (Z.to_nat IME_MAX_OUTPUT_LENGTH) 0;
     clipboard_length := 0 |}.

Definition memset_session (session : ImeSession) : ImeSession := zero_session.

Definition ime_session_init (session : ImeSession) (panel : Z) (max_length : Z)
    (caller : option (list Z)) (prefill : option (list Z))
  : outcome (Z * ImeSession) :=
  let max_length :=
    if (max_length =? 0) || (IME_MAX_OUTPUT_LENGTH <? max_length)
    then CLAMP max_length 1 IME_MAX_OUTPUT_LENGTH else max_length in
  let s := memset_session session in
  '(cs, cs_len) ← charset_for_panel panel;
  let s :=
    {| state := IME_STATE_ACTIVE; charset := cs; charset_length := cs_len;
       cursor_index := 0;
       output := output s; output_length := output_length s;
       max_output_length := max_length; text_cursor := text_cursor s;
       selected_all := selected_all s; sel_start := sel_start s;
       sel_end := sel_end s;
       last_cycle_time_us := last_cycle_time_us s;
       hold_start_time_us := hold_start_time_us s; dpad_held := dpad_held s;
       hold_direction := hold_direction s;
       cycle_config := {| initial_delay_ms := 400; repeat_interval_ms := 150;
                          accel_threshold_ms := 1500; accel_interval_ms := 50 |};
       caller_buffer := caller; panel_type := panel;
       clipboard := clipboard s; clipboard_length := clipboard_length s |} in
  match prefill with
  | Some _ =>
      prefill_len ← safe_u16_strlen prefill max_length;
      out ← safe_u16_copy (Some (output s)) prefill max_length;
      Done (IME_OK,
            set_text_cursor prefill_len
              (set_output_length prefill_len
                 (set_output (default (output s) out) s)))
  | None => Done (IME_OK, s)
  end.

(** ** Cycling *)

(** [delta] is an [int8_t]; the sum is computed in [int64_t]. *)
Definition ime_session_cycle (s : ImeSession) (delta : Z) : ImeSession :=
  if negb (is_active s) then s
  else if charset_length s =? 0 then s
  else
    let new_idx := cursor_index s + delta in
    set_cursor_index (wrap_index new_idx (charset_length s)) s.

Definition ime_session_confirm_char (s : ImeSession)
  : outcome (bool * ImeSession) :=
  if negb (is_active s) then Done (false, s)
  else if max_output_length s <=? output_length s then Done (false, s)
  else if charset_length s <=? cursor_index s then Done (false, s)
  else
    c ← load (charset s) (cursor_index s);
    out ← store (output s) (output_length s) (u16 c);
    let len := u32 (output_length s + 1) in
    out ← store out len 0;
    Done (true, set_cursor_index 0 (set_output out (set_output_length len s))).

(** ** Selection *)

Definition ime_session_set_selection (s : ImeSession) (start end_ : Z)
  : ImeSession :=
  if negb (is_active s) then s
  else
    let start := if output_length s <? start then output_length s else start in
    let end_ := if output_length s <? end_ then output_length s else end_ in
    let '(start, end_) := if end_ <? start then (end_, start) else (start, end_) in
    set_selected_all false (set_sel_end end_ (set_sel_start start s)).

Definition ime_session_clear_selection (s : ImeSession) : ImeSession :=
  set_selected_all false (set_sel_end 0 (set_sel_start 0 s)).

(** [for (i = s; i + del_len < output_length; i++)
       output[i] = output[i + del_len];]
    [i] grows by one each round and stays below [len], so [len] rounds
    of fuel are never used up. *)
Fixpoint delete_loop (fuel : nat) (out : list Z) (i del_len len : Z)
  : outcome (list Z) :=
  match fuel with
  | O => Done out
  | S f =>
      if u32 (i + del_len) <? len then
        v ← load out (u32 (i + del_len));
        out' ← store out i v;
        delete_loop f out' (u32 (i + 1)) del_len len
      else Done out
  end.

Definition ime_session_delete_selection (s : ImeSession) : outcome ImeSession :=
  if negb (is_active s) then Done s
  else
    let s0 := sel_start s in
    let e0 := sel_end s in
    if s0 =? e0 then Done s
    else
      let '(s1, e1) := if e0 <? s0 then (e0, s0) else (s0, e0) in
      let e1 := if output_length s <? e1 then output_length s else e1 in
      if output_length s <? s1 then Done s
      else
        let del_len := u32 (e1 - s1) in
        out ← delete_loop (Z.to_nat (output_length s)) (output s) s1 del_len
                (output_length s);
        let len := u32 (output_length s - del_len) in
        out ← store out len 0;
        Done (set_selected_all false
                (set_sel_end 0
                   (set_sel_start 0
                      (set_text_cursor s1
                         (set_output out (set_output_length len s)))))).

Definition ime_session_select_all (s : ImeSession) : ImeSession :=
  if negb (is_active s) then s
  else if output_length s =? 0 then s
  else
    set_text_cursor (output_length s)
      (set_sel_end (output_length s)
         (set_sel_start 0 (set_selected_all true s))).

(** ** Direct insertion and deletion *)

(** The block that empties the buffer when everything is selected; the
    source repeats it in [clear_if_selected], [ime_session_backspace],
    [ime_session_cut] and [ime_session_paste]. *)
Definition clear_all_selected (s : ImeSession) : outcome ImeSession :=
  out ← store (output s) 0 0;
  Done (set_sel_end 0
          (set_sel_start 0
             (set_selected_all false
                (set_output out
                   (set_text_cursor 0 (set_output_length 0 s)))))).

Definition clear_if_selected (s : ImeSession) : outcome ImeSession :=
  if selected_all s then clear_all_selected s
  else if negb (sel_start s =? sel_end s) then ime_session_delete_selection s
  else Done s.

(** [for (i = output_length; i > pos; i--) output[i] = output[i - 1];] *)
Fixpoint add_shift_loop (i : nat) (pos : Z) (out : list Z) : outcome (list Z) :=
  match i with
  | O => Done out
  | S i' =>
      if pos <? Z.of_nat i then
        v ← load out (Z.of_nat i - 1);
        out' ← store out (Z.of_nat i) v;
        add_shift_loop i' pos out'
      else Done out
  end.

Definition ime_session_add_char16 (s : ImeSession) (c : Z)
  : outcome (bool * ImeSession) :=
  if negb (is_active s) then Done (false, s)
  else
    s ← clear_if_selected s;
    if max_output_length s <=? output_length s then Done (false, s)
    else
      let pos := text_cursor s in
      let pos := if output_length s <? pos then output_length s else pos in
      out ← add_shift_loop (Z.to_nat (output_length s)) pos (output s);
      out ← store out pos c;
      let len := u32 (output_length s + 1) in
      out ← store out len 0;
      Done (true,
            set_output out
              (set_text_cursor (u32 (pos + 1)) (set_output_length len s))).

(** [c] is a [char]; the cast to [uint16_t] reduces modulo 2^16. *)
Definition ime_session_add_char (s : ImeSession) (c : Z)
  : outcome (bool * ImeSession) :=
  ime_session_add_char16 s (u16 c).

(** [for (i = pos; i < output_length - 1; i++) output[i] = output[i + 1];] *)
Fixpoint backspace_loop (fuel : nat) (out : list Z) (i bound : Z)
  : outcome (list Z) :=
  match fuel with
  | O => Done out
  | S f =>
      if i <? bound then
        v ← load out (u32 (i + 1));
        out' ← store out i v;
        backspace_loop f out' (u32 (i + 1)) bound
      else Done out
  end.

Definition ime_session_backspace (s : ImeSession)
  : outcome (bool * ImeSession) :=
  if negb (is_active s) then Done (false, s)
  else if selected_all s then
    s' ← clear_all_selected s; Done (true, s')
  else if negb (sel_start s =? sel_end s) then
    s' ← ime_session_delete_selection s; Done (true, s')
  else if (text_cursor s =? 0) || (output_length s =? 0) then Done (false, s)
  else
    let pos := u32 (text_cursor s - 1) in
    out ← backspace_loop (Z.to_nat (output_length s)) (output s) pos
            (u32 (output_length s - 1));
    let len := u32 (output_length s - 1) in
    out ← store out len 0;
    Done (true,
          set_output out (set_text_cursor pos (set_output_length len s))).

(** ** Cursor movement *)

Definition ime_session_cursor_left (s : ImeSession) : ImeSession :=
  if negb (is_active s) then s
  else
    let s := set_selected_all false s in
    if 0 <? text_cursor s then set_text_cursor (u32 (text_cursor s - 1)) s
    else s.

Definition ime_session_cursor_right (s : ImeSession) : ImeSession :=
  if negb (is_active s) then s
  else
    let s := set_selected_all false s in
    if text_cursor s <? output_length s
    then set_text_cursor (u32 (text_cursor s + 1)) s
    else s.

Definition ime_session_cursor_home (s : ImeSession) : ImeSession :=
  if negb (is_active s) then s
  else set_text_cursor 0 (set_selected_all false s).

Definition ime_session_cursor_end (s : ImeSession) : ImeSession :=
  if negb (is_active s) then s
  else set_text_cursor (output_length s) (set_selected_all false s).

(** ** Submit and cancel *)

Definition ime_session_submit (s : ImeSession) : outcome ImeSession :=
  if negb (is_active s) then Done s
  else
    match caller_buffer s with
    | Some _ =>
        cb ← safe_u16_copy (caller_buffer s) (Some (output s))
               (max_output_length s);
        Done (set_state IME_STATE_CONFIRMING (set_caller_buffer cb s))
    | None => Done (set_state IME_STATE_CONFIRMING s)
    end.

Definition ime_session_cancel (s : ImeSession) : ImeSession :=
  set_state IME_STATE_CANCELLED s.

(** ** Clipboard *)

Definition ime_session_copy (s : ImeSession) : outcome ImeSession :=
  if negb (is_active s) then Done s
  else
    let range :=
      if selected_all s then Some (0, output_length s)
      else if negb (sel_start s =? sel_end s) then
        Some (if sel_end s <? sel_start s
              then (sel_end s, sel_start s) else (sel_start s, sel_end s))
      else None in
    match range with
    | None => Done s
    | Some (s0, e0) =>
        let len := u32 (e0 - s0) in
        let len := if IME_MAX_OUTPUT_LENGTH <? len
                   then IME_MAX_OUTPUT_LENGTH else len in
        clip ← memcpy_u16 (Z.to_nat len) (clipboard s) 0 (output s) s0;
        Done (set_clipboard_length len (set_clipboard clip s))
    end.

Definition ime_session_cut (s : ImeSession) : outcome ImeSession :=
  if negb (is_active s) then Done s
  else
    s ← ime_session_copy s;
    if 0 <? clipboard_length s then
      if selected_all s then clear_all_selected s
      else ime_session_delete_selection s
    else Done s.

(** [for (i = output_length; i > pos; i--)
       output[i + paste_len - 1] = output[i - 1];] *)
Fixpoint paste_shift_loop (i : nat) (pos paste_len : Z) (out : list Z)
  : outcome (list Z) :=
  match i with
  | O => Done out
  | S i' =>
      if pos <? Z.of_nat i then
        v ← load out (Z.of_nat i - 1);
        out' ← store out (u32 (Z.of_nat i + paste_len - 1)) v;
        paste_shift_loop i' pos paste_len out'
      else Done out
  end.

Definition ime_session_paste (s : ImeSession) : outcome ImeSession :=
  if negb (is_active s) then Done s
  else if clipboard_length s =? 0 then Done s
  else
    s ← (if selected_all s then clear_all_selected s
         else if negb (sel_start s =? sel_end s)
              then ime_session_delete_selection s
              else Done s);
    let avail := u32 (max_output_length s - output_length s) in
    let paste_len := clipboard_length s in
    let paste_len := if avail <? paste_len then avail else paste_len in
    if paste_len =? 0 then Done s
    else
      let pos := text_cursor s in
      let pos := if output_length s <? pos then output_length s else pos in
      out ← paste_shift_loop (Z.to_nat (output_length s)) pos paste_len
              (output s);
      out ← memcpy_u16 (Z.to_nat paste_len) out pos (clipboard s) 0;
      let len := u32 (output_length s + paste_len) in
      out ← store out len 0;
      Done (set_output out
              (set_text_cursor (u32 (pos + paste_len))
                 (set_output_length len s))).

(** ** Display helpers and timing *)

Definition ime_session_current_char (s : ImeSession) : outcome Z :=
  if negb (is_active s) then Done 0
  else if charset_length s <=? cursor_index s then Done 0
  else load (charset s) (cursor_index s).

(** Both output pointers are taken to be non-null; the pair holds what is
    stored through [prev_out] and [next_out]. *)
Definition ime_session_get_neighbors (s : ImeSession) : outcome (Z * Z) :=
  if negb (is_active s) || (charset_length s =? 0) then Done (0, 0)
  else
    let prev := wrap_index (cursor_index s - 1) (charset_length s) in
    let next := wrap_index (cursor_index s + 1) (charset_length s) in
    p ← load (charset s) prev;
    n ← load (charset s) next;
    Done (p, n).

(** [current_us] and the two stored times are [uint64_t]; the differences
    wrap modulo 2^64 and the divisions are on unsigned values. *)
Definition ime_session_update_timing (s : ImeSession) (current_us : Z)
  : ImeSession :=
  if negb (is_active s) then s
  else if negb (dpad_held s) || (hold_direction s =? 0) then s
  else
    let held_ms := u64 (current_us - hold_start_time_us s) / 1000 in
    let since_ms := u64 (current_us - last_cycle_time_us s) / 1000 in
    let interval := repeat_interval_ms (cycle_config s) in
    let interval :=
      if accel_threshold_ms (cycle_config s) <? held_ms
      then accel_interval_ms (cycle_config s) else interval in
    if held_ms <? initial_delay_ms (cycle_config s) then s
    else if since_ms <? interval then s
    else
      set_last_cycle_time_us current_us
        (ime_session_cycle s (hold_direction s)).

(** ** Sequences of editing calls *)

(** The calls an input router makes on an active session: direct
    insertion, backspace, selection deletion, the four cursor movements
    and the three selection calls. *)
Inductive edit_op : Type :=
| OpInsert (c : Z)
| OpBackspace
| OpDeleteSelection
| OpCursorLeft
| OpCursorRight
| OpCursorHome
| OpCursorEnd
| OpSetSelection (start end_ : Z)
| OpClearSelection
| OpSelectAll.

Definition apply_op (op : edit_op) (s : ImeSession) : outcome ImeSession :=
  match op with
  | OpInsert c => r ← ime_session_add_char16 s c; Done (snd r)
  | OpBackspace => r ← ime_session_backspace s; Done (snd r)
  | OpDeleteSelection => ime_session_delete_selection s
  | OpCursorLeft => Done (ime_session_cursor_left s)
  | OpCursorRight => Done (ime_session_cursor_right s)
  | OpCursorHome => Done (ime_session_cursor_home s)
  | OpCursorEnd => Done (ime_session_cursor_end s)
  | OpSetSelection a b => Done (ime_session_set_selection s a b)
  | OpClearSelection => Done (ime_session_clear_selection s)
  | OpSelectAll => Done (ime_session_select_all s)
  end.

Fixpoint run_ops (ops : list edit_op) (s : ImeSession) : outcome ImeSession :=
  match ops with
  | [] => Done s
  | op :: rest => s' ← apply_op op s; run_ops rest s'
  end.

(** Arguments are [uint16_t] and [uint32_t] values. *)
Definition valid_op (op : edit_op) : Prop :=
  match op with
  | OpInsert c => 0 <= c < 2 ^ 16
  | OpSetSelection a b => 0 <= a <= U32_MAX /\ 0 <= b <= U32_MAX
  | _ => True
  end.

(** The four cursor movements, by direction. *)
Inductive cursor_move : Type := MoveLeft | MoveRight | MoveHome | MoveEnd.

Definition move_cursor (m : cursor_move) (s : ImeSession) : ImeSession :=
  match m with
  | MoveLeft => ime_session_cursor_left s
  | MoveRight => ime_session_cursor_right s
  | MoveHome => ime_session_cursor_home s
  | MoveEnd => ime_session_cursor_end s
  end.

(** ** Invariants *)

(** The array fields have their declared sizes. *)
Definition arrays_ok (s : ImeSession) : Prop :=
  length (output s) = Z.to_nat IME_MAX_OUTPUT_LENGTH /\
  length (clipboard s) = Z.to_nat IME_MAX_OUTPUT_LENGTH.

(** The invariant as the data model words it. *)
Definition spec_invariant (s : ImeSession) : Prop :=
  (0 <= text_cursor s /\ text_cursor s <= output_length s /\
   output_length s <= max_output_length s) /\
  (sel_start s <= sel_end s /\ sel_end s <= output_length s).

(** The invariant the code maintains: the selection bounds are ordered,
    and they are within the text whenever a partial selection is
    active ([sel_start <> sel_end]). *)
Definition session_invariant (s : ImeSession) : Prop :=
  (0 <= text_cursor s /\ text_cursor s <= output_length s /\
   output_length s <= max_output_length s) /\
  (0 <= sel_start s /\ sel_start s <= sel_end s /\ sel_end s <= U32_MAX) /\
  (sel_start s <> sel_end s -> sel_end s <= output_length s).

Definition wf_session (s : ImeSession) : Prop :=
  arrays_ok s /\ session_invariant s /\
  max_output_length s <= IME_MAX_OUTPUT_LENGTH.

(** The result of one call on a well-formed session: either it completes
    in a well-formed session with the same capacity and state, or it
    stores at index 256 and the capacity is the full array size. *)
Definition step_ok (s : ImeSession) (r : outcome ImeSession) : Prop :=
  (exists s', r = Done s' /\ wf_session s' /\
              max_output_length s' = max_output_length s /\
              state s' = state s) \/
  (r = OutOfBounds 256 /\ max_output_length s = IME_MAX_OUTPUT_LENGTH).

(** All the calls that change an active session without ending it: the
    editing calls, the clipboard, and the charset-cycling front end. *)
Inductive session_op : Type :=
| OpEdit (e : edit_op)
| OpCopy
| OpCut
| OpPaste
| OpConfirmChar
| OpCycle (delta : Z)
| OpUpdateTiming (current_us : Z).

Definition apply_session_op (op : session_op) (s : ImeSession)
  : outcome ImeSession :=
  match op with
  | OpEdit e => apply_op e s
  | OpCopy => ime_session_copy s
  | OpCut => ime_session_cut s
  | OpPaste => ime_session_paste s
  | OpConfirmChar => r ← ime_session_confirm_char s; Done (snd r)
  | OpCycle delta => Done (ime_session_cycle s delta)
  | OpUpdateTiming current_us => Done (ime_session_update_timing s current_us)
  end.

Fixpoint run_session_ops (ops : list session_op) (s : ImeSession)
  : outcome ImeSession :=
  match ops with
  | [] => Done s
  | op :: rest => s' ← apply_session_op op s; run_session_ops rest s'
  end.

(** Arguments are [uint16_t], [uint32_t] and [int8_t] values. *)
Definition valid_session_op (op : session_op) : Prop :=
  match op with
  | OpEdit e => valid_op e
  | OpCycle delta => -128 <= delta <= 127
  | _ => True
  end.

(** What the clipboard and the cycling front end need on top of
    [wf_session]: the clipboard length fits the clipboard array, the
    charset holds [charset_length] characters, and the cycle cursor is a
    [uint32_t]. *)
Definition wf_full (s : ImeSession) : Prop :=
  wf_session s /\
  0 <= clipboard_length s <= IME_MAX_OUTPUT_LENGTH /\
  0 <= charset_length s <= Z.of_nat (length (charset s)) /\
  charset_length s <= IME_MAX_CHARSET_SIZE /\
  0 <= cursor_index s <= U32_MAX.

(** [step_ok] for the extended invariant. *)
Definition step_full_ok (s : ImeSession) (r : outcome ImeSession) : Prop :=
  (exists s', r = Done s' /\ wf_full s' /\
              max_output_length s' = max_output_length s /\
              state s' = state s) \/
  (r = OutOfBounds 256 /\ max_output_length s = IME_MAX_OUTPUT_LENGTH).

(** The fields an editing call leaves alone. *)
Definition same_clipboard_and_cycle (s s' : ImeSession) : Prop :=
  clipboard s' = clipboard s /\ clipboard_length s' = clipboard_length s /\
  charset s' = charset s /\ charset_length s' = charset_length s /\
  cursor_index s' = cursor_index s.

(** Boolean form of [wf_session], for concrete sessions. *)
Definition wf_sessionb (s : ImeSession) : bool :=
  (length (output s) =? Z.to_nat IME_MAX_OUTPUT_LENGTH)%nat
  && (length (clipboard s) =? Z.to_nat IME_MAX_OUTPUT_LENGTH)%nat
  && (0 <=? text_cursor s) && (text_cursor s <=? output_length s)
  && (output_length s <=? max_output_length s)
  && (0 <=? sel_start s) && (sel_start s <=? sel_end s)
  && (sel_end s <=? U32_MAX)
  && ((sel_start s =? sel_end s) || (sel_end s <=? output_length s))
  && (max_output_length s <=? IME_MAX_OUTPUT_LENGTH).

(** ** Concrete sessions *)

(** The session a successful [ime_session_init] leaves. *)
Definition session_after_init (panel max_length : Z)
    (caller prefill : option (list Z)) : ImeSession :=
  match ime_session_init zero_session panel max_length caller prefill with
  | Done (_, s) => s
  | OutOfBounds _ => zero_session
  end.

Definition session_after (ops : list edit_op) (s : ImeSession) : ImeSession :=
  match run_ops ops s with
  | Done s' => s'
  | OutOfBounds _ => s
  end.

(** A session in which the caller has recorded a held D-pad direction:
    [dpad_held], [hold_direction] and [hold_start_time_us] are fields of
    the public struct that no function of the module assigns. *)
Definition session_holding (direction start_us : Z) (s : ImeSession)
  : ImeSession :=
  {| state := state s; charset := charset s;
     charset_length := charset_length s; cursor_index := cursor_index s;
     output := output s; output_length := output_length s;
     max_output_length := max_output_length s;
     text_cursor := text_cursor s; selected_all := selected_all s;
     sel_start := sel_start s; sel_end := sel_end s;
     last_cycle_time_us := last_cycle_time_us s;
     hold_start_time_us := start_us; dpad_held := true;
     hold_direction := direction; cycle_config := cycle_config s;
     caller_buffer := caller_buffer s; panel_type := panel_type s;
     clipboard := clipboard s; clipboard_length := clipboard_length s |}.

(** Array element as an option, on [Z] indices. *)
Definition get (a : list Z) (i : Z) : option Z :=
  if i <? 0 then None else a !! Z.to_nat i.

(** What a loop leaves in the array: it ran to completion, kept the size,
    and element [j] of the result is given by [f]. *)
Definition loop_result (r : outcome (list Z)) (a : list Z)
    (f : Z -> option Z) : Prop :=
  exists a', r = Done a' /\ length a' = length a /\ forall j, get a' j = f j.

(** The first [n] elements of the output buffer: the text. *)
Definition text_of (s : ImeSession) : list Z :=
  take (Z.to_nat (output_length s)) (output s).

(** ** thumbgrid_ipc.h and the shell-side reader *)

Module Ipc.

Record ThumbGridSharedState : Type := {
  sequence : Z;
  ime_active : Z;
  selected_cell : Z;
  current_page : Z;
  accent_mode : Z;
  output : list Z;
  output_length : Z;
  text_cursor : Z;
  selected_all : Z;
  sel_start : Z;
  sel_end : Z;
  title : list Z;
  page_name : list Z;
  cells : list (list Z);
  offset_x : Z;
  offset_y : Z;
  shift_active : Z
}.

Definition set_sequence (v : Z) (m : ThumbGridSharedState) : ThumbGridSharedState :=
  {| sequence := v; ime_active := ime_active m;
     selected_cell := selected_cell m; current_page := current_page m;
     accent_mode := accent_mode m; output := output m;
     output_length := output_length m; text_cursor := text_cursor m;
     selected_all := selected_all m; sel_start := sel_start m;
     sel_end := sel_end m; title := title m; page_name := page_name m;
     cells := cells m; offset_x := offset_x m; offset_y := offset_y m;
     shift_active := shift_active m |}.

Definition set_ime_active (v : Z) (m : ThumbGridSharedState) : ThumbGridSharedState :=
  {| sequence := sequence m; ime_active := v;
     selected_cell := selected_cell m; current_page := current_page m;
     accent_mode := accent_mode m; output := output m;
     output_length := output_length m; text_cursor := text_cursor m;
     selected_all := selected_all m; sel_start := sel_start m;
     sel_end := sel_end m; title := title m; page_name := page_name m;
     cells := cells m; offset_x := offset_x m; offset_y := offset_y m;
     shift_active := shift_active m |}.

(** [memset(&state, 0, sizeof state)]. *)
Definition zero_state : ThumbGridSharedState :=
  {| sequence := 0; ime_active := 0; selected_cell := 0; current_page := 0;
     accent_mode := 0; output := replicate 256 0; output_length := 0;
     text_cursor := 0; selected_all := 0; sel_start := 0; sel_end := 0;
     title := replicate 48 0; page_name := replicate 8 0;
     cells := replicate 9 (replicate 4 0); offset_x := 0; offset_y := 0;
     shift_active := 0 |}.

(** Writer side: [s->sequence++] before and after the field writes. *)
Definition thumbgrid_ipc_write_begin (m : ThumbGridSharedState)
  : ThumbGridSharedState :=
  set_sequence (u32 (sequence m + 1)) m.

Definition thumbgrid_ipc_write_end (m : ThumbGridSharedState)
  : ThumbGridSharedState :=
  set_sequence (u32 (sequence m + 1)) m.

(** The source record is [volatile] and another process writes it, so the
    three accesses of one read attempt may see three different moments:
    the first load of [sequence], the struct copy, and the second load of
    [sequence]. *)
Record volatile_reads : Type := {
  seq_before : Z;
  copied : ThumbGridSharedState;
  seq_after : Z
}.

(** What the accesses see when nobody writes in between. *)
Definition quiescent (m : ThumbGridSharedState) : volatile_reads :=
  {| seq_before := sequence m; copied := m; seq_after := sequence m |}.

(** Returns the [int] result and the contents of [*dst]. *)
Definition thumbgrid_ipc_read (src : volatile_reads) (dst : ThumbGridSharedState)
  : Z * ThumbGridSharedState :=
  let seq1 := seq_before src in
  if negb (Z.land seq1 1 =? 0) then (0, dst)
  else
    let dst := copied src in
    let seq2 := seq_after src in
    (if seq1 =? seq2 then 1 else 0, dst).

(** *** The writer's protocol

    Every writer path in [src/ime_hook.c] ([ipc_sync_state], [ipc_close],
    [hooked_ime_dialog_term]) has the shape
    [thumbgrid_ipc_write_begin; field stores; thumbgrid_ipc_write_end].
    The stores reach the shared record one at a time, and a reader in
    another process may run between any two of them. *)
Inductive writer_event : Type :=
| WBegin
| WField (f : ThumbGridSharedState -> ThumbGridSharedState)
| WEnd.

Definition apply_event (e : writer_event) (m : ThumbGridSharedState)
  : ThumbGridSharedState :=
  match e with
  | WBegin => thumbgrid_ipc_write_begin m
  | WField f => f m
  | WEnd => thumbgrid_ipc_write_end m
  end.

Definition run_events (evs : list writer_event) (m : ThumbGridSharedState)
  : ThumbGridSharedState :=
  fold_left (fun m e => apply_event e m) evs m.

(** The record before the events and after each of them. *)
Fixpoint history (evs : list writer_event) (m : ThumbGridSharedState)
  : list ThumbGridSharedState :=
  match evs with
  | [] => [m]
  | e :: rest => m :: history rest (apply_event e m)
  end.

(** Events that follow the protocol; the flag tells whether a write is in
    progress.  Field stores leave [sequence] alone and happen only
    between a begin and an end. *)
Inductive follows_protocol : bool -> list writer_event -> Prop :=
| follows_nil (writing : bool) : follows_protocol writing []
| follows_begin (evs : list writer_event) :
    follows_protocol true evs -> follows_protocol false (WBegin :: evs)
| follows_field (f : ThumbGridSharedState -> ThumbGridSharedState)
    (evs : list writer_event) :
    (forall m, sequence (f m) = sequence m) ->
    follows_protocol true evs -> follows_protocol true (WField f :: evs)
| follows_end (evs : list writer_event) :
    follows_protocol false evs -> follows_protocol true (WEnd :: evs).

(** Whether a write is in progress after a run of events that started
    with the flag [writing]. *)
Fixpoint writing_after (writing : bool) (evs : list writer_event) : bool :=
  match evs with
  | [] => writing
  | WBegin :: rest => writing_after true rest
  | WField _ :: rest => writing_after writing rest
  | WEnd :: rest => writing_after false rest
  end.

(** The struct copy [*dst = *s] reads the fields one after another, each
    from the record as it is at that moment: every field of the copy
    comes from one of the states in [ms]. *)
Definition assembled_from (c : ThumbGridSharedState)
    (ms : list ThumbGridSharedState) : Prop :=
  (exists m, m ∈ ms /\ sequence c = sequence m) /\
  (exists m, m ∈ ms /\ ime_active c = ime_active m) /\
  (exists m, m ∈ ms /\ selected_cell c = selected_cell m) /\
  (exists m, m ∈ ms /\ current_page c = current_page m) /\
  (exists m, m ∈ ms /\ accent_mode c = accent_mode m) /\
  (exists m, m ∈ ms /\ output c = output m) /\
  (exists m, m ∈ ms /\ output_length c = output_length m) /\
  (exists m, m ∈ ms /\ text_cursor c = text_cursor m) /\
  (exists m, m ∈ ms /\ selected_all c = selected_all m) /\
  (exists m, m ∈ ms /\ sel_start c = sel_start m) /\
  (exists m, m ∈ ms /\ sel_end c = sel_end m) /\
  (exists m, m ∈ ms /\ title c = title m) /\
  (exists m, m ∈ ms /\ page_name c = page_name m) /\
  (exists m, m ∈ ms /\ cells c = cells m) /\
  (exists m, m ∈ ms /\ offset_x c = offset_x m) /\
  (exists m, m ∈ ms /\ offset_y c = offset_y m) /\
  (exists m, m ∈ ms /\ shift_active c = shift_active m).

(** *** shell-overlay/src/main.c *)

Definition IPC_STALE_TIMEOUT_US : Z := 2000000.

(** The consumer of the snapshots: the cached copy and whether the grid
    panel is shown.  The widget property updates themselves are
    rendering and are not modelled. *)
Record widgets : Type := {
  g_cached_state : ThumbGridSharedState;
  grid_visible : bool
}.

Definition update_widgets (w : widgets) (st : ThumbGridSharedState) : widgets :=
  let cached_active := negb (ime_active (g_cached_state w) =? 0) in
  let st_active := negb (ime_active st =? 0) in
  let visible :=
    if st_active && negb cached_active then true
    else if negb st_active && cached_active then false
    else grid_visible w in
  {| g_cached_state := st; grid_visible := visible |}.

(** The successful tail of [ipc_reader_open]: the cache is zeroed and the
    mapped record gets [sequence = 0], [ime_active = 0]. *)
Definition ipc_reader_open (w : widgets) (m : ThumbGridSharedState)
  : widgets * ThumbGridSharedState :=
  ({| g_cached_state := zero_state; grid_visible := grid_visible w |},
   set_ime_active 0 (set_sequence 0 m)).

(** Locals of [poll_thread] that survive an iteration. *)
Record poll_locals : Type := {
  read_ok : Z;
  read_fail : Z;
  last_seq : Z;
  last_seq_change_us : Z
}.

Definition poll_attached : poll_locals :=
  {| read_ok := 0; read_fail := 0; last_seq := 0; last_seq_change_us := 0 |}.

(** One iteration of the [while (g_running)] loop once the record is
    mapped.  [m] is the mapped record as the reader's own stores find
    it, [src] what [thumbgrid_ipc_read] sees, [now_us] the value of
    [sceKernelGetProcessTime()].  The third component is the snapshot
    handed to [update_widgets], if any.  The local [snap] is not
    initialised in the source; its initial contents are never used. *)
Definition poll_iteration (l : poll_locals) (w : widgets)
    (m : ThumbGridSharedState) (src : volatile_reads) (now_us : Z)
  : poll_locals * widgets * ThumbGridSharedState * option ThumbGridSharedState :=
  let '(ok, snap) := thumbgrid_ipc_read src zero_state in
  if negb (ok =? 0) then
    let l := {| read_ok := u32 (read_ok l + 1); read_fail := read_fail l;
                last_seq := last_seq l;
                last_seq_change_us := last_seq_change_us l |} in
    let l :=
      if negb (sequence snap =? last_seq l) then
        {| read_ok := read_ok l; read_fail := read_fail l;
           last_seq := sequence snap; last_seq_change_us := now_us |}
      else l in
    if negb (ime_active snap =? 0) && (0 <? last_seq_change_us l)
       && (IPC_STALE_TIMEOUT_US <? u64 (now_us - last_seq_change_us l))
    then
      let snap := set_ime_active 0 snap in
      let m := set_sequence 0 (set_ime_active 0 m) in
      let l := {| read_ok := read_ok l; read_fail := read_fail l;
                  last_seq := 0; last_seq_change_us := 0 |} in
      (l, update_widgets w snap, m, Some snap)
    else (l, update_widgets w snap, m, Some snap)
  else
    ({| read_ok := read_ok l; read_fail := u32 (read_fail l + 1);
        last_seq := last_seq l; last_seq_change_us := last_seq_change_us l |},
     w, m, None).

(** A run of iterations over a record that no writer touches: each read
    sees the record as the reader itself left it.  Returns the final
    locals, consumer and record, and what each iteration handed to
    [update_widgets]. *)
Fixpoint poll_undisturbed (times : list Z) (l : poll_locals) (w : widgets)
    (m : ThumbGridSharedState)
  : poll_locals * widgets * ThumbGridSharedState
    * list (option ThumbGridSharedState) :=
  match times with
  | [] => (l, w, m, [])
  | now_us :: rest =>
      let '(l1, w1, m1, shown) := poll_iteration l w m (quiescent m) now_us in
      let '(l2, w2, m2, later) := poll_undisturbed rest l1 w1 m1 in
      (l2, w2, m2, shown :: later)
  end.

End Ipc.

(** ** thumbgrid.h and thumbgrid.c: the 3x3 grid *)

Module ThumbGrid.

Definition TG_CELLS : Z := 9.
Definition TG_BUTTONS : Z := 4.
Definition TG_MAX_PAGES : Z := 3.
Definition TG_CENTER_CELL : Z := 4.

Definition TG_BTN_TRIANGLE : Z := 0.
Definition TG_BTN_CIRCLE : Z := 1.
Definition TG_BTN_CROSS : Z := 2.
Definition TG_BTN_SQUARE : Z := 3.

Definition TG_SPECIAL_BKSP : Z := 2.
Definition TG_SPECIAL_SPACE : Z := 3.
Definition TG_SPECIAL_ACCENT : Z := 4.
Definition TG_SPECIAL_SELALL : Z := 5.
Definition TG_SPECIAL_EXIT : Z := 6.
Definition TG_SPECIAL_CUT : Z := 7.
Definition TG_SPECIAL_COPY : Z := 8.
Definition TG_SPECIAL_PASTE : Z := 9.
Definition TG_SPECIAL_CAPS : Z := 10.

Definition TG_TITLE_MAX : Z := 48.

(** [name] is a C string, [chars] the array [char chars[9][4]]. *)
Record ThumbGridPage : Type := {
  name : list Z;
  chars : list (list Z)
}.

(** The four characters of one cell. *)
Definition cell (s : string) : list Z :=
  map (fun a => Z.of_N (N_of_ascii a)) (list_ascii_of_string s).

(** Cell 4: [{SPC, EXT, SEL, BKS}]. *)
Definition center : list Z :=
  [TG_SPECIAL_SPACE; TG_SPECIAL_EXIT; TG_SPECIAL_SELALL; TG_SPECIAL_BKSP].

Definition g_thumbgrid_pages : list ThumbGridPage :=
  [ {| name := c_string "abc";
       chars := [cell "abcd"; cell "efgh"; cell "ijkl"; cell "mnop"; center;
                 cell "qrst"; cell "uvwx"; cell "yz.,"; cell "!?'-"] |};
    {| name := c_string "ABC";
       chars := [cell "ABCD"; cell "EFGH"; cell "IJKL"; cell "MNOP"; center;
                 cell "QRST"; cell "UVWX"; cell "YZ.,"; cell "!?'-"] |};
    {| name := c_string "123";
       chars := [cell "123+"; cell "456="; cell "7890"; cell "@#$%"; center;
                 cell "&*()"; cell "_/\|"; cell "[]{}"; [60; 62; 34; 126]] |} ].

(** [pages] is a pointer: [None] for [NULL], otherwise the array it points
    to. *)
Record ThumbGridState : Type := {
  selected_cell : Z;
  current_page : Z;
  page_count : Z;
  pages : option (list ThumbGridPage);
  offset_x : Z;
  offset_y : Z;
  accent_mode : bool;
  title : list Z
}.

Definition set_selected_cell (v : Z) (st : ThumbGridState) : ThumbGridState :=
  {| selected_cell := v; current_page := current_page st;
     page_count := page_count st; pages := pages st;
     offset_x := offset_x st; offset_y := offset_y st;
     accent_mode := accent_mode st; title := title st |}.

Definition set_current_page (v : Z) (st : ThumbGridState) : ThumbGridState :=
  {| selected_cell := selected_cell st; current_page := v;
     page_count := page_count st; pages := pages st;
     offset_x := offset_x st; offset_y := offset_y st;
     accent_mode := accent_mode st; title := title st |}.

Definition set_offset_x (v : Z) (st : ThumbGridState) : ThumbGridState :=
  {| selected_cell := selected_cell st; current_page := current_page st;
     page_count := page_count st; pages := pages st;
     offset_x := v; offset_y := offset_y st;
     accent_mode := accent_mode st; title := title st |}.

Definition set_offset_y (v : Z) (st : ThumbGridState) : ThumbGridState :=
  {| selected_cell := selected_cell st; current_page := current_page st;
     page_count := page_count st; pages := pages st;
     offset_x := offset_x st; offset_y := v;
     accent_mode := accent_mode st; title := title st |}.

Definition set_accent_mode (v : bool) (st : ThumbGridState) : ThumbGridState :=
  {| selected_cell := selected_cell st; current_page := current_page st;
     page_count := page_count st; pages := pages st;
     offset_x := offset_x st; offset_y := offset_y st;
     accent_mode := v; title := title st |}.

(** Every field is assigned; of the title only element 0. *)
Definition thumbgrid_init (st : ThumbGridState) : ThumbGridState :=
  {| selected_cell := TG_CENTER_CELL; current_page := 0;
     page_count := TG_MAX_PAGES; pages := Some g_thumbgrid_pages;
     offset_x := 0; offset_y := 0; accent_mode := false;
     title := <[0%nat := 0]> (title st) |}.

(** [stick_x] and [stick_y] are [uint8_t]. *)
Definition thumbgrid_select_cell (st : ThumbGridState) (stick_x stick_y : Z)
  : ThumbGridState :=
  let col := if stick_x <? 78 then 0 else if 178 <? stick_x then 2 else 1 in
  let row := if stick_y <? 78 then 0 else if 178 <? stick_y then 2 else 1 in
  set_selected_cell (row * 3 + col) st.

(** [a[i]] for the arrays of pages, cells and buttons. *)
Definition load_at {A : Type} (a : list A) (i : Z) : outcome A :=
  if i <? 0 then OutOfBounds i
  else match a !! Z.to_nat i with
       | Some v => Done v
       | None => OutOfBounds i
       end.

Definition thumbgrid_get_char (st : ThumbGridState) (button_index : Z)
  : outcome Z :=
  match pages st with
  | None => Done 0
  | Some pgs =>
      if (button_index <? 0) || (TG_BUTTONS <=? button_index) then Done 0
      else if (selected_cell st <? 0) || (TG_CELLS <=? selected_cell st)
      then Done 0
      else if (current_page st <? 0) || (page_count st <=? current_page st)
      then Done 0
      else
        pg ← load_at pgs (current_page st);
        row ← load_at (chars pg) (selected_cell st);
        load_at row button_index
  end.

Definition thumbgrid_is_special (st : ThumbGridState) (button_index : Z)
  : outcome bool :=
  c ← thumbgrid_get_char st button_index;
  Done ((c =? TG_SPECIAL_SPACE) || (c =? TG_SPECIAL_BKSP)
        || (c =? TG_SPECIAL_ACCENT) || (c =? TG_SPECIAL_SELALL)
        || (c =? TG_SPECIAL_EXIT) || (c =? TG_SPECIAL_CUT)
        || (c =? TG_SPECIAL_COPY) || (c =? TG_SPECIAL_PASTE)
        || (c =? TG_SPECIAL_CAPS)).

Definition thumbgrid_shift_toggle (st : ThumbGridState) : ThumbGridState :=
  if current_page st =? 0 then set_current_page 1 st
  else if current_page st =? 1 then set_current_page 0 st
  else st.

Definition thumbgrid_toggle_symbols (st : ThumbGridState) : ThumbGridState :=
  if current_page st =? 2 then set_current_page 0 st
  else set_current_page 2 st.

Definition thumbgrid_toggle_accent (st : ThumbGridState) : ThumbGridState :=
  set_accent_mode (negb (accent_mode st)) st.

(** [base] is a [char]; the result a [uint16_t]. *)
Definition thumbgrid_accent_lookup (base : Z) : Z :=
  match base with
  | 97 => 225 | 101 => 233 | 105 => 237 | 111 => 243 | 117 => 250
  | 110 => 241
  | 65 => 193 | 69 => 201 | 73 => 205 | 79 => 211 | 85 => 218
  | 78 => 209
  | _ => 0
  end.

Definition OVL_TOTAL_W : Z := 620.
Definition OVL_TOTAL_H : Z := 440.

Definition stick_speed (val : Z) : Z :=
  if val <? 40 then -10
  else if val <? 108 then -4
  else if val <=? 148 then 0
  else if val <=? 216 then 4
  else 10.

(** The arithmetic is on [int]: [(int)screen_w] and [(int)screen_h]
    reinterpret the [uint32_t] screen size in two's complement, every
    sum, difference and product is reduced to the range of [int] as the
    machine does (overflow of [int] itself is undefined in C), and [/]
    truncates towards zero. *)
Definition thumbgrid_update_position (st : ThumbGridState)
    (rstick_x rstick_y screen_w screen_h : Z) : ThumbGridState :=
  let dx := stick_speed rstick_x in
  let dy := stick_speed rstick_y in
  if (dx =? 0) && (dy =? 0) then st
  else
    let st := set_offset_x (i32 (offset_x st + dx)) st in
    let st := set_offset_y (i32 (offset_y st + dy)) st in
    let w := i32 screen_w in
    let h := i32 screen_h in
    let def_x := Z.quot (i32 (w - OVL_TOTAL_W)) 2 in
    let def_y := i32 (Z.quot (i32 (h * 2)) 3 - Z.quot OVL_TOTAL_H 2) in
    let bx := i32 (def_x + offset_x st) in
    let by_ := i32 (def_y + offset_y st) in
    let margin := 10 in
    let st :=
      if bx <? margin then set_offset_x (i32 (margin - def_x)) st else st in
    let st :=
      if i32 (i32 (w - OVL_TOTAL_W) - margin) <? bx
      then set_offset_x
             (i32 (i32 (i32 (w - OVL_TOTAL_W) - margin) - def_x)) st
      else st in
    let st :=
      if by_ <? margin then set_offset_y (i32 (margin - def_y)) st else st in
    let st :=
      if i32 (i32 (h - OVL_TOTAL_H) - margin) <? by_
      then set_offset_y
             (i32 (i32 (i32 (h - OVL_TOTAL_H) - margin) - def_y)) st
      else st in
    st.

(** Where the overlay is drawn: [base_x] and [base_y] of
    [thumbgrid_draw], its top-left corner before that function's own
    clamping. *)
Definition overlay_x (st : ThumbGridState) (screen_w : Z) : Z :=
  i32 (Z.quot (i32 (i32 screen_w - OVL_TOTAL_W)) 2 + offset_x st).

Definition overlay_y (st : ThumbGridState) (screen_h : Z) : Z :=
  i32 (i32 (Z.quot (i32 (i32 screen_h * 2)) 3 - Z.quot OVL_TOTAL_H 2)
       + offset_y st).

Definition is_accentable (c : Z) : bool :=
  (c =? 97) || (c =? 101) || (c =? 105) || (c =? 111) || (c =? 117)
  || (c =? 110)
  || (c =? 65) || (c =? 69) || (c =? 73) || (c =? 79) || (c =? 85)
  || (c =? 78).

(** [ch] is a [uint16_t]; 63 is ['?']. *)
Definition u16_to_base (ch : Z) : Z :=
  if ch <? 128 then ch
  else match ch with
       | 193 | 192 | 194 | 195 | 196 => 65
       | 225 | 224 | 226 | 227 | 228 => 97
       | 201 | 200 | 202 | 203 => 69
       | 233 | 232 | 234 | 235 => 101
       | 205 | 204 | 206 | 207 => 73
       | 237 | 236 | 238 | 239 => 105
       | 211 | 210 | 212 | 213 | 214 => 79
       | 243 | 242 | 244 | 245 | 246 => 111
       | 218 | 217 | 219 | 220 => 85
       | 250 | 249 | 251 | 252 => 117
       | 209 => 78
       | 241 => 110
       | _ => 63
       end.

Definition u16_is_accented (ch : Z) : bool :=
  (192 <=? ch) && (ch <=? 255) && negb (u16_to_base ch =? 63).

(** The grid as [thumbgrid_init] leaves it and every other function
    keeps it: the static page array, its three pages, a page and a cell
    inside them. *)
Definition grid_ok (st : ThumbGridState) : Prop :=
  pages st = Some g_thumbgrid_pages /\
  page_count st = TG_MAX_PAGES /\
  0 <= current_page st < TG_MAX_PAGES /\
  0 <= selected_cell st < TG_CELLS.

(** The calls that change the grid between two polls of the pad. *)
Inductive grid_op : Type :=
| GSelectCell (stick_x stick_y : Z)
| GShiftToggle
| GToggleSymbols
| GToggleAccent
| GUpdatePosition (rstick_x rstick_y screen_w screen_h : Z).

Definition apply_grid_op (op : grid_op) (st : ThumbGridState)
  : ThumbGridState :=
  match op with
  | GSelectCell x y => thumbgrid_select_cell st x y
  | GShiftToggle => thumbgrid_shift_toggle st
  | GToggleSymbols => thumbgrid_toggle_symbols st
  | GToggleAccent => thumbgrid_toggle_accent st
  | GUpdatePosition rx ry w h => thumbgrid_update_position st rx ry w h
  end.

Definition run_grid_ops (ops : list grid_op) (st : ThumbGridState)
  : ThumbGridState :=
  fold_left (fun st op => apply_grid_op op st) ops st.

(** What [thumbgrid_accent_lookup], [is_accentable] and [u16_to_base]
    agree on for the character [c]. *)
Definition accent_consistent (c : Z) : bool :=
  let a := thumbgrid_accent_lookup c in
  eqb (negb (a =? 0)) (is_accentable c)
  && ((a =? 0)
      || ((u16_to_base a =? c) && u16_is_accented a
          && (128 <=? a) && (a <? 256))).

End ThumbGrid.

(** ** input.h and input.c: button edges *)

Module Input.

Definition PAD_BUTTON_L3 : Z := 0x00000002.
Definition PAD_BUTTON_OPTIONS : Z := 0x00000008.
Definition PAD_BUTTON_UP : Z := 0x00000010.
Definition PAD_BUTTON_RIGHT : Z := 0x00000020.
Definition PAD_BUTTON_DOWN : Z := 0x00000040.
Definition PAD_BUTTON_LEFT : Z := 0x00000080.
Definition PAD_BUTTON_L2 : Z := 0x00000100.
Definition PAD_BUTTON_R2 : Z := 0x00000200.
Definition PAD_BUTTON_L1 : Z := 0x00000400.
Definition PAD_BUTTON_R1 : Z := 0x00000800.
Definition PAD_BUTTON_TRIANGLE : Z := 0x00001000.
Definition PAD_BUTTON_CIRCLE : Z := 0x00002000.
Definition PAD_BUTTON_CROSS : Z := 0x00004000.
Definition PAD_BUTTON_SQUARE : Z := 0x00008000.

Inductive ImeAction : Type :=
| IME_ACTION_NONE
| IME_ACTION_FACE_TRIANGLE
| IME_ACTION_FACE_CIRCLE
| IME_ACTION_FACE_CROSS
| IME_ACTION_FACE_SQUARE
| IME_ACTION_SUBMIT
| IME_ACTION_SHIFT
| IME_ACTION_CURSOR_LEFT
| IME_ACTION_CURSOR_RIGHT
| IME_ACTION_CURSOR_HOME
| IME_ACTION_CURSOR_END
| IME_ACTION_PAGE_NEXT
| IME_ACTION_PAGE_PREV
| IME_ACTION_CANCEL.

Record InputState : Type := {
  buttons_current : Z;
  buttons_previous : Z;
  buttons_pressed : Z;
  buttons_released : Z;
  timestamp_us : Z;
  stick_x : Z;
  stick_y : Z;
  rstick_x : Z;
  rstick_y : Z
}.

(** [~x] on a [uint32_t]. *)
Definition u32_not (x : Z) : Z := u32 (Z.lnot x).

Definition input_update (st : InputState) (raw_buttons : Z)
    (sx sy rx ry : Z) (ts : Z) : InputState :=
  let previous := buttons_current st in
  {| buttons_previous := previous;
     buttons_current := raw_buttons;
     timestamp_us := ts;
     buttons_pressed := Z.land raw_buttons (u32_not previous);
     buttons_released := Z.land previous (u32_not raw_buttons);
     stick_x := sx; stick_y := sy; rstick_x := rx; rstick_y := ry |}.

(** [state->buttons_pressed & button] as a condition. *)
Definition pressed (st : InputState) (button : Z) : bool :=
  negb (Z.land (buttons_pressed st) button =? 0).

Definition input_get_action (st : InputState) : ImeAction :=
  if pressed st PAD_BUTTON_OPTIONS then IME_ACTION_CANCEL
  else if pressed st PAD_BUTTON_R2 then IME_ACTION_SUBMIT
  else if pressed st PAD_BUTTON_TRIANGLE then IME_ACTION_FACE_TRIANGLE
  else if pressed st PAD_BUTTON_CIRCLE then IME_ACTION_FACE_CIRCLE
  else if pressed st PAD_BUTTON_SQUARE then IME_ACTION_FACE_SQUARE
  else if pressed st PAD_BUTTON_UP then IME_ACTION_CURSOR_HOME
  else if pressed st PAD_BUTTON_DOWN then IME_ACTION_CURSOR_END
  else if pressed st PAD_BUTTON_LEFT then IME_ACTION_CURSOR_LEFT
  else if pressed st PAD_BUTTON_RIGHT then IME_ACTION_CURSOR_RIGHT
  else if pressed st PAD_BUTTON_R1 then IME_ACTION_PAGE_NEXT
  else if pressed st PAD_BUTTON_L1 then IME_ACTION_PAGE_PREV
  else IME_ACTION_NONE.

Definition input_just_pressed (st : InputState) (button : Z) : bool :=
  negb (Z.land (buttons_pressed st) button =? 0).

Definition input_is_held (st : InputState) (button : Z) : bool :=
  negb (Z.land (buttons_current st) button =? 0).

(** The buttons [input_get_action] looks at. *)
Definition action_buttons : Z :=
  Z.lor PAD_BUTTON_OPTIONS (Z.lor PAD_BUTTON_R2 (Z.lor PAD_BUTTON_TRIANGLE
    (Z.lor PAD_BUTTON_CIRCLE (Z.lor PAD_BUTTON_SQUARE (Z.lor PAD_BUTTON_UP
      (Z.lor PAD_BUTTON_DOWN (Z.lor PAD_BUTTON_LEFT (Z.lor PAD_BUTTON_RIGHT
        (Z.lor PAD_BUTTON_R1 PAD_BUTTON_L1))))))))).

End Input.

(** ** ime_hook.c: the writer of the shared record and the input router *)

Module Hook.

Definition TG_IPC_MAX_OUTPUT : Z := 256.
Definition TG_IPC_TITLE_MAX : Z := 48.
Definition TG_IPC_PAGE_NAME_MAX : Z := 8.

Definition IME_GRACE_PERIOD_US : Z := 300000.
Definition BS_INITIAL_DELAY_US : Z := 400000.
Definition BS_REPEAT_INTERVAL_US : Z := 60000.

(** *** Stores to the fields of the mapped record *)

Definition ipc_set_selected_cell (v : Z) (m : Ipc.ThumbGridSharedState)
  : Ipc.ThumbGridSharedState :=
  {| Ipc.sequence := Ipc.sequence m; Ipc.ime_active := Ipc.ime_active m;
     Ipc.selected_cell := v; Ipc.current_page := Ipc.current_page m;
     Ipc.accent_mode := Ipc.accent_mode m; Ipc.output := Ipc.output m;
     Ipc.output_length := Ipc.output_length m;
     Ipc.text_cursor := Ipc.text_cursor m;
     Ipc.selected_all := Ipc.selected_all m;
     Ipc.sel_start := Ipc.sel_start m; Ipc.sel_end := Ipc.sel_end m;
     Ipc.title := Ipc.title m; Ipc.page_name := Ipc.page_name m;
     Ipc.cells := Ipc.cells m; Ipc.offset_x := Ipc.offset_x m;
     Ipc.offset_y := Ipc.offset_y m;
     Ipc.shift_active := Ipc.shift_active m |}.

Definition ipc_set_current_page (v : Z) (m : Ipc.ThumbGridSharedState)
  : Ipc.ThumbGridSharedState :=
  {| Ipc.sequence := Ipc.sequence m; Ipc.ime_active := Ipc.ime_active m;
     Ipc.selected_cell := Ipc.selected_cell m; Ipc.current_page := v;
     Ipc.accent_mode := Ipc.accent_mode m; Ipc.output := Ipc.output m;
     Ipc.output_length := Ipc.output_length m;
     Ipc.text_cursor := Ipc.text_cursor m;
     Ipc.selected_all := Ipc.selected_all m;
     Ipc.sel_start := Ipc.sel_start m; Ipc.sel_end := Ipc.sel_end m;
     Ipc.title := Ipc.title m; Ipc.page_name := Ipc.page_name m;
     Ipc.cells := Ipc.cells m; Ipc.offset_x := Ipc.offset_x m;
     Ipc.offset_y := Ipc.offset_y m;
     Ipc.shift_active := Ipc.shift_active m |}.

Definition ipc_set_accent_mode (v : Z) (m : Ipc.ThumbGridSharedState)
  : Ipc.ThumbGridSharedState :=
  {| Ipc.sequence := Ipc.sequence m; Ipc.ime_active := Ipc.ime_active m;
     Ipc.selected_cell := Ipc.selected_cell m;
     Ipc.current_page := Ipc.current_page m; Ipc.accent_mode := v;
     Ipc.output := Ipc.output m; Ipc.output_length := Ipc.output_length m;
     Ipc.text_cursor := Ipc.text_cursor m;
     Ipc.selected_all := Ipc.selected_all m;
     Ipc.sel_start := Ipc.sel_start m; Ipc.sel_end := Ipc.sel_end m;
     Ipc.title := Ipc.title m; Ipc.page_name := Ipc.page_name m;
     Ipc.cells := Ipc.cells m; Ipc.offset_x := Ipc.offset_x m;
     Ipc.offset_y := Ipc.offset_y m;
     Ipc.shift_active := Ipc.shift_active m |}.

Definition ipc_set_output (v : list Z) (m : Ipc.ThumbGridSharedState)
  : Ipc.ThumbGridSharedState :=
  {| Ipc.sequence := Ipc.sequence m; Ipc.ime_active := Ipc.ime_active m;
     Ipc.selected_cell := Ipc.selected_cell m;
     Ipc.current_page := Ipc.current_page m;
     Ipc.accent_mode := Ipc.accent_mode m; Ipc.output := v;
     Ipc.output_length := Ipc.output_length m;
     Ipc.text_cursor := Ipc.text_cursor m;
     Ipc.selected_all := Ipc.selected_all m;
     Ipc.sel_start := Ipc.sel_start m; Ipc.sel_end := Ipc.sel_end m;
     Ipc.title := Ipc.title m; Ipc.page_name := Ipc.page_name m;
     Ipc.cells := Ipc.cells m; Ipc.offset_x := Ipc.offset_x m;
     Ipc.offset_y := Ipc.offset_y m;
     Ipc.shift_active := Ipc.shift_active m |}.

Definition ipc_set_output_length (v : Z) (m : Ipc.ThumbGridSharedState)
  : Ipc.ThumbGridSharedState :=
  {| Ipc.sequence := Ipc.sequence m; Ipc.ime_active := Ipc.ime_active m;
     Ipc.selected_cell := Ipc.selected_cell m;
     Ipc.current_page := Ipc.current_page m;
     Ipc.accent_mode := Ipc.accent_mode m; Ipc.output := Ipc.output m;
     Ipc.output_length := v; Ipc.text_cursor := Ipc.text_cursor m;
     Ipc.selected_all := Ipc.selected_all m;
     Ipc.sel_start := Ipc.sel_start m; Ipc.sel_end := Ipc.sel_end m;
     Ipc.title := Ipc.title m; Ipc.page_name := Ipc.page_name m;
     Ipc.cells := Ipc.cells m; Ipc.offset_x := Ipc.offset_x m;
     Ipc.offset_y := Ipc.offset_y m;
     Ipc.shift_active := Ipc.shift_active m |}.

Definition ipc_set_text_cursor (v : Z) (m : Ipc.ThumbGridSharedState)
  : Ipc.ThumbGridSharedState :=
  {| Ipc.sequence := Ipc.sequence m; Ipc.ime_active := Ipc.ime_active m;
     Ipc.selected_cell := Ipc.selected_cell m;
     Ipc.current_page := Ipc.current_page m;
     Ipc.accent_mode := Ipc.accent_mode m; Ipc.output := Ipc.output m;
     Ipc.output_length := Ipc.output_length m; Ipc.text_cursor := v;
     Ipc.selected_all := Ipc.selected_all m;
     Ipc.sel_start := Ipc.sel_start m; Ipc.sel_end := Ipc.sel_end m;
     Ipc.title := Ipc.title m; Ipc.page_name := Ipc.page_name m;
     Ipc.cells := Ipc.cells m; Ipc.offset_x := Ipc.offset_x m;
     Ipc.offset_y := Ipc.offset_y m;
     Ipc.shift_active := Ipc.shift_active m |}.

Definition ipc_set_selected_all (v : Z) (m : Ipc.ThumbGridSharedState)
  : Ipc.ThumbGridSharedState :=
  {| Ipc.sequence := Ipc.sequence m; Ipc.ime_active := Ipc.ime_active m;
     Ipc.selected_cell := Ipc.selected_cell m;
     Ipc.current_page := Ipc.current_page m;
     Ipc.accent_mode := Ipc.accent_mode m; Ipc.output := Ipc.output m;
     Ipc.output_length := Ipc.output_length m;
     Ipc.text_cursor := Ipc.text_cursor m; Ipc.selected_all := v;
     Ipc.sel_start := Ipc.sel_start m; Ipc.sel_end := Ipc.sel_end m;
     Ipc.title := Ipc.title m; Ipc.page_name := Ipc.page_name m;
     Ipc.cells := Ipc.cells m; Ipc.offset_x := Ipc.offset_x m;
     Ipc.offset_y := Ipc.offset_y m;
     Ipc.shift_active := Ipc.shift_active m |}.

Definition ipc_set_sel_start (v : Z) (m : Ipc.ThumbGridSharedState)
  : Ipc.ThumbGridSharedState :=
  {| Ipc.sequence := Ipc.sequence m; Ipc.ime_active := Ipc.ime_active m;
     Ipc.selected_cell := Ipc.selected_cell m;
     Ipc.current_page := Ipc.current_page m;
     Ipc.accent_mode := Ipc.accent_mode m; Ipc.output := Ipc.output m;
     Ipc.output_length := Ipc.output_length m;
     Ipc.text_cursor := Ipc.text_cursor m;
     Ipc.selected_all := Ipc.selected_all m; Ipc.sel_start := v;
     Ipc.sel_end := Ipc.sel_end m; Ipc.title := Ipc.title m;
     Ipc.page_name := Ipc.page_name m; Ipc.cells := Ipc.cells m;
     Ipc.offset_x := Ipc.offset_x m; Ipc.offset_y := Ipc.offset_y m;
     Ipc.shift_active := Ipc.shift_active m |}.

Definition ipc_set_sel_end (v : Z) (m : Ipc.ThumbGridSharedState)
  : Ipc.ThumbGridSharedState :=
  {| Ipc.sequence := Ipc.sequence m; Ipc.ime_active := Ipc.ime_active m;
     Ipc.selected_cell := Ipc.selected_cell m;
     Ipc.current_page := Ipc.current_page m;
     Ipc.accent_mode := Ipc.accent_mode m; Ipc.output := Ipc.output m;
     Ipc.output_length := Ipc.output_length m;
     Ipc.text_cursor := Ipc.text_cursor m;
     Ipc.selected_all := Ipc.selected_all m;
     Ipc.sel_start := Ipc.sel_start m; Ipc.sel_end := v;
     Ipc.title := Ipc.title m; Ipc.page_name := Ipc.page_name m;
     Ipc.cells := Ipc.cells m; Ipc.offset_x := Ipc.offset_x m;
     Ipc.offset_y := Ipc.offset_y m;
     Ipc.shift_active := Ipc.shift_active m |}.

Definition ipc_set_title (v : list Z) (m : Ipc.ThumbGridSharedState)
  : Ipc.ThumbGridSharedState :=
  {| Ipc.sequence := Ipc.sequence m; Ipc.ime_active := Ipc.ime_active m;
     Ipc.selected_cell := Ipc.selected_cell m;
     Ipc.current_page := Ipc.current_page m;
     Ipc.accent_mode := Ipc.accent_mode m; Ipc.output := Ipc.output m;
     Ipc.output_length := Ipc.output_length m;
     Ipc.text_cursor := Ipc.text_cursor m;
     Ipc.selected_all := Ipc.selected_all m;
     Ipc.sel_start := Ipc.sel_start m; Ipc.sel_end := Ipc.sel_end m;
     Ipc.title := v; Ipc.page_name := Ipc.page_name m;
     Ipc.cells := Ipc.cells m; Ipc.offset_x := Ipc.offset_x m;
     Ipc.offset_y := Ipc.offset_y m;
     Ipc.shift_active := Ipc.shift_active m |}.

Definition ipc_set_page_name (v : list Z) (m : Ipc.ThumbGridSharedState)
  : Ipc.ThumbGridSharedState :=
  {| Ipc.sequence := Ipc.sequence m; Ipc.ime_active := Ipc.ime_active m;
     Ipc.selected_cell := Ipc.selected_cell m;
     Ipc.current_page := Ipc.current_page m;
     Ipc.accent_mode := Ipc.accent_mode m; Ipc.output := Ipc.output m;
     Ipc.output_length := Ipc.output_length m;
     Ipc.text_cursor := Ipc.text_cursor m;
     Ipc.selected_all := Ipc.selected_all m;
     Ipc.sel_start := Ipc.sel_start m; Ipc.sel_end := Ipc.sel_end m;
     Ipc.title := Ipc.title m; Ipc.page_name := v;
     Ipc.cells := Ipc.cells m; Ipc.offset_x := Ipc.offset_x m;
     Ipc.offset_y := Ipc.offset_y m;
     Ipc.shift_active := Ipc.shift_active m |}.

Definition ipc_set_cells (v : list (list Z)) (m : Ipc.ThumbGridSharedState)
  : Ipc.ThumbGridSharedState :=
  {| Ipc.sequence := Ipc.sequence m; Ipc.ime_active := Ipc.ime_active m;
     Ipc.selected_cell := Ipc.selected_cell m;
     Ipc.current_page := Ipc.current_page m;
     Ipc.accent_mode := Ipc.accent_mode m; Ipc.output := Ipc.output m;
     Ipc.output_length := Ipc.output_length m;
     Ipc.text_cursor := Ipc.text_cursor m;
     Ipc.selected_all := Ipc.selected_all m;
     Ipc.sel_start := Ipc.sel_start m; Ipc.sel_end := Ipc.sel_end m;
     Ipc.title := Ipc.title m; Ipc.page_name := Ipc.page_name m;
     Ipc.cells := v; Ipc.offset_x := Ipc.offset_x m;
     Ipc.offset_y := Ipc.offset_y m;
     Ipc.shift_active := Ipc.shift_active m |}.

Definition ipc_set_offset_x (v : Z) (m : Ipc.ThumbGridSharedState)
  : Ipc.ThumbGridSharedState :=
  {| Ipc.sequence := Ipc.sequence m; Ipc.ime_active := Ipc.ime_active m;
     Ipc.selected_cell := Ipc.selected_cell m;
     Ipc.current_page := Ipc.current_page m;
     Ipc.accent_mode := Ipc.accent_mode m; Ipc.output := Ipc.output m;
     Ipc.output_length := Ipc.output_length m;
     Ipc.text_cursor := Ipc.text_cursor m;
     Ipc.selected_all := Ipc.selected_all m;
     Ipc.sel_start := Ipc.sel_start m; Ipc.sel_end := Ipc.sel_end m;
     Ipc.title := Ipc.title m; Ipc.page_name := Ipc.page_name m;
     Ipc.cells := Ipc.cells m; Ipc.offset_x := v;
     Ipc.offset_y := Ipc.offset_y m;
     Ipc.shift_active := Ipc.shift_active m |}.

Definition ipc_set_offset_y (v : Z) (m : Ipc.ThumbGridSharedState)
  : Ipc.ThumbGridSharedState :=
  {| Ipc.sequence := Ipc.sequence m; Ipc.ime_active := Ipc.ime_active m;
     Ipc.selected_cell := Ipc.selected_cell m;
     Ipc.current_page := Ipc.current_page m;
     Ipc.accent_mode := Ipc.accent_mode m; Ipc.output := Ipc.output m;
     Ipc.output_length := Ipc.output_length m;
     Ipc.text_cursor := Ipc.text_cursor m;
     Ipc.selected_all := Ipc.selected_all m;
     Ipc.sel_start := Ipc.sel_start m; Ipc.sel_end := Ipc.sel_end m;
     Ipc.title := Ipc.title m; Ipc.page_name := Ipc.page_name m;
     Ipc.cells := Ipc.cells m; Ipc.offset_x := Ipc.offset_x m;
     Ipc.offset_y := v; Ipc.shift_active := Ipc.shift_active m |}.

Definition ipc_set_shift_active (v : Z) (m : Ipc.ThumbGridSharedState)
  : Ipc.ThumbGridSharedState :=
  {| Ipc.sequence := Ipc.sequence m; Ipc.ime_active := Ipc.ime_active m;
     Ipc.selected_cell := Ipc.selected_cell m;
     Ipc.current_page := Ipc.current_page m;
     Ipc.accent_mode := Ipc.accent_mode m; Ipc.output := Ipc.output m;
     Ipc.output_length := Ipc.output_length m;
     Ipc.text_cursor := Ipc.text_cursor m;
     Ipc.selected_all := Ipc.selected_all m;
     Ipc.sel_start := Ipc.sel_start m; Ipc.sel_end := Ipc.sel_end m;
     Ipc.title := Ipc.title m; Ipc.page_name := Ipc.page_name m;
     Ipc.cells := Ipc.cells m; Ipc.offset_x := Ipc.offset_x m;
     Ipc.offset_y := Ipc.offset_y m; Ipc.shift_active := v |}.

(** [m->cells[c][b] = v] for constant indices inside [char cells[9][4]]. *)
Definition store_cell (c b : nat) (v : Z) (m : Ipc.ThumbGridSharedState)
  : Ipc.ThumbGridSharedState :=
  ipc_set_cells (alter (fun row => <[b := v]> row) c (Ipc.cells m)) m.

(** [strncpy(dst, src, n)] from index [i] on: characters up to and
    including the terminator, then NUL padding. *)
Fixpoint strncpy (n : nat) (dst src : list Z) (i : Z) (padding : bool)
  : outcome (list Z) :=
  match n with
  | O => Done dst
  | S n' =>
      if padding then
        dst' ← store dst i 0;
        strncpy n' dst' src (i + 1) true
      else
        c ← load src i;
        dst' ← store dst i c;
        strncpy n' dst' src (i + 1) (c =? 0)
  end.

Definition bool_to_Z (b : bool) : Z := if b then 1 else 0.

(** *** ipc_sync_state

    The mapped record is present ([g_ipc_map] is not [NULL]).  The result
    is the sequence of stores the call makes to the shared record, in
    program order; the arrays stored are computed from the record [m] as
    the writer finds it.  A [NULL] page array is reported as an access
    outside it. *)
Definition ipc_sync_state (g_custom_active : bool) (g_session : ImeSession)
    (g_tgrid : ThumbGrid.ThumbGridState) (g_l2_shift_active : bool)
    (m : Ipc.ThumbGridSharedState) : outcome (list Ipc.writer_event) :=
  if negb g_custom_active || negb (is_active g_session) then
    if negb (Ipc.ime_active m =? 0) then
      Done [Ipc.WBegin; Ipc.WField (Ipc.set_ime_active 0); Ipc.WEnd]
    else Done []
  else
    let copy_len := output_length g_session in
    let copy_len :=
      if TG_IPC_MAX_OUTPUT <? copy_len then TG_IPC_MAX_OUTPUT else copy_len in
    out ← memcpy_u16 (Z.to_nat copy_len) (Ipc.output m) 0
            (output g_session) 0;
    ti ← memcpy_u16 (Z.to_nat TG_IPC_TITLE_MAX) (Ipc.title m) 0
           (ThumbGrid.title g_tgrid) 0;
    pgs ← match ThumbGrid.pages g_tgrid with
          | Some pgs => Done pgs
          | None => OutOfBounds (ThumbGrid.current_page g_tgrid)
          end;
    page ← ThumbGrid.load_at pgs (ThumbGrid.current_page g_tgrid);
    pn ← strncpy (Z.to_nat (TG_IPC_PAGE_NAME_MAX - 1)) (Ipc.page_name m)
           (ThumbGrid.name page) 0 false;
    pn ← store pn (TG_IPC_PAGE_NAME_MAX - 1) 0;
    Done
      ([Ipc.WBegin;
        Ipc.WField (Ipc.set_ime_active 1);
        Ipc.WField (ipc_set_selected_cell (ThumbGrid.selected_cell g_tgrid));
        Ipc.WField (ipc_set_current_page (ThumbGrid.current_page g_tgrid));
        Ipc.WField (ipc_set_accent_mode
                      (bool_to_Z (ThumbGrid.accent_mode g_tgrid)));
        Ipc.WField (ipc_set_output_length (output_length g_session));
        Ipc.WField (ipc_set_text_cursor (text_cursor g_session));
        Ipc.WField (ipc_set_selected_all (bool_to_Z (selected_all g_session)));
        Ipc.WField (ipc_set_sel_start (sel_start g_session));
        Ipc.WField (ipc_set_sel_end (sel_end g_session));
        Ipc.WField (ipc_set_offset_x (ThumbGrid.offset_x g_tgrid));
        Ipc.WField (ipc_set_offset_y (ThumbGrid.offset_y g_tgrid));
        Ipc.WField (ipc_set_output out);
        Ipc.WField (ipc_set_title ti);
        Ipc.WField (ipc_set_page_name pn);
        Ipc.WField (ipc_set_cells (ThumbGrid.chars page))]
       ++ (if g_l2_shift_active then
             [Ipc.WField (store_cell 4 0 ThumbGrid.TG_SPECIAL_PASTE);
              Ipc.WField (store_cell 4 1 ThumbGrid.TG_SPECIAL_CAPS);
              Ipc.WField (store_cell 4 2 ThumbGrid.TG_SPECIAL_CUT);
              Ipc.WField (store_cell 4 3 ThumbGrid.TG_SPECIAL_COPY)]
           else [])
       ++ [Ipc.WField (ipc_set_shift_active (bool_to_Z g_l2_shift_active));
           Ipc.WEnd]).

(** The stores of one [ipc_sync_state] call for an active session in
    custom mode with the L2 shift off. *)
Definition sync_events (s : ImeSession) (tg : ThumbGrid.ThumbGridState)
    (m : Ipc.ThumbGridSharedState) : list Ipc.writer_event :=
  match ipc_sync_state true s tg false m with
  | Done evs => evs
  | OutOfBounds _ => []
  end.

(** *** The input router

    The globals [hooked_ime_dialog_get_status] works on. *)
Record hook_globals : Type := {
  g_session : ImeSession;
  g_tgrid : ThumbGrid.ThumbGridState;
  g_input_state : Input.InputState;
  g_session_start_us : Z;
  g_overlay_screen_w : Z;
  g_overlay_screen_h : Z;
  g_bs_held : bool;
  g_bs_start_us : Z;
  g_bs_last_repeat_us : Z;
  g_x_held : bool;
  g_x_dpad_used : bool;
  g_x_anchor : Z;
  g_l2_prev_analog : Z;
  g_l2_shift_active : bool;
  g_l2_saved_page : Z;
  g_l3_prev : bool
}.

Definition set_session (v : ImeSession) (h : hook_globals) : hook_globals :=
  {| g_session := v; g_tgrid := g_tgrid h; g_input_state := g_input_state h;
     g_session_start_us := g_session_start_us h;
     g_overlay_screen_w := g_overlay_screen_w h;
     g_overlay_screen_h := g_overlay_screen_h h;
     g_bs_held := g_bs_held h; g_bs_start_us := g_bs_start_us h;
     g_bs_last_repeat_us := g_bs_last_repeat_us h;
     g_x_held := g_x_held h; g_x_dpad_used := g_x_dpad_used h;
     g_x_anchor := g_x_anchor h; g_l2_prev_analog := g_l2_prev_analog h;
     g_l2_shift_active := g_l2_shift_active h;
     g_l2_saved_page := g_l2_saved_page h; g_l3_prev := g_l3_prev h |}.

Definition set_tgrid (v : ThumbGrid.ThumbGridState) (h : hook_globals)
  : hook_globals :=
  {| g_session := g_session h; g_tgrid := v; g_input_state := g_input_state h;
     g_session_start_us := g_session_start_us h;
     g_overlay_screen_w := g_overlay_screen_w h;
     g_overlay_screen_h := g_overlay_screen_h h;
     g_bs_held := g_bs_held h; g_bs_start_us := g_bs_start_us h;
     g_bs_last_repeat_us := g_bs_last_repeat_us h;
     g_x_held := g_x_held h; g_x_dpad_used := g_x_dpad_used h;
     g_x_anchor := g_x_anchor h; g_l2_prev_analog := g_l2_prev_analog h;
     g_l2_shift_active := g_l2_shift_active h;
     g_l2_saved_page := g_l2_saved_page h; g_l3_prev := g_l3_prev h |}.

Definition set_input_state (v : Input.InputState) (h : hook_globals)
  : hook_globals :=
  {| g_session := g_session h; g_tgrid := g_tgrid h; g_input_state := v;
     g_session_start_us := g_session_start_us h;
     g_overlay_screen_w := g_overlay_screen_w h;
     g_overlay_screen_h := g_overlay_screen_h h;
     g_bs_held := g_bs_held h; g_bs_start_us := g_bs_start_us h;
     g_bs_last_repeat_us := g_bs_last_repeat_us h;
     g_x_held := g_x_held h; g_x_dpad_used := g_x_dpad_used h;
     g_x_anchor := g_x_anchor h; g_l2_prev_analog := g_l2_prev_analog h;
     g_l2_shift_active := g_l2_shift_active h;
     g_l2_saved_page := g_l2_saved_page h; g_l3_prev := g_l3_prev h |}.

(** The three globals of backspace auto-repeat. *)
Definition set_bs (held : bool) (start_us last_repeat_us : Z)
    (h : hook_globals) : hook_globals :=
  {| g_session := g_session h; g_tgrid := g_tgrid h;
     g_input_state := g_input_state h;
     g_session_start_us := g_session_start_us h;
     g_overlay_screen_w := g_overlay_screen_w h;
     g_overlay_screen_h := g_overlay_screen_h h;
     g_bs_held := held; g_bs_start_us := start_us;
     g_bs_last_repeat_us := last_repeat_us;
     g_x_held := g_x_held h; g_x_dpad_used := g_x_dpad_used h;
     g_x_anchor := g_x_anchor h; g_l2_prev_analog := g_l2_prev_analog h;
     g_l2_shift_active := g_l2_shift_active h;
     g_l2_saved_page := g_l2_saved_page h; g_l3_prev := g_l3_prev h |}.

(** The three globals of the cross-button hold. *)
Definition set_x (held dpad_used : bool) (anchor : Z) (h : hook_globals)
  : hook_globals :=
  {| g_session := g_session h; g_tgrid := g_tgrid h;
     g_input_state := g_input_state h;
     g_session_start_us := g_session_start_us h;
     g_overlay_screen_w := g_overlay_screen_w h;
     g_overlay_screen_h := g_overlay_screen_h h;
     g_bs_held := g_bs_held h; g_bs_start_us := g_bs_start_us h;
     g_bs_last_repeat_us := g_bs_last_repeat_us h;
     g_x_held := held; g_x_dpad_used := dpad_used; g_x_anchor := anchor;
     g_l2_prev_analog := g_l2_prev_analog h;
     g_l2_shift_active := g_l2_shift_active h;
     g_l2_saved_page := g_l2_saved_page h; g_l3_prev := g_l3_prev h |}.

(** The three globals of the L2 shift. *)
Definition set_l2 (prev_analog : Z) (shift_active : bool) (saved_page : Z)
    (h : hook_globals) : hook_globals :=
  {| g_session := g_session h; g_tgrid := g_tgrid h;
     g_input_state := g_input_state h;
     g_session_start_us := g_session_start_us h;
     g_overlay_screen_w := g_overlay_screen_w h;
     g_overlay_screen_h := g_overlay_screen_h h;
     g_bs_held := g_bs_held h; g_bs_start_us := g_bs_start_us h;
     g_bs_last_repeat_us := g_bs_last_repeat_us h;
     g_x_held := g_x_held h; g_x_dpad_used := g_x_dpad_used h;
     g_x_anchor := g_x_anchor h; g_l2_prev_analog := prev_analog;
     g_l2_shift_active := shift_active;
     g_l2_saved_page := saved_page; g_l3_prev := g_l3_prev h |}.

Definition set_l3_prev (v : bool) (h : hook_globals) : hook_globals :=
  {| g_session := g_session h; g_tgrid := g_tgrid h;
     g_input_state := g_input_state h;
     g_session_start_us := g_session_start_us h;
     g_overlay_screen_w := g_overlay_screen_w h;
     g_overlay_screen_h := g_overlay_screen_h h;
     g_bs_held := g_bs_held h; g_bs_start_us := g_bs_start_us h;
     g_bs_last_repeat_us := g_bs_last_repeat_us h;
     g_x_held := g_x_held h; g_x_dpad_used := g_x_dpad_used h;
     g_x_anchor := g_x_anchor h; g_l2_prev_analog := g_l2_prev_analog h;
     g_l2_shift_active := g_l2_shift_active h;
     g_l2_saved_page := g_l2_saved_page h; g_l3_prev := v |}.

(** The session after a call that returns [bool] beside it. *)
Definition with_session (r : outcome (bool * ImeSession)) (h : hook_globals)
  : outcome hook_globals :=
  p ← r; Done (set_session (snd p) h).

Definition dispatch_face_button (button_index : Z) (h : hook_globals)
  : outcome hook_globals :=
  ch ← ThumbGrid.thumbgrid_get_char (g_tgrid h) button_index;
  if ch =? 0 then Done h
  else
    special ← ThumbGrid.thumbgrid_is_special (g_tgrid h) button_index;
    if (special : bool) then
      if ch =? ThumbGrid.TG_SPECIAL_BKSP then
        with_session (ime_session_backspace (g_session h)) h
      else if ch =? ThumbGrid.TG_SPECIAL_SPACE then
        with_session (ime_session_add_char (g_session h) 32) h
      else if ch =? ThumbGrid.TG_SPECIAL_ACCENT then
        Done (set_tgrid (ThumbGrid.thumbgrid_toggle_accent (g_tgrid h)) h)
      else if ch =? ThumbGrid.TG_SPECIAL_SELALL then
        Done (set_session (ime_session_select_all (g_session h)) h)
      else if ch =? ThumbGrid.TG_SPECIAL_EXIT then
        Done (set_session (ime_session_cancel (g_session h)) h)
      else Done h
    else
      let accented := ThumbGrid.thumbgrid_accent_lookup ch in
      if ThumbGrid.accent_mode (g_tgrid h) && negb (accented =? 0) then
        with_session (ime_session_add_char16 (g_session h) accented) h
      else with_session (ime_session_add_char (g_session h) ch) h.

(** What [scePadReadState] delivers: the button mask, the two sticks and
    the analog value of L2. *)
Record pad_data : Type := {
  buttons : Z;
  leftStick_x : Z;
  leftStick_y : Z;
  rightStick_x : Z;
  rightStick_y : Z;
  analog_l2 : Z
}.

Inductive OrbisImeDialogStatus : Type :=
| ORBIS_IME_DIALOG_STATUS_NONE
| ORBIS_IME_DIALOG_STATUS_RUNNING
| ORBIS_IME_DIALOG_STATUS_FINISHED.

(** Step 6: the L2 trigger, engaged at 60 and released below 40. *)
Definition l2_step (l2 : Z) (h : hook_globals) : hook_globals :=
  let h :=
    if (60 <=? l2) && negb (g_l2_shift_active h) && (g_l2_prev_analog h <? 60)
    then
      let page := ThumbGrid.current_page (g_tgrid h) in
      let page' := if page =? 0 then 1 else if page =? 1 then 0 else page in
      set_l2 (g_l2_prev_analog h) true page
        (set_tgrid (ThumbGrid.set_current_page page' (g_tgrid h)) h)
    else h in
  let h :=
    if (l2 <? 40) && (40 <=? g_l2_prev_analog h) then
      let h :=
        if g_l2_shift_active h && (0 <=? g_l2_saved_page h)
        then set_tgrid (ThumbGrid.set_current_page (g_l2_saved_page h)
                          (g_tgrid h)) h
        else h in
      set_l2 (g_l2_prev_analog h) false (-1) h
    else h in
  set_l2 l2 (g_l2_shift_active h) (g_l2_saved_page h) h.

(** Step 6a: L3 toggles the accent mode on its rising edge. *)
Definition l3_step (raw_buttons : Z) (h : hook_globals) : hook_globals :=
  let l3_now := negb (Z.land raw_buttons Input.PAD_BUTTON_L3 =? 0) in
  let h :=
    if l3_now && negb (g_l3_prev h)
    then set_tgrid (ThumbGrid.thumbgrid_toggle_accent (g_tgrid h)) h
    else h in
  set_l3_prev l3_now h.

(** Step 6c: the cross button, tapped for a character or held for a
    selection. *)
Definition x_step (l2_center_override : bool) (h : hook_globals)
  : outcome hook_globals :=
  let x_pressed :=
    Input.input_just_pressed (g_input_state h) Input.PAD_BUTTON_CROSS in
  let x_released :=
    negb (Z.land (Input.buttons_released (g_input_state h))
            Input.PAD_BUTTON_CROSS =? 0) in
  let h :=
    if x_pressed then set_x true false (text_cursor (g_session h)) h
    else h in
  if x_released && g_x_held h then
    h ← (if negb (g_x_dpad_used h) then
           if l2_center_override then
             s ← ime_session_cut (g_session h); Done (set_session s h)
           else dispatch_face_button ThumbGrid.TG_BTN_CROSS h
         else Done h);
    Done (set_x false (g_x_dpad_used h) (g_x_anchor h) h)
  else Done h.

(** The four cursor cases of the action switch.  [new_cursor] is the
    position the branch with the cross button held assigns to
    [g_session.text_cursor]; [move] the session call of the other
    branch. *)
Definition cursor_action (new_cursor : Z) (end_arg : Z)
    (move : ImeSession -> ImeSession) (h : hook_globals) : hook_globals :=
  if g_x_held h then
    let h := set_x (g_x_held h) true (g_x_anchor h) h in
    let s := set_text_cursor new_cursor (g_session h) in
    set_session (ime_session_set_selection s (g_x_anchor h) end_arg) h
  else
    set_session (move (ime_session_clear_selection (g_session h))) h.

(** Step 7a for the actions that do not end the dialog. *)
Definition dispatch_action (action : Input.ImeAction)
    (l2_center_override : bool) (h : hook_globals) : outcome hook_globals :=
  let s := g_session h in
  match action with
  | Input.IME_ACTION_FACE_TRIANGLE =>
      if l2_center_override then
        s' ← ime_session_paste s; Done (set_session s' h)
      else dispatch_face_button ThumbGrid.TG_BTN_TRIANGLE h
  | Input.IME_ACTION_FACE_CIRCLE =>
      if l2_center_override then Done (set_l2 (g_l2_prev_analog h) false (-1) h)
      else dispatch_face_button ThumbGrid.TG_BTN_CIRCLE h
  | Input.IME_ACTION_FACE_SQUARE =>
      if l2_center_override then
        s' ← ime_session_copy s; Done (set_session s' h)
      else dispatch_face_button ThumbGrid.TG_BTN_SQUARE h
  | Input.IME_ACTION_CURSOR_HOME =>
      Done (cursor_action 0 0 ime_session_cursor_home h)
  | Input.IME_ACTION_CURSOR_END =>
      Done (cursor_action (output_length s) (output_length s)
              ime_session_cursor_end h)
  | Input.IME_ACTION_CURSOR_LEFT =>
      let c := if 0 <? text_cursor s then u32 (text_cursor s - 1)
               else text_cursor s in
      Done (cursor_action c c ime_session_cursor_left h)
  | Input.IME_ACTION_CURSOR_RIGHT =>
      let c := if text_cursor s <? output_length s
               then u32 (text_cursor s + 1) else text_cursor s in
      Done (cursor_action c c ime_session_cursor_right h)
  | Input.IME_ACTION_PAGE_NEXT | Input.IME_ACTION_PAGE_PREV =>
      Done (set_tgrid (ThumbGrid.thumbgrid_toggle_symbols (g_tgrid h)) h)
  | _ => Done h
  end.

(** Step 7b: backspace repeats while square is held on the center cell. *)
Definition bs_step (now_us : Z) (h : hook_globals) : outcome hook_globals :=
  let sq_held :=
    Input.input_is_held (g_input_state h) Input.PAD_BUTTON_SQUARE in
  sq_char ← ThumbGrid.thumbgrid_get_char (g_tgrid h) ThumbGrid.TG_BTN_SQUARE;
  let is_bs := sq_char =? ThumbGrid.TG_SPECIAL_BKSP in
  if sq_held && is_bs then
    if negb (g_bs_held h) then Done (set_bs true now_us now_us h)
    else if BS_INITIAL_DELAY_US <=? u64 (now_us - g_bs_start_us h) then
      if BS_REPEAT_INTERVAL_US <=? u64 (now_us - g_bs_last_repeat_us h) then
        h ← with_session (ime_session_backspace (g_session h)) h;
        Done (set_bs (g_bs_held h) (g_bs_start_us h) now_us h)
      else Done h
    else Done h
  else Done (set_bs false (g_bs_start_us h) (g_bs_last_repeat_us h) h).

(** [hooked_ime_dialog_get_status] in custom mode ([g_custom_active] is
    set), steps 3 to 7b.  The pad data of step 2 and the process time of
    step 1 are parameters; the notification fallback, the shared-record
    sync of step 7c and the timing statistics do not touch these globals
    and are left out. *)
Definition hooked_ime_dialog_get_status (h : hook_globals) (pad : pad_data)
    (now_us : Z) : outcome (hook_globals * OrbisImeDialogStatus) :=
  match state (g_session h) with
  | IME_STATE_CONFIRMING | IME_STATE_CANCELLED =>
      Done (h, ORBIS_IME_DIALOG_STATUS_FINISHED)
  | IME_STATE_INACTIVE => Done (h, ORBIS_IME_DIALOG_STATUS_NONE)
  | IME_STATE_ACTIVE =>
      let h :=
        set_input_state
          (Input.input_update (g_input_state h) (buttons pad)
             (leftStick_x pad) (leftStick_y pad)
             (rightStick_x pad) (rightStick_y pad) now_us) h in
      let h :=
        set_tgrid
          (ThumbGrid.thumbgrid_select_cell (g_tgrid h)
             (Input.stick_x (g_input_state h))
             (Input.stick_y (g_input_state h))) h in
      let h :=
        set_tgrid
          (ThumbGrid.thumbgrid_update_position (g_tgrid h)
             (Input.rstick_x (g_input_state h))
             (Input.rstick_y (g_input_state h))
             (g_overlay_screen_w h) (g_overlay_screen_h h)) h in
      if u64 (now_us - g_session_start_us h) <? IME_GRACE_PERIOD_US then
        let h :=
          set_l2 (analog_l2 pad) (g_l2_shift_active h) (g_l2_saved_page h) h in
        let h :=
          set_l3_prev (negb (Z.land (buttons pad) Input.PAD_BUTTON_L3 =? 0))
            h in
        Done (h, ORBIS_IME_DIALOG_STATUS_RUNNING)
      else
        let h := l2_step (analog_l2 pad) h in
        let h := l3_step (buttons pad) h in
        let l2_center_override :=
          g_l2_shift_active h
          && (ThumbGrid.selected_cell (g_tgrid h)
              =? ThumbGrid.TG_CENTER_CELL) in
        h ← x_step l2_center_override h;
        match Input.input_get_action (g_input_state h) with
        | Input.IME_ACTION_CANCEL =>
            Done (set_session (ime_session_cancel (g_session h)) h,
                  ORBIS_IME_DIALOG_STATUS_FINISHED)
        | Input.IME_ACTION_SUBMIT =>
            s ← ime_session_submit (g_session h);
            Done (set_session s h, ORBIS_IME_DIALOG_STATUS_FINISHED)
        | action =>
            h ← dispatch_action action l2_center_override h;
            h ← bs_step now_us h;
            Done (h, ORBIS_IME_DIALOG_STATUS_RUNNING)
        end
  end.

(** A run of polls: each with the pad data and the process time of that
    poll.  The run stops reporting at the first poll that leaves an
    array. *)
Fixpoint run_polls (polls : list (pad_data * Z)) (h : hook_globals)
  : outcome hook_globals :=
  match polls with
  | [] => Done h
  | (pad, now_us) :: rest =>
      r ← hooked_ime_dialog_get_status h pad now_us;
      run_polls rest (fst r)
  end.

(** The caller's buffer, if there is one, has room for the capacity the
    session was created with. *)
Definition caller_buffer_fits (s : ImeSession) : Prop :=
  match caller_buffer s with
  | Some d => max_output_length s <= Z.of_nat (length d)
  | None => True
  end.

(** A well-formed session of capacity [cap] whose caller buffer has
    room. *)
Definition session_ok (cap : Z) (s : ImeSession) : Prop :=
  wf_full s /\ max_output_length s = cap /\ caller_buffer_fits s.

(** What the router relies on between polls: such a session, the grid
    of [thumbgrid_init], a selection anchor that is a [uint32_t], and a
    saved page that is a page. *)
Definition hook_ok (cap : Z) (h : hook_globals) : Prop :=
  session_ok cap (g_session h) /\
  ThumbGrid.grid_ok (g_tgrid h) /\
  0 <= g_x_anchor h <= U32_MAX /\
  g_l2_saved_page h < ThumbGrid.TG_MAX_PAGES.

(** The action of a D-pad direction, and the position the direction
    moves the text cursor to: one step left or right inside the text,
    or one of its ends. *)
Definition action_of_move (mv : cursor_move) : Input.ImeAction :=
  match mv with
  | MoveLeft => Input.IME_ACTION_CURSOR_LEFT
  | MoveRight => Input.IME_ACTION_CURSOR_RIGHT
  | MoveHome => Input.IME_ACTION_CURSOR_HOME
  | MoveEnd => Input.IME_ACTION_CURSOR_END
  end.

Definition moved_cursor (mv : cursor_move) (s : ImeSession) : Z :=
  match mv with
  | MoveLeft => Z.max 0 (text_cursor s - 1)
  | MoveRight => Z.min (output_length s) (text_cursor s + 1)
  | MoveHome => 0
  | MoveEnd => output_length s
  end.

(** The globals as [hooked_ime_dialog_init] resets them around a session
    [s]: the grid of [thumbgrid_init], the input state zeroed with
    centred sticks, no hold in progress.  The title is left as
    [thumbgrid_init] leaves it. *)
Definition globals_at_start (s : ImeSession) (title : list Z) (start_us : Z)
  : hook_globals :=
  {| g_session := s;
     g_tgrid :=
       ThumbGrid.thumbgrid_init
         {| ThumbGrid.selected_cell := 0; ThumbGrid.current_page := 0;
            ThumbGrid.page_count := 0; ThumbGrid.pages := None;
            ThumbGrid.offset_x := 0; ThumbGrid.offset_y := 0;
            ThumbGrid.accent_mode := false; ThumbGrid.title := title |};
     g_input_state :=
       {| Input.buttons_current := 0; Input.buttons_previous := 0;
          Input.buttons_pressed := 0; Input.buttons_released := 0;
          Input.timestamp_us := 0; Input.stick_x := 128;
          Input.stick_y := 128; Input.rstick_x := 128;
          Input.rstick_y := 128 |};
     g_session_start_us := start_us;
     g_overlay_screen_w := 1920; g_overlay_screen_h := 1080;
     g_bs_held := false; g_bs_start_us := 0; g_bs_last_repeat_us := 0;
     g_x_held := false; g_x_dpad_used := false; g_x_anchor := 0;
     g_l2_prev_analog := 0; g_l2_shift_active := false;
     g_l2_saved_page := -1; g_l3_prev := false |}.

End Hook.

(** ** A write that the reader's reset falls into

    The writer publishes the text "ab" and then starts to publish
    "wxyz".  After its [thumbgrid_ipc_write_begin] the reader attaches:
    [ipc_reader_open] stores [sequence = 0] and [ime_active = 0].  The
    writer goes on with its eleven scalar stores, and the reader polls
    before the writer reaches the text buffer. *)
Definition session_ab : ImeSession :=
  session_after [OpInsert 97; OpInsert 98] (session_after_init 0 10 None None).

Definition session_wxyz : ImeSession :=
  session_after
    [OpSelectAll; OpInsert 119; OpInsert 120; OpInsert 121; OpInsert 122]
    session_ab.

Definition grid_at_start : ThumbGrid.ThumbGridState :=
  Hook.g_tgrid (Hook.globals_at_start zero_session (replicate 48 0) 0).

Definition widgets_at_start : Ipc.widgets :=
  {| Ipc.g_cached_state := Ipc.zero_state; Ipc.grid_visible := false |}.

(** The record after the complete write of "ab". *)
Definition record_ab : Ipc.ThumbGridSharedState :=
  Ipc.run_events (Hook.sync_events session_ab grid_at_start Ipc.zero_state)
    Ipc.zero_state.

(** The stores of the write of "wxyz", in program order. *)
Definition write_of_wxyz : list Ipc.writer_event :=
  Hook.sync_events session_wxyz grid_at_start record_ab.

(** The writer has executed [thumbgrid_ipc_write_begin]. *)
Definition record_in_write : Ipc.ThumbGridSharedState :=
  Ipc.run_events (take 1 write_of_wxyz) record_ab.

(** The reader has attached. *)
Definition record_after_reader_open : Ipc.ThumbGridSharedState :=
  snd (Ipc.ipc_reader_open widgets_at_start record_in_write).

(** The writer has stored [ime_active] to [offset_y]; the text buffer is
    still to come. *)
Definition record_half_written : Ipc.ThumbGridSharedState :=
  Ipc.run_events (take 11 (drop 1 write_of_wxyz)) record_after_reader_open.

(** The writer has finished, [thumbgrid_ipc_write_end] included. *)
Definition record_wxyz : Ipc.ThumbGridSharedState :=
  Ipc.run_events (drop 12 write_of_wxyz) record_half_written.

(** * Basic facts *)

Lemma u32_small z : 0 <= z < 2 ^ 32 -> u32 z = z.
Proof. intros H. unfold u32. apply Z.mod_small. exact H. Qed.

Lemma u64_small z : 0 <= z < 2 ^ 64 -> u64 z = z.
Proof. intros H. unfold u64. apply Z.mod_small. exact H. Qed.

Lemma get_Some_lt (a : list Z) i v :
  get a i = Some v -> 0 <= i < Z.of_nat (length a).
Proof.
  unfold get. destruct (Z.ltb_spec i 0); [discriminate|].
  intros H0. apply lookup_lt_Some in H0. lia.
Qed.

Lemma get_lt_Some (a : list Z) i :
  0 <= i < Z.of_nat (length a) -> exists v, get a i = Some v.
Proof.
  intros H. unfold get. destruct (Z.ltb_spec i 0); [lia|].
  destruct (lookup_lt_is_Some_2 a (Z.to_nat i)) as [v Hv]; [lia|].
  exists v. exact Hv.
Qed.

Lemma get_None_iff (a : list Z) i :
  get a i = None <-> (i < 0 \/ Z.of_nat (length a) <= i).
Proof.
  unfold get. destruct (Z.ltb_spec i 0).
  - split; [left; lia | reflexivity].
  - rewrite lookup_ge_None. lia.
Qed.

Lemma get_ext (a b : list Z) :
  (forall i, get a i = get b i) -> a = b.
Proof.
  intros H. apply list_eq. intros n.
  specialize (H (Z.of_nat n)). unfold get in H.
  destruct (Z.ltb_spec (Z.of_nat n) 0); [lia|].
  rewrite Nat2Z.id in H. exact H.
Qed.

Lemma load_get (a : list Z) i v : get a i = Some v -> load a i = Done v.
Proof.
  unfold get, load. destruct (i <? 0); [discriminate|].
  intros ->. reflexivity.
Qed.

Lemma load_Done_get (a : list Z) i v : load a i = Done v -> get a i = Some v.
Proof.
  unfold get, load. destruct (i <? 0); [discriminate|].
  destruct (a !! Z.to_nat i); [|discriminate]. intros [= ->]. reflexivity.
Qed.

Lemma store_in (a : list Z) i v :
  0 <= i < Z.of_nat (length a) -> store a i v = Done (<[Z.to_nat i := v]> a).
Proof.
  intros H. unfold store.
  destruct (Z.ltb_spec i 0); [lia|].
  destruct (Z.ltb_spec i (Z.of_nat (length a))); [reflexivity | lia].
Qed.

Lemma store_out (a : list Z) i v :
  Z.of_nat (length a) <= i -> store a i v = OutOfBounds i.
Proof.
  intros H. unfold store.
  destruct (Z.ltb_spec i 0); [reflexivity|].
  destruct (Z.ltb_spec i (Z.of_nat (length a))); [lia | reflexivity].
Qed.

Lemma store_Done_inv (a a' : list Z) i v :
  store a i v = Done a' ->
  0 <= i < Z.of_nat (length a) /\ a' = <[Z.to_nat i := v]> a.
Proof.
  unfold store.
  destruct (Z.ltb_spec i 0); [discriminate|].
  destruct (Z.ltb_spec i (Z.of_nat (length a))); [|discriminate].
  intros [= <-]. split; [lia | reflexivity].
Qed.

Lemma get_insert (a : list Z) i j v :
  0 <= i < Z.of_nat (length a) ->
  get (<[Z.to_nat i := v]> a) j = if j =? i then Some v else get a j.
Proof.
  intros Hi. unfold get.
  destruct (Z.ltb_spec j 0).
  - destruct (Z.eqb_spec j i); [lia | reflexivity].
  - destruct (Z.eqb_spec j i) as [->|Hne].
    + apply list_lookup_insert_eq. lia.
    + apply list_lookup_insert_ne. lia.
Qed.

Lemma get_take (a : list Z) n i :
  get (take n a) i = if i <? Z.of_nat n then get a i else None.
Proof.
  unfold get. destruct (Z.ltb_spec i 0).
  - destruct (i <? Z.of_nat n); reflexivity.
  - destruct (Z.ltb_spec i (Z.of_nat n)).
    + apply lookup_take_lt. lia.
    + apply lookup_take_ge. lia.
Qed.

Lemma take_get_ext (a b : list Z) n :
  (forall i, 0 <= i < Z.of_nat n -> get a i = get b i) ->
  take n a = take n b.
Proof.
  intros H. apply get_ext. intros i. rewrite !get_take.
  destruct (Z.ltb_spec i (Z.of_nat n)); [|reflexivity].
  destruct (Z.ltb_spec i 0).
  - unfold get. destruct (Z.ltb_spec i 0); [reflexivity | lia].
  - apply H. lia.
Qed.

(** * The copy and shift loops *)

Ltac zbool :=
  repeat match goal with
    | |- context [Z.ltb ?a ?b] => destruct (Z.ltb_spec a b)
    | |- context [Z.leb ?a ?b] => destruct (Z.leb_spec a b)
    | |- context [Z.eqb ?a ?b] => destruct (Z.eqb_spec a b)
    end; simpl.

(** Decides the comparisons of the goal from the context, one at a time. *)
Ltac zdecide :=
  repeat match goal with
    | |- context [Z.ltb ?a ?b] =>
        first [ rewrite (proj2 (Z.ltb_lt a b)) by lia
              | rewrite (proj2 (Z.ltb_ge a b)) by lia ]
    | |- context [Z.leb ?a ?b] =>
        first [ rewrite (proj2 (Z.leb_le a b)) by lia
              | rewrite (proj2 (Z.leb_gt a b)) by lia ]
    | |- context [Z.eqb ?a ?b] =>
        first [ rewrite (proj2 (Z.eqb_eq a b)) by lia
              | rewrite (proj2 (Z.eqb_neq a b)) by lia ]
    end; cbn [andb].

Ltac zbool_in H :=
  repeat match type of H with
    | context [Z.ltb ?a ?b] => destruct (Z.ltb_spec a b)
    | context [Z.leb ?a ?b] => destruct (Z.leb_spec a b)
    | context [Z.eqb ?a ?b] => destruct (Z.eqb_spec a b)
    end; simpl in H.

Lemma memcpy_u16_spec n : forall dst d src s,
  0 <= d -> d + Z.of_nat n <= Z.of_nat (length dst) ->
  0 <= s -> s + Z.of_nat n <= Z.of_nat (length src) ->
  loop_result (memcpy_u16 n dst d src s) dst
    (fun j => if (d <=? j) && (j <? d + Z.of_nat n)
              then get src (j - d + s) else get dst j).
Proof.
  induction n as [|n IH]; intros dst d src s Hd Hdn Hs Hsn.
  - exists dst. split; [reflexivity|]. split; [reflexivity|].
    intros j. zbool; try reflexivity; lia.
  - destruct (get_lt_Some src s) as [v Hv]; [lia|].
    cbn [memcpy_u16]. rewrite (load_get _ _ _ Hv). cbn [mbind outcome_bind].
    rewrite store_in by lia. cbn [mbind outcome_bind].
    destruct (IH (<[Z.to_nat d := v]> dst) (d + 1) src (s + 1))
      as (a' & Ha' & Hlen & Hget);
      try rewrite length_insert; try lia.
    exists a'. split; [exact Ha'|].
    split; [rewrite Hlen; apply length_insert|].
    intros j. rewrite Hget. rewrite get_insert by lia.
    zbool; try lia; try reflexivity.
    + f_equal. lia.
    + subst j. rewrite <- Hv. f_equal. lia.
Qed.

Lemma paste_shift_loop_spec i : forall pos k out,
  0 <= pos -> 1 <= k ->
  Z.of_nat i + k <= Z.of_nat (length out) -> Z.of_nat i + k < 2 ^ 32 ->
  loop_result (paste_shift_loop i pos k out) out
    (fun j => if (pos + k <=? j) && (j <? Z.of_nat i + k)
              then get out (j - k) else get out j).
Proof.
  induction i as [|i IH]; intros pos k out Hpos Hk Hlen Hwrap.
  - exists out. split; [reflexivity|]. split; [reflexivity|].
    intros j. zbool; try reflexivity; lia.
  - cbn [paste_shift_loop].
    destruct (Z.ltb_spec pos (Z.of_nat (S i))) as [Hlt|Hge].
    + destruct (get_lt_Some out (Z.of_nat (S i) - 1)) as [v Hv]; [lia|].
      rewrite (load_get _ _ _ Hv). cbn [mbind outcome_bind].
      rewrite u32_small by lia.
      rewrite store_in by lia. cbn [mbind outcome_bind].
      destruct (IH pos k (<[Z.to_nat (Z.of_nat (S i) + k - 1) := v]> out))
        as (a' & Ha' & Hlen' & Hget);
        try rewrite length_insert; try lia.
      exists a'. split; [exact Ha'|].
      split; [rewrite Hlen'; apply length_insert|].
      intros j. rewrite Hget. rewrite !get_insert by lia.
      zbool; try lia; try reflexivity.
      subst j. rewrite <- Hv. f_equal. lia.
    + exists out. split; [reflexivity|]. split; [reflexivity|].
      intros j. zbool; try reflexivity; lia.
Qed.

Lemma add_shift_loop_paste i : forall pos out,
  Z.of_nat i < 2 ^ 32 ->
  add_shift_loop i pos out = paste_shift_loop i pos 1 out.
Proof.
  induction i as [|i IH]; intros pos out Hi; [reflexivity|].
  cbn [add_shift_loop paste_shift_loop].
  destruct (pos <? Z.of_nat (S i)); [|reflexivity].
  destruct (load out (Z.of_nat (S i) - 1)) as [v|]; [|reflexivity].
  cbn [mbind outcome_bind].
  replace (u32 (Z.of_nat (S i) + 1 - 1)) with (Z.of_nat (S i))
    by (rewrite u32_small; lia).
  destruct (store out (Z.of_nat (S i)) v) as [out'|]; [|reflexivity].
  cbn [mbind outcome_bind]. apply IH. lia.
Qed.

Lemma delete_loop_spec fuel : forall out i d len,
  0 <= i -> 1 <= d -> len <= Z.of_nat (length out) ->
  i + d < 2 ^ 32 -> len < 2 ^ 32 -> len - (i + d) <= Z.of_nat fuel ->
  loop_result (delete_loop fuel out i d len) out
    (fun j => if (i <=? j) && (j + d <? len)
              then get out (j + d) else get out j).
Proof.
  induction fuel as [|fuel IH]; intros out i d len Hi Hd Hlen Hw Hw' Hfuel.
  - exists out. split; [reflexivity|]. split; [reflexivity|].
    intros j. zbool; try reflexivity; lia.
  - cbn [delete_loop]. rewrite u32_small by lia.
    destruct (Z.ltb_spec (i + d) len) as [Hlt|Hge].
    + destruct (get_lt_Some out (i + d)) as [v Hv]; [lia|].
      rewrite (load_get _ _ _ Hv). cbn [mbind outcome_bind].
      rewrite store_in by lia. cbn [mbind outcome_bind].
      rewrite u32_small by lia.
      destruct (IH (<[Z.to_nat i := v]> out) (i + 1) d len)
        as (a' & Ha' & Hlen' & Hget);
        try rewrite length_insert; try lia.
      exists a'. split; [exact Ha'|].
      split; [rewrite Hlen'; apply length_insert|].
      intros j. rewrite Hget. rewrite !get_insert by lia.
      zbool; try lia; try reflexivity.
      subst j. rewrite <- Hv. reflexivity.
    + exists out. split; [reflexivity|]. split; [reflexivity|].
      intros j. zbool; try reflexivity; lia.
Qed.

Lemma backspace_loop_delete fuel : forall out i bound,
  0 <= i -> i + 1 < 2 ^ 32 -> 0 <= bound -> bound + 1 < 2 ^ 32 ->
  backspace_loop fuel out i bound = delete_loop fuel out i 1 (bound + 1).
Proof.
  induction fuel as [|fuel IH]; intros out i bound Hi Hw Hb Hbw; [reflexivity|].
  cbn [backspace_loop delete_loop]. rewrite !u32_small by lia.
  destruct (Z.ltb_spec i bound), (Z.ltb_spec (i + 1) (bound + 1));
    try lia; [|reflexivity].
  destruct (load out (i + 1)) as [v|]; [|reflexivity].
  cbn [mbind outcome_bind].
  destruct (store out i v) as [out'|]; [|reflexivity].
  cbn [mbind outcome_bind]. apply IH; lia.
Qed.

(** * The editing operations on a well-formed session *)

Lemma is_active_true s : state s = IME_STATE_ACTIVE -> is_active s = true.
Proof. intros H. unfold is_active. rewrite bool_decide_eq_true. exact H. Qed.

Lemma is_active_false s : state s <> IME_STATE_ACTIVE -> is_active s = false.
Proof. intros H. unfold is_active. rewrite bool_decide_eq_false. exact H. Qed.

Lemma clear_all_selected_spec s :
  arrays_ok s ->
  clear_all_selected s =
  Done (set_sel_end 0
          (set_sel_start 0
             (set_selected_all false
                (set_output (<[0%nat := 0]> (output s))
                   (set_text_cursor 0 (set_output_length 0 s)))))).
Proof.
  intros [Hout _]. unfold clear_all_selected.
  rewrite store_in by (rewrite Hout; cbv; split; [discriminate | reflexivity]).
  reflexivity.
Qed.

(** Deleting an active partial selection: the tail moves left over the
    selected range, a terminator is written after the shortened text and
    the cursor lands on the start of the range. *)
Lemma delete_selection_spec s :
  wf_session s -> state s = IME_STATE_ACTIVE -> sel_start s <> sel_end s ->
  exists out',
    ime_session_delete_selection s =
    Done (set_selected_all false
            (set_sel_end 0
               (set_sel_start 0
                  (set_text_cursor (sel_start s)
                     (set_output out'
                        (set_output_length
                           (output_length s - (sel_end s - sel_start s)) s)))))) /\
    length out' = length (output s) /\
    forall j, get out' j =
      if j =? output_length s - (sel_end s - sel_start s) then Some 0
      else if (sel_start s <=? j) && (j + (sel_end s - sel_start s) <? output_length s)
           then get (output s) (j + (sel_end s - sel_start s))
           else get (output s) j.
Proof.
  intros ([Hout Hclip] & (Hcur & Hsel & Hact) & Hmax) Hst Hne.
  specialize (Hact Hne).
  unfold IME_MAX_OUTPUT_LENGTH in *.
  unfold ime_session_delete_selection.
  rewrite (is_active_true _ Hst). cbn [negb].
  destruct (Z.eqb_spec (sel_start s) (sel_end s)) as [|_]; [contradiction|].
  destruct (Z.ltb_spec (sel_end s) (sel_start s)); [lia|].
  destruct (Z.ltb_spec (output_length s) (sel_end s)); [lia|].
  destruct (Z.ltb_spec (output_length s) (sel_start s)); [lia|].
  rewrite (u32_small (sel_end s - sel_start s)) by lia.
  destruct (delete_loop_spec (Z.to_nat (output_length s)) (output s)
              (sel_start s) (sel_end s - sel_start s) (output_length s))
    as (a1 & Ha1 & Hlen1 & Hget1); try lia.
  rewrite Ha1. cbn [mbind outcome_bind].
  rewrite u32_small by lia.
  rewrite store_in by lia. cbn [mbind outcome_bind].
  eexists. split; [reflexivity|].
  split; [rewrite length_insert; exact Hlen1|].
  intros j. rewrite get_insert by lia. rewrite Hget1. reflexivity.
Qed.

Ltac fields :=
  cbn [state charset charset_length cursor_index output output_length
       max_output_length text_cursor selected_all sel_start sel_end
       last_cycle_time_us hold_start_time_us dpad_held hold_direction
       cycle_config caller_buffer panel_type clipboard clipboard_length
       set_state set_cursor_index set_output set_output_length
       set_text_cursor set_selected_all set_sel_start set_sel_end
       set_last_cycle_time_us set_caller_buffer set_clipboard
       set_clipboard_length fst snd] in *.

Ltac unfold_wf :=
  unfold wf_session, arrays_ok, session_invariant, IME_MAX_OUTPUT_LENGTH,
    U32_MAX in *.

(** Closes [step_ok s (Done s')] when the fields of [s'] are explicit. *)
Ltac step_done :=
  left; eexists; split; [reflexivity|]; unfold_wf; fields;
  rewrite ?length_insert; intuition (try lia; try congruence).

Lemma step_ok_same s : wf_session s -> step_ok s (Done s).
Proof. intros H. left. exists s. auto. Qed.

Lemma step_ok_from s1 s r :
  max_output_length s1 = max_output_length s -> state s1 = state s ->
  step_ok s1 r -> step_ok s r.
Proof. unfold step_ok. intros -> ->. exact (fun H => H). Qed.

Lemma delete_selection_ok s :
  wf_session s -> step_ok s (ime_session_delete_selection s).
Proof.
  intros Hwf.
  destruct (decide (state s = IME_STATE_ACTIVE)) as [Hst|Hst].
  - destruct (Z.eq_dec (sel_start s) (sel_end s)) as [He|Hne].
    + unfold ime_session_delete_selection.
      rewrite (is_active_true _ Hst). cbn [negb].
      rewrite (proj2 (Z.eqb_eq _ _) He). apply step_ok_same, Hwf.
    + destruct (delete_selection_spec s Hwf Hst Hne) as (out' & -> & Hlen & _).
      destruct Hwf as (Harr & (Hcur & Hsel & Hact) & Hmax).
      specialize (Hact Hne).
      step_done.
  - unfold ime_session_delete_selection.
    rewrite (is_active_false _ Hst). apply step_ok_same, Hwf.
Qed.

Lemma clear_all_selected_ok s :
  wf_session s -> step_ok s (clear_all_selected s).
Proof.
  intros Hwf. rewrite clear_all_selected_spec by apply Hwf.
  destruct Hwf as (Harr & (Hcur & Hsel & Hact) & Hmax).
  step_done.
Qed.

Lemma clear_if_selected_ok s :
  wf_session s -> step_ok s (clear_if_selected s).
Proof.
  intros Hwf. unfold clear_if_selected.
  destruct (selected_all s); [apply clear_all_selected_ok, Hwf|].
  destruct (sel_start s =? sel_end s); cbn [negb].
  - apply step_ok_same, Hwf.
  - apply delete_selection_ok, Hwf.
Qed.

Lemma add_char16_ok s c :
  wf_session s ->
  step_ok s (r ← ime_session_add_char16 s c; Done (snd r)).
Proof.
  intros Hwf. unfold ime_session_add_char16.
  destruct (decide (state s = IME_STATE_ACTIVE)) as [Hst|Hst];
    [rewrite (is_active_true _ Hst)
    |rewrite (is_active_false _ Hst); apply step_ok_same, Hwf].
  cbn [negb].
  destruct (clear_if_selected_ok s Hwf)
    as [(s1 & -> & Hwf1 & Hmax1 & Hst1)|[-> Hfull]];
    [|right; split; [reflexivity | exact Hfull]].
  cbn [mbind outcome_bind].
  apply (step_ok_from s1 s); [exact Hmax1 | exact Hst1 |].
  clear Hmax1 Hst1 Hwf Hst s.
  destruct Hwf1 as ([Hout Hclip] & (Hcur & Hsel & Hact) & Hmax).
  destruct (Z.leb_spec (max_output_length s1) (output_length s1)).
  { cbn [mbind outcome_bind snd]. step_done. }
  set (pos := if output_length s1 <? text_cursor s1
              then output_length s1 else text_cursor s1).
  assert (Hpos : 0 <= pos <= output_length s1)
    by (subst pos; destruct (Z.ltb_spec (output_length s1) (text_cursor s1)); lia).
  unfold IME_MAX_OUTPUT_LENGTH in *.
  rewrite add_shift_loop_paste by lia.
  destruct (paste_shift_loop_spec (Z.to_nat (output_length s1)) pos 1 (output s1))
    as (a1 & -> & Hlen1 & _); try lia.
  cbn [mbind outcome_bind].
  rewrite store_in by lia. cbn [mbind outcome_bind].
  rewrite !u32_small by lia.
  destruct (Z.eq_dec (output_length s1 + 1) 256) as [Hfull|Hroom].
  - rewrite store_out by (rewrite length_insert; lia).
    cbn [mbind outcome_bind]. right.
    split; [f_equal; exact Hfull | unfold IME_MAX_OUTPUT_LENGTH; lia].
  - rewrite store_in by (rewrite length_insert; lia).
    cbn [mbind outcome_bind snd]. step_done.
Qed.

Lemma backspace_ok s :
  wf_session s ->
  step_ok s (r ← ime_session_backspace s; Done (snd r)).
Proof.
  intros Hwf. unfold ime_session_backspace.
  destruct (decide (state s = IME_STATE_ACTIVE)) as [Hst|Hst];
    [rewrite (is_active_true _ Hst)
    |rewrite (is_active_false _ Hst); apply step_ok_same, Hwf].
  cbn [negb].
  destruct (selected_all s) eqn:Hall.
  { destruct (clear_all_selected_ok s Hwf) as [(s1 & -> & H1)|[-> Hfull]].
    - left. exists s1. split; [reflexivity | exact H1].
    - right. split; [reflexivity | exact Hfull]. }
  destruct (Z.eqb_spec (sel_start s) (sel_end s)) as [Heq|Hne]; cbn [negb].
  2:{ destruct (delete_selection_ok s Hwf) as [(s1 & -> & H1)|[-> Hfull]].
      - left. exists s1. split; [reflexivity | exact H1].
      - right. split; [reflexivity | exact Hfull]. }
  destruct ((text_cursor s =? 0) || (output_length s =? 0)) eqn:Hz.
  { apply step_ok_same, Hwf. }
  apply orb_false_iff in Hz. destruct Hz as [Hc0 Hl0].
  apply Z.eqb_neq in Hc0, Hl0.
  destruct Hwf as ([Hout Hclip] & (Hcur & Hsel & Hact) & Hmax).
  unfold IME_MAX_OUTPUT_LENGTH in *.
  rewrite !u32_small by lia.
  rewrite backspace_loop_delete by lia.
  destruct (delete_loop_spec (Z.to_nat (output_length s)) (output s)
              (text_cursor s - 1) 1 (output_length s - 1 + 1))
    as (a1 & -> & Hlen1 & _); try lia.
  cbn [mbind outcome_bind].
  rewrite store_in by lia. cbn [mbind outcome_bind snd].
  step_done.
Qed.

Lemma apply_op_ok op s :
  wf_session s -> valid_op op -> step_ok s (apply_op op s).
Proof.
  intros Hwf Hv. destruct op; cbn [apply_op valid_op] in *.
  - apply add_char16_ok, Hwf.
  - apply backspace_ok, Hwf.
  - apply delete_selection_ok, Hwf.
  - unfold ime_session_cursor_left.
    destruct (is_active s); cbn [negb]; [|apply step_ok_same, Hwf].
    destruct Hwf as ([Hout Hclip] & (Hcur & Hsel & Hact) & Hmax). fields.
    destruct (Z.ltb_spec 0 (text_cursor s)); [|step_done].
    unfold IME_MAX_OUTPUT_LENGTH in *. rewrite u32_small by lia. step_done.
  - unfold ime_session_cursor_right.
    destruct (is_active s); cbn [negb]; [|apply step_ok_same, Hwf].
    destruct Hwf as ([Hout Hclip] & (Hcur & Hsel & Hact) & Hmax). fields.
    destruct (Z.ltb_spec (text_cursor s) (output_length s)); [|step_done].
    unfold IME_MAX_OUTPUT_LENGTH in *. rewrite u32_small by lia. step_done.
  - unfold ime_session_cursor_home.
    destruct (is_active s); cbn [negb]; [|apply step_ok_same, Hwf].
    destruct Hwf as ([Hout Hclip] & (Hcur & Hsel & Hact) & Hmax). step_done.
  - unfold ime_session_cursor_end.
    destruct (is_active s); cbn [negb]; [|apply step_ok_same, Hwf].
    destruct Hwf as ([Hout Hclip] & (Hcur & Hsel & Hact) & Hmax). step_done.
  - unfold ime_session_set_selection.
    destruct (is_active s); cbn [negb]; [|apply step_ok_same, Hwf].
    destruct Hwf as ([Hout Hclip] & (Hcur & Hsel & Hact) & Hmax).
    unfold U32_MAX in Hv.
    destruct (Z.ltb_spec (output_length s) start),
             (Z.ltb_spec (output_length s) end_);
      match goal with
      | |- context [Z.ltb ?a ?b] => destruct (Z.ltb_spec a b)
      end; step_done.
  - unfold ime_session_clear_selection.
    destruct Hwf as ([Hout Hclip] & (Hcur & Hsel & Hact) & Hmax). step_done.
  - unfold ime_session_select_all.
    destruct (is_active s); cbn [negb]; [|apply step_ok_same, Hwf].
    destruct (Z.eqb_spec (output_length s) 0); [apply step_ok_same, Hwf|].
    destruct Hwf as ([Hout Hclip] & (Hcur & Hsel & Hact) & Hmax). step_done.
Qed.

Lemma wf_sessionb_ok s : wf_sessionb s = true -> wf_session s.
Proof.
  unfold wf_sessionb. rewrite !andb_true_iff, orb_true_iff.
  rewrite !Z.leb_le, Z.eqb_eq, !Nat.eqb_eq.
  intros H. unfold wf_session, arrays_ok, session_invariant. intuition lia.
Qed.

Lemma run_ops_ok ops : forall s,
  wf_session s -> Forall valid_op ops -> step_ok s (run_ops ops s).
Proof.
  induction ops as [|op ops IH]; intros s Hwf Hv.
  - apply step_ok_same, Hwf.
  - apply Forall_cons in Hv. destruct Hv as [Hop Hops].
    cbn [run_ops].
    destruct (apply_op_ok op s Hwf Hop)
      as [(s1 & -> & Hwf1 & Hmax1 & Hst1)|[-> Hfull]].
    + cbn [mbind outcome_bind].
      apply (step_ok_from s1 s); [exact Hmax1 | exact Hst1 |].
      apply IH; assumption.
    + right. split; [reflexivity | exact Hfull].
Qed.

(** * C1: the session invariant *)

(** C1, counterexample.  On the text "abc" with the collapsed selection
    [3,3) (as [ime_session_set_selection] leaves it), a backspace shortens
    the text to length 2 and leaves [sel_end = 3]: the invariant of the
    data model, [sel_end <= output_length], held before the call and fails
    after it. *)
Lemma C1_backspace_leaves_selection_beyond_text :
  let s := session_after
             [OpInsert 97; OpInsert 98; OpInsert 99; OpSetSelection 3 3]
             (session_after_init 0 10 None None) in
  state s = IME_STATE_ACTIVE /\ spec_invariant s /\
  exists s', apply_op OpBackspace s = Done s' /\
             output_length s' = 2 /\ sel_end s' = 3 /\
             ~ spec_invariant s'.
Proof.
  cbv zeta. split; [vm_compute; reflexivity|].
  split.
  - unfold spec_invariant.
    repeat split; vm_compute; intros H; discriminate H.
  - eexists. split; [vm_compute; reflexivity|]. fields.
    split; [reflexivity|]. split; [reflexivity|].
    unfold spec_invariant. fields. lia.
Qed.

(** C1, amended.  From a well-formed active session, after every sequence
    of insert, backspace, delete-selection, cursor-movement and selection
    calls that completes, [0 <= text_cursor <= output_length <=
    max_output_length] and [sel_start <= sel_end] hold, and [sel_end <=
    output_length] holds whenever a partial selection is active
    ([sel_start <> sel_end]); the session is still active with the same
    capacity.  When the capacity is below the array size 256 every such
    sequence completes. *)
Theorem C1_invariant_after_every_call (s : ImeSession) (ops : list edit_op) :
  wf_session s -> state s = IME_STATE_ACTIVE -> Forall valid_op ops ->
  (forall s', run_ops ops s = Done s' ->
     session_invariant s' /\ state s' = IME_STATE_ACTIVE /\
     max_output_length s' = max_output_length s) /\
  (max_output_length s < IME_MAX_OUTPUT_LENGTH ->
   exists s', run_ops ops s = Done s').
Proof.
  intros Hwf Hst Hv.
  destruct (run_ops_ok ops s Hwf Hv)
    as [(s1 & Hrun & Hwf1 & Hmax1 & Hst1)|[Hrun Hfull]].
  - split.
    + intros s' Hs'. rewrite Hrun in Hs'. injection Hs' as <-.
      split; [apply Hwf1|]. split; [congruence | exact Hmax1].
    + intros _. exists s1. exact Hrun.
  - split.
    + intros s' Hs'. rewrite Hrun in Hs'. discriminate Hs'.
    + intros Hlt. rewrite Hfull in Hlt. lia.
Qed.

Lemma C1_invariant_after_every_call_witness :
  let s := session_after_init 0 10 None None in
  let ops := [OpInsert 97; OpInsert 98; OpSetSelection 0 2; OpBackspace] in
  (forall s', run_ops ops s = Done s' ->
     session_invariant s' /\ state s' = IME_STATE_ACTIVE /\
     max_output_length s' = max_output_length s) /\
  (max_output_length s < IME_MAX_OUTPUT_LENGTH ->
   exists s', run_ops ops s = Done s').
Proof.
  cbv zeta.
  apply (C1_invariant_after_every_call (session_after_init 0 10 None None)).
  - apply wf_sessionb_ok. vm_compute. reflexivity.
  - vm_compute. reflexivity.
  - repeat constructor; cbn; unfold U32_MAX; lia.
Defined.

(** * C2: submit *)

(** The copy loop of [safe_u16_copy] stops at [stop], the first index that
    reaches [limit] or holds a NUL in the source. *)
Lemma safe_u16_copy_loop_spec fuel : forall dst src i limit stop,
  0 <= i <= stop -> stop <= limit -> limit < 2 ^ 32 ->
  stop <= Z.of_nat (length dst) -> stop - i <= Z.of_nat fuel ->
  (forall j, i <= j < stop -> exists v, get src j = Some v /\ v <> 0) ->
  (stop = limit \/ get src stop = Some 0) ->
  exists dst',
    safe_u16_copy_loop fuel dst src i limit = Done (dst', stop) /\
    length dst' = length dst /\
    forall j, get dst' j =
      if (i <=? j) && (j <? stop) then get src j else get dst j.
Proof.
  induction fuel as [|fuel IH];
    intros dst src i limit stop Hi Hstop Hlim Hdst Hfuel Hnz Hend.
  - assert (stop = i) as -> by lia.
    exists dst. split; [reflexivity|]. split; [reflexivity|].
    intros j. zbool; try reflexivity; lia.
  - cbn [safe_u16_copy_loop].
    destruct (Z.ltb_spec i limit) as [Hlt|Hge].
    + destruct (Z.eq_dec i stop) as [->|Hne].
      * destruct Hend as [->|H0]; [lia|].
        rewrite (load_get _ _ _ H0). cbn [mbind outcome_bind].
        rewrite Z.eqb_refl.
        exists dst. split; [reflexivity|]. split; [reflexivity|].
        intros j. zbool; try reflexivity; lia.
      * destruct (Hnz i) as (v & Hv & Hv0); [lia|].
        rewrite (load_get _ _ _ Hv). cbn [mbind outcome_bind].
        destruct (Z.eqb_spec v 0) as [|_]; [contradiction|].
        rewrite store_in by lia. cbn [mbind outcome_bind].
        rewrite u32_small by lia.
        destruct (IH (<[Z.to_nat i := v]> dst) src (i + 1) limit stop)
          as (d' & Hd' & Hlen' & Hget);
          try rewrite length_insert; try lia; try assumption.
        { intros j Hj. apply Hnz. lia. }
        exists d'. split; [exact Hd'|].
        split; [rewrite Hlen'; apply length_insert|].
        intros j. rewrite Hget. rewrite get_insert by lia.
        zbool; try lia; try reflexivity.
        subst j. symmetry. exact Hv.
    + assert (stop = i) as -> by lia.
      exists dst. split; [reflexivity|]. split; [reflexivity|].
      intros j. zbool; try reflexivity; lia.
Qed.

(** What [ime_session_submit] copies from a text without embedded NUL:
    [min (output_length, max_output_length - 1)] characters, then a
    terminator. *)
Lemma submit_copies_prefix s d :
  wf_session s -> state s = IME_STATE_ACTIVE -> caller_buffer s = Some d ->
  0 < max_output_length s ->
  max_output_length s <= Z.of_nat (length d) ->
  (forall j, 0 <= j < output_length s ->
             exists v, get (output s) j = Some v /\ v <> 0) ->
  get (output s) (output_length s) = Some 0 \/
    output_length s = max_output_length s ->
  exists d',
    ime_session_submit s =
      Done (set_state IME_STATE_CONFIRMING (set_caller_buffer (Some d') s)) /\
    length d' = length d /\
    let n := Z.min (output_length s) (max_output_length s - 1) in
    (forall j, 0 <= j < n -> get d' j = get (output s) j) /\
    get d' n = Some 0.
Proof.
  intros ([Hout Hclip] & (Hcur & Hsel & Hact) & Hmax) Hst Hcb Hpos Hd Hnz Hend.
  unfold IME_MAX_OUTPUT_LENGTH in *.
  unfold ime_session_submit. rewrite (is_active_true _ Hst). cbn [negb].
  rewrite Hcb. unfold safe_u16_copy.
  destruct (Z.eqb_spec (max_output_length s) 0); [lia|].
  rewrite u32_small by lia.
  set (k := Z.min (output_length s) (max_output_length s - 1)).
  destruct (safe_u16_copy_loop_spec (Z.to_nat (max_output_length s - 1))
              d (output s) 0 (max_output_length s - 1) k)
    as (d1 & Hd1 & Hlen1 & Hget1); try lia.
  { intros j Hj. apply Hnz. lia. }
  { destruct Hend as [H0|Hfull]; [|left; lia].
    destruct (Z.le_gt_cases (output_length s) (max_output_length s - 1)).
    - right. replace k with (output_length s) by lia. exact H0.
    - left. lia. }
  rewrite Hd1. cbn [mbind outcome_bind].
  rewrite store_in by lia. cbn [mbind outcome_bind].
  eexists. split; [reflexivity|].
  split; [rewrite length_insert; exact Hlen1|].
  cbv zeta. fold k. split.
  - intros j Hj. rewrite get_insert by lia. rewrite Hget1.
    zbool; try lia; reflexivity.
  - rewrite get_insert by lia. rewrite Z.eqb_refl. reflexivity.
Qed.

(** With a full buffer the last character never reaches the caller: the
    destination holds a terminator where the source holds that
    character. *)
Lemma submit_full_buffer_truncated s d :
  wf_session s -> state s = IME_STATE_ACTIVE -> caller_buffer s = Some d ->
  0 < max_output_length s ->
  max_output_length s <= Z.of_nat (length d) ->
  (forall j, 0 <= j < output_length s ->
             exists v, get (output s) j = Some v /\ v <> 0) ->
  output_length s = max_output_length s ->
  exists d',
    ime_session_submit s =
      Done (set_state IME_STATE_CONFIRMING (set_caller_buffer (Some d') s)) /\
    get d' (output_length s - 1) = Some 0 /\
    get (output s) (output_length s - 1) <> Some 0.
Proof.
  intros Hwf Hst Hcb Hpos Hd Hnz Hfull.
  destruct (submit_copies_prefix s d Hwf Hst Hcb Hpos Hd Hnz (or_intror Hfull))
    as (d' & Hsub & _ & _ & Hterm).
  exists d'. split; [exact Hsub|].
  replace (Z.min (output_length s) (max_output_length s - 1))
    with (output_length s - 1) in Hterm by lia.
  split; [exact Hterm|].
  destruct (Hnz (output_length s - 1)) as (v & Hv & Hv0); [lia|].
  rewrite Hv. congruence.
Qed.

(** C2.  A session of capacity 3 holding "abc" (a full buffer) is
    submitted into a five-element destination: the state becomes
    Confirming, but the destination receives "ab" and a terminator; the
    third character is not copied. *)
Lemma C2_submit_full_buffer_loses_last_char :
  let s := session_after [OpInsert 97; OpInsert 98; OpInsert 99]
             (session_after_init 0 3 (Some [9; 9; 9; 9; 9]) None) in
  state s = IME_STATE_ACTIVE /\
  output_length s = 3 /\ max_output_length s = 3 /\
  text_of s = [97; 98; 99] /\
  exists s', ime_session_submit s = Done s' /\
             state s' = IME_STATE_CONFIRMING /\
             caller_buffer s' = Some [97; 98; 0; 9; 9].
Proof.
  cbv zeta. repeat split; try (vm_compute; reflexivity).
  eexists. split; [vm_compute; reflexivity|].
  split; reflexivity.
Qed.

(** * C3: the state machine *)

(** The operations that test the state leave a session that is not
    active exactly as it is. *)
Lemma guarded_operations_noop s :
  state s <> IME_STATE_ACTIVE ->
  (forall delta, ime_session_cycle s delta = s) /\
  ime_session_confirm_char s = Done (false, s) /\
  (forall c, ime_session_add_char16 s c = Done (false, s)) /\
  ime_session_backspace s = Done (false, s) /\
  ime_session_cursor_left s = s /\ ime_session_cursor_right s = s /\
  ime_session_cursor_home s = s /\ ime_session_cursor_end s = s /\
  (forall a b, ime_session_set_selection s a b = s) /\
  ime_session_delete_selection s = Done s /\
  ime_session_select_all s = s /\
  ime_session_copy s = Done s /\ ime_session_cut s = Done s /\
  ime_session_paste s = Done s /\
  ime_session_submit s = Done s.
Proof.
  intros Hst.
  unfold ime_session_cycle, ime_session_confirm_char, ime_session_add_char16,
    ime_session_backspace, ime_session_cursor_left, ime_session_cursor_right,
    ime_session_cursor_home, ime_session_cursor_end, ime_session_set_selection,
    ime_session_delete_selection, ime_session_select_all, ime_session_copy,
    ime_session_cut, ime_session_paste, ime_session_submit.
  rewrite (is_active_false _ Hst). cbn [negb]. repeat split.
Qed.

(** The transitions out of Active, and the one into it. *)
Lemma state_transitions s :
  state s = IME_STATE_ACTIVE ->
  state (ime_session_cancel s) = IME_STATE_CANCELLED /\
  (forall s', ime_session_submit s = Done s' ->
              state s' = IME_STATE_CONFIRMING) /\
  (forall old panel max_length caller prefill rc s',
     ime_session_init old panel max_length caller prefill = Done (rc, s') ->
     state s' = IME_STATE_ACTIVE).
Proof.
  intros Hst. split; [reflexivity|]. split.
  - intros s'. unfold ime_session_submit.
    rewrite (is_active_true _ Hst). cbn [negb].
    destruct (caller_buffer s).
    + destruct (safe_u16_copy _ _ _); cbn [mbind outcome_bind];
        [intros [= <-]; reflexivity | discriminate].
    + intros [= <-]. reflexivity.
  - intros old panel max_length caller prefill rc s'.
    unfold ime_session_init.
    destruct (charset_for_panel panel) as [[cs n]|]; cbn [mbind outcome_bind];
      [|discriminate].
    destruct prefill.
    + destruct (safe_u16_strlen _ _); cbn [mbind outcome_bind]; [|discriminate].
      destruct (safe_u16_copy _ _ _); cbn [mbind outcome_bind]; [|discriminate].
      intros [= _ <-]. reflexivity.
    + intros [= _ <-]. reflexivity.
Qed.

(** C3.  [ime_session_cancel] and [ime_session_clear_selection] do not test
    the state.  A submitted session (Confirming) that is then cancelled
    becomes Cancelled, and clearing the selection of a submitted session
    with the selection [1,3) resets the range. *)
Lemma C3_cancel_and_clear_selection_ignore_state :
  let s := session_after
             [OpInsert 97; OpInsert 98; OpInsert 99; OpSetSelection 1 3]
             (session_after_init 0 10 None None) in
  exists s1, ime_session_submit s = Done s1 /\
    state s1 = IME_STATE_CONFIRMING /\
    state (ime_session_cancel s1) = IME_STATE_CANCELLED /\
    ime_session_cancel s1 <> s1 /\
    (sel_start s1, sel_end s1) = (1, 3) /\
    (sel_start (ime_session_clear_selection s1),
     sel_end (ime_session_clear_selection s1)) = (0, 0) /\
    ime_session_clear_selection s1 <> s1.
Proof.
  cbv zeta. eexists. split; [vm_compute; reflexivity|].
  repeat split; try reflexivity.
  - intros H. apply (f_equal state) in H. discriminate H.
  - intros H. apply (f_equal sel_end) in H. discriminate H.
Qed.

(** * C4: cursor movement *)

(** C4, counterexample.  On "abc" with the partial selection [1,3), each
    of the four cursor movements leaves the range [1,3) in place. *)
Lemma C4_cursor_moves_keep_partial_selection :
  let s := session_after
             [OpInsert 97; OpInsert 98; OpInsert 99; OpSetSelection 1 3]
             (session_after_init 0 10 None None) in
  state s = IME_STATE_ACTIVE /\
  (sel_start s, sel_end s) = (1, 3) /\
  (sel_start (ime_session_cursor_left s),
   sel_end (ime_session_cursor_left s)) = (1, 3) /\
  (sel_start (ime_session_cursor_right s),
   sel_end (ime_session_cursor_right s)) = (1, 3) /\
  (sel_start (ime_session_cursor_home s),
   sel_end (ime_session_cursor_home s)) = (1, 3) /\
  (sel_start (ime_session_cursor_end s),
   sel_end (ime_session_cursor_end s)) = (1, 3).
Proof. cbv zeta. repeat split; vm_compute; reflexivity. Qed.

(** C4, amended.  On an active session whose cursor is within the text,
    each of the four cursor movements clears the select-all flag, leaves
    the range [sel_start, sel_end) and the text as they are, and moves
    the cursor one position left or right, or to 0 or [output_length],
    staying within [0, output_length]. *)
Theorem C4_cursor_move_clears_select_all_only (s : ImeSession) (m : cursor_move) :
  state s = IME_STATE_ACTIVE ->
  0 <= text_cursor s <= output_length s -> output_length s <= U32_MAX ->
  selected_all (move_cursor m s) = false /\
  sel_start (move_cursor m s) = sel_start s /\
  sel_end (move_cursor m s) = sel_end s /\
  output (move_cursor m s) = output s /\
  output_length (move_cursor m s) = output_length s /\
  state (move_cursor m s) = IME_STATE_ACTIVE /\
  text_cursor (move_cursor m s) =
    match m with
    | MoveLeft => Z.max 0 (text_cursor s - 1)
    | MoveRight => Z.min (output_length s) (text_cursor s + 1)
    | MoveHome => 0
    | MoveEnd => output_length s
    end /\
  0 <= text_cursor (move_cursor m s) <= output_length (move_cursor m s).
Proof.
  intros Hst Hcur Hlen. unfold U32_MAX in Hlen.
  destruct m; cbn [move_cursor];
    unfold ime_session_cursor_left, ime_session_cursor_right,
      ime_session_cursor_home, ime_session_cursor_end;
    rewrite (is_active_true _ Hst); cbn [negb]; fields.
  - destruct (Z.ltb_spec 0 (text_cursor s)); fields;
      [rewrite u32_small by lia|]; intuition lia.
  - destruct (Z.ltb_spec (text_cursor s) (output_length s)); fields;
      [rewrite u32_small by lia|]; intuition lia.
  - intuition lia.
  - intuition lia.
Qed.

Lemma C4_cursor_move_clears_select_all_only_witness :
  selected_all (move_cursor MoveLeft
                  (session_after [OpInsert 97; OpInsert 98; OpSelectAll]
                     (session_after_init 0 10 None None))) = false /\
  text_cursor (move_cursor MoveLeft
                 (session_after [OpInsert 97; OpInsert 98; OpSelectAll]
                    (session_after_init 0 10 None None))) = 1.
Proof.
  destruct (C4_cursor_move_clears_select_all_only
              (session_after [OpInsert 97; OpInsert 98; OpSelectAll]
                 (session_after_init 0 10 None None)) MoveLeft)
    as (Hall & _ & _ & _ & _ & _ & Hcur & _).
  - vm_compute. reflexivity.
  - vm_compute. split; intros H; discriminate H.
  - vm_compute. intros H; discriminate H.
  - split; [exact Hall | exact Hcur].
Defined.

(** * C5: cut then paste *)

(** Copy with select-all active takes the whole text. *)
Lemma copy_all_spec s :
  wf_session s -> state s = IME_STATE_ACTIVE -> selected_all s = true ->
  exists clip',
    ime_session_copy s =
      Done (set_clipboard_length (output_length s) (set_clipboard clip' s)) /\
    length clip' = length (clipboard s) /\
    forall j, get clip' j =
      if (0 <=? j) && (j <? output_length s)
      then get (output s) j else get (clipboard s) j.
Proof.
  intros ([Hout Hclip] & (Hcur & Hsel & Hact) & Hmax) Hst Hall.
  unfold IME_MAX_OUTPUT_LENGTH in *.
  unfold ime_session_copy. rewrite (is_active_true _ Hst), Hall. cbn [negb].
  rewrite Z.sub_0_r. rewrite u32_small by lia.
  unfold IME_MAX_OUTPUT_LENGTH.
  destruct (Z.ltb_spec 256 (output_length s)); [lia|].
  destruct (memcpy_u16_spec (Z.to_nat (output_length s)) (clipboard s) 0
              (output s) 0) as (c' & -> & Hlen & Hget); try lia.
  cbn [mbind outcome_bind].
  exists c'. split; [reflexivity|]. split; [exact Hlen|].
  intros j. rewrite Hget. rewrite Z2Nat.id by lia.
  zbool; try lia; try reflexivity. f_equal. lia.
Qed.

(** Copy with a partial selection takes the selected range. *)
Lemma copy_partial_spec s :
  wf_session s -> state s = IME_STATE_ACTIVE -> selected_all s = false ->
  sel_start s <> sel_end s ->
  exists clip',
    ime_session_copy s =
      Done (set_clipboard_length (sel_end s - sel_start s)
              (set_clipboard clip' s)) /\
    length clip' = length (clipboard s) /\
    forall j, get clip' j =
      if (0 <=? j) && (j <? sel_end s - sel_start s)
      then get (output s) (j + sel_start s) else get (clipboard s) j.
Proof.
  intros ([Hout Hclip] & (Hcur & Hsel & Hact) & Hmax) Hst Hall Hne.
  specialize (Hact Hne).
  unfold IME_MAX_OUTPUT_LENGTH in *.
  unfold ime_session_copy. rewrite (is_active_true _ Hst), Hall. cbn [negb].
  destruct (Z.eqb_spec (sel_start s) (sel_end s)) as [|_]; [contradiction|].
  cbn [negb].
  destruct (Z.ltb_spec (sel_end s) (sel_start s)); [lia|].
  rewrite u32_small by lia.
  unfold IME_MAX_OUTPUT_LENGTH.
  destruct (Z.ltb_spec 256 (sel_end s - sel_start s)); [lia|].
  destruct (memcpy_u16_spec (Z.to_nat (sel_end s - sel_start s)) (clipboard s) 0
              (output s) (sel_start s)) as (c' & -> & Hlen & Hget); try lia.
  cbn [mbind outcome_bind].
  exists c'. split; [reflexivity|]. split; [exact Hlen|].
  intros j. rewrite Hget. rewrite Z2Nat.id by lia.
  zbool; try lia; try reflexivity. f_equal. lia.
Qed.

(** Paste with no selection and enough room: the tail moves right by the
    clipboard length, the clipboard is copied at the cursor and a
    terminator is written after the text. *)
Lemma paste_spec s :
  wf_session s -> state s = IME_STATE_ACTIVE -> selected_all s = false ->
  sel_start s = sel_end s ->
  0 < clipboard_length s ->
  output_length s + clipboard_length s <= max_output_length s ->
  output_length s + clipboard_length s < IME_MAX_OUTPUT_LENGTH ->
  exists out',
    ime_session_paste s =
      Done (set_output out'
              (set_text_cursor (text_cursor s + clipboard_length s)
                 (set_output_length (output_length s + clipboard_length s) s))) /\
    length out' = length (output s) /\
    forall j, get out' j =
      if j =? output_length s + clipboard_length s then Some 0
      else if (text_cursor s <=? j) && (j <? text_cursor s + clipboard_length s)
      then get (clipboard s) (j - text_cursor s)
      else if (text_cursor s + clipboard_length s <=? j)
              && (j <? output_length s + clipboard_length s)
      then get (output s) (j - clipboard_length s)
      else get (output s) j.
Proof.
  intros ([Hout Hclip] & (Hcur & Hsel & Hact) & Hmax) Hst Hall Heq Hk Hroom Hfit.
  unfold IME_MAX_OUTPUT_LENGTH in *.
  unfold ime_session_paste. rewrite (is_active_true _ Hst), Hall. cbn [negb].
  destruct (Z.eqb_spec (clipboard_length s) 0); [lia|].
  rewrite (proj2 (Z.eqb_eq _ _) Heq). cbn [negb mbind outcome_bind].
  rewrite (u32_small (max_output_length s - output_length s)) by lia.
  destruct (Z.ltb_spec (max_output_length s - output_length s)
              (clipboard_length s)); [lia|].
  destruct (Z.eqb_spec (clipboard_length s) 0); [lia|].
  destruct (Z.ltb_spec (output_length s) (text_cursor s)); [lia|].
  destruct (paste_shift_loop_spec (Z.to_nat (output_length s)) (text_cursor s)
              (clipboard_length s) (output s))
    as (a1 & -> & Hlen1 & Hget1); try lia.
  cbn [mbind outcome_bind].
  destruct (memcpy_u16_spec (Z.to_nat (clipboard_length s)) a1 (text_cursor s)
              (clipboard s) 0) as (a2 & -> & Hlen2 & Hget2); try lia.
  cbn [mbind outcome_bind].
  rewrite !u32_small by lia.
  rewrite store_in by lia. cbn [mbind outcome_bind].
  eexists. split; [reflexivity|].
  split; [rewrite length_insert; lia|].
  intros j. rewrite get_insert by lia. rewrite Hget2, Hget1.
  rewrite !Z2Nat.id by lia.
  zbool; try lia; try reflexivity. f_equal. lia.
Qed.

(** Where the round trip of cut and paste holds.  On a well-formed active
    session with a non-empty selection (select-all on a non-empty text,
    or a partial range), whose text and terminator fit the array
    ([output_length < 256]), cut followed at once by paste completes and
    restores the text and its length; the restored text is again
    terminated. *)
Lemma cut_then_paste_restores_text_below_256 (s : ImeSession) :
  wf_session s -> state s = IME_STATE_ACTIVE ->
  (selected_all s = true /\ 0 < output_length s) \/
  (selected_all s = false /\ sel_start s <> sel_end s) ->
  output_length s < IME_MAX_OUTPUT_LENGTH ->
  exists s1 s2,
    ime_session_cut s = Done s1 /\ ime_session_paste s1 = Done s2 /\
    output_length s2 = output_length s /\
    text_of s2 = text_of s /\
    get (output s2) (output_length s2) = Some 0.
Proof.
  intros Hwf Hst Hsel Hfit.
  pose proof Hwf as ([Hout Hclip] & (Hcur & Hrange & Hact) & Hmax).
  unfold IME_MAX_OUTPUT_LENGTH in *.
  unfold ime_session_cut. rewrite (is_active_true _ Hst). cbn [negb].
  destruct Hsel as [[Hall Hlen]|[Hall Hne]].
  - (* select-all *)
    destruct (copy_all_spec s Hwf Hst Hall) as (clip' & -> & Hcl & Hcget).
    cbn [mbind outcome_bind]. fields.
    destruct (Z.ltb_spec 0 (output_length s)); [|lia].
    rewrite Hall.
    rewrite clear_all_selected_spec
      by (unfold arrays_ok, IME_MAX_OUTPUT_LENGTH; fields; split; congruence).
    match goal with |- exists s1 s2, Done ?x = Done s1 /\ _ => set (s1 := x) end.
    destruct (paste_spec s1) as (out' & Hp & Hlen' & Hget);
      [ subst s1; fields; unfold IME_MAX_OUTPUT_LENGTH;
        first [ lia | assumption | exact eq_refl
              | unfold_wf; fields; rewrite length_insert; intuition lia ] .. | ].
    exists s1. eexists. split; [reflexivity|]. split; [exact Hp|].
    clear Hp. subst s1. fields.
    split; [lia|]. split.
    + unfold text_of. fields. rewrite Z.add_0_l.
      apply take_get_ext. intros j Hj. rewrite Z2Nat.id in Hj by lia.
      rewrite Hget. zdecide. rewrite Hcget. zdecide. f_equal. lia.
    + rewrite Hget. rewrite Z.add_0_l, Z.eqb_refl. reflexivity.
  - (* partial selection *)
    specialize (Hact Hne).
    destruct (copy_partial_spec s Hwf Hst Hall Hne)
      as (clip' & -> & Hcl & Hcget).
    cbn [mbind outcome_bind]. fields.
    destruct (Z.ltb_spec 0 (sel_end s - sel_start s)); [|lia].
    rewrite Hall.
    match goal with
    | |- exists s1 s2, ime_session_delete_selection ?x = Done s1 /\ _ =>
        set (sc := x)
    end.
    destruct (delete_selection_spec sc) as (out1 & -> & Hlen1 & Hget1);
      [ subst sc; fields;
        first [ assumption | unfold_wf; fields; intuition lia ] .. | ].
    match goal with |- exists s1 s2, Done ?x = Done s1 /\ _ => set (s1 := x) end.
    destruct (paste_spec s1) as (out' & Hp & Hlen' & Hget);
      [ subst s1 sc; fields; unfold IME_MAX_OUTPUT_LENGTH;
        first [ lia | assumption | exact eq_refl
              | unfold_wf; fields; intuition lia ] .. | ].
    exists s1. eexists. split; [reflexivity|]. split; [exact Hp|].
    clear Hp. subst s1 sc. fields.
    split; [lia|]. split.
    + unfold text_of. fields.
      replace (output_length s - (sel_end s - sel_start s)
               + (sel_end s - sel_start s)) with (output_length s) by lia.
      apply take_get_ext. intros j Hj. rewrite Z2Nat.id in Hj by lia.
      rewrite Hget.
      destruct (Z.lt_ge_cases j (sel_start s)) as [Hlo|Hlo];
        [|destruct (Z.lt_ge_cases j (sel_end s)) as [Hmid|Hhi]].
      * zdecide. rewrite Hget1. zdecide. reflexivity.
      * zdecide. rewrite Hcget. zdecide. f_equal. lia.
      * zdecide. rewrite Hget1. zdecide. f_equal. lia.
    + rewrite Hget. rewrite Z.eqb_refl. reflexivity.
Qed.

Lemma cut_then_paste_restores_text_below_256_witness :
  exists s1 s2,
    ime_session_cut
      (session_after
         [OpInsert 97; OpInsert 98; OpInsert 99; OpInsert 100;
          OpSetSelection 1 3]
         (session_after_init 0 10 None None)) = Done s1 /\
    ime_session_paste s1 = Done s2 /\
    output_length s2 = 4 /\
    text_of s2 = [97; 98; 99; 100] /\
    get (output s2) (output_length s2) = Some 0.
Proof.
  apply (cut_then_paste_restores_text_below_256
           (session_after
              [OpInsert 97; OpInsert 98; OpInsert 99; OpInsert 100;
               OpSetSelection 1 3]
              (session_after_init 0 10 None None))).
  - apply wf_sessionb_ok. vm_compute. reflexivity.
  - vm_compute. reflexivity.
  - right. split; [vm_compute; reflexivity|].
    vm_compute. intros H. discriminate H.
  - vm_compute. reflexivity.
Defined.

(** C5.  A session of capacity 256 that a prefill has filled to its
    capacity, with everything selected.  The capacity is not exceeded:
    the text has 256 characters and the capacity is 256.  Cut completes,
    moves the 256 characters to the clipboard and empties the text; the
    paste that follows at once copies them back and then stores the
    terminator at index 256 of the 256-element output array. *)
Theorem C5_cut_then_paste_at_capacity_256_stores_past_the_array :
  let s := ime_session_select_all
             (session_after_init 0 256 None (Some (replicate 300 97))) in
  wf_session s /\ state s = IME_STATE_ACTIVE /\ selected_all s = true /\
  output_length s = 256 /\ max_output_length s = 256 /\
  exists s1,
    ime_session_cut s = Done s1 /\
    output_length s1 = 0 /\ clipboard_length s1 = 256 /\
    ime_session_paste s1 = OutOfBounds 256.
Proof.
  cbv zeta. split; [apply wf_sessionb_ok; vm_compute; reflexivity|].
  do 4 (split; [vm_compute; reflexivity|]).
  eexists. split; [vm_compute; reflexivity|].
  split; [reflexivity|]. split; [reflexivity|].
  vm_compute. reflexivity.
Qed.

(** * C6: the sequence-counter read *)

Lemma land_1_even z : (Z.land z 1 =? 0) = Z.even z.
Proof.
  change 1 with (Z.ones 1). rewrite Z.land_ones by lia.
  change (2 ^ 1) with 2. rewrite Zmod_even.
  destruct (Z.even z); reflexivity.
Qed.

(** The accept test.  [thumbgrid_ipc_read] returns 0 or 1.  It returns 1 exactly when
    the first load of the counter is even and equals the second load, and
    then the destination holds the copy.  With an odd first load it
    returns 0 and leaves the destination alone; with differing loads it
    returns 0.  In either case the poll loop hands nothing to its
    consumer: cache, record and staleness tracking are untouched. *)
Lemma read_accepts_iff_counter_even_and_stable
    (src : Ipc.volatile_reads) (dst : Ipc.ThumbGridSharedState) :
  (fst (Ipc.thumbgrid_ipc_read src dst) = 1 \/
   fst (Ipc.thumbgrid_ipc_read src dst) = 0) /\
  (fst (Ipc.thumbgrid_ipc_read src dst) = 1 <->
   Z.even (Ipc.seq_before src) = true /\
   Ipc.seq_before src = Ipc.seq_after src) /\
  (fst (Ipc.thumbgrid_ipc_read src dst) = 1 ->
   snd (Ipc.thumbgrid_ipc_read src dst) = Ipc.copied src) /\
  (Z.even (Ipc.seq_before src) = false ->
   Ipc.thumbgrid_ipc_read src dst = (0, dst)) /\
  (Ipc.seq_before src <> Ipc.seq_after src ->
   fst (Ipc.thumbgrid_ipc_read src dst) = 0) /\
  (Z.even (Ipc.seq_before src) = false \/
   Ipc.seq_before src <> Ipc.seq_after src ->
   forall l w m now_us,
     Ipc.poll_iteration l w m src now_us =
     ({| Ipc.read_ok := Ipc.read_ok l;
         Ipc.read_fail := u32 (Ipc.read_fail l + 1);
         Ipc.last_seq := Ipc.last_seq l;
         Ipc.last_seq_change_us := Ipc.last_seq_change_us l |}, w, m, None)).
Proof.
  unfold Ipc.poll_iteration, Ipc.thumbgrid_ipc_read.
  rewrite land_1_even.
  destruct (Z.even (Ipc.seq_before src)) eqn:Hev; cbn [negb fst snd].
  - destruct (Z.eqb_spec (Ipc.seq_before src) (Ipc.seq_after src)) as [He|Hne];
      cbn [fst snd].
    + repeat split; auto; try discriminate.
      * intros Hd. exfalso. exact (Hd He).
      * intros [Hd|Hd]; [discriminate Hd | exfalso; exact (Hd He)].
    + repeat split; auto; try discriminate.
      * intros [_ He]. exfalso. exact (Hne He).
  - repeat split; auto; try discriminate.
    + intros [Hd _]. discriminate Hd.
Qed.

Lemma read_accepts_iff_counter_even_and_stable_witness :
  fst (Ipc.thumbgrid_ipc_read
         {| Ipc.seq_before := 42;
            Ipc.copied := Ipc.set_sequence 43 Ipc.zero_state;
            Ipc.seq_after := 44 |} Ipc.zero_state) = 0 /\
  fst (Ipc.thumbgrid_ipc_read
         (Ipc.quiescent (Ipc.set_sequence 42 Ipc.zero_state))
         Ipc.zero_state) = 1.
Proof.
  split.
  - apply (read_accepts_iff_counter_even_and_stable
             {| Ipc.seq_before := 42;
                Ipc.copied := Ipc.set_sequence 43 Ipc.zero_state;
                Ipc.seq_after := 44 |} Ipc.zero_state).
    cbn. intros H. discriminate H.
  - apply (read_accepts_iff_counter_even_and_stable
             (Ipc.quiescent (Ipc.set_sequence 42 Ipc.zero_state))
             Ipc.zero_state).
    split; reflexivity.
Defined.

(** The counter after a run of protocol events: one step per begin or
    end. *)
Lemma sequence_run_events evs : forall writing m,
  Ipc.follows_protocol writing evs ->
  0 <= Ipc.sequence m < 2 ^ 32 ->
  exists k, 0 <= k <= Z.of_nat (length evs) /\
    (evs <> [] -> writing = false -> 1 <= k) /\
    Ipc.sequence (Ipc.run_events evs m) = u32 (Ipc.sequence m + k).
Proof.
  induction evs as [|e evs IH]; intros writing m Hp Hm.
  - exists 0. cbn [length Ipc.run_events fold_left].
    split; [lia|]. split; [congruence|].
    rewrite Z.add_0_r, u32_small by lia. reflexivity.
  - assert (Hstep : forall m', 0 <= Ipc.sequence m' < 2 ^ 32 ->
              forall writing', Ipc.follows_protocol writing' evs ->
              forall d, 0 <= d <= 1 ->
              Ipc.sequence m' = u32 (Ipc.sequence m + d) ->
              exists k, d <= k <= Z.of_nat (length (e :: evs)) /\
                Ipc.sequence (Ipc.run_events evs m')
                  = u32 (Ipc.sequence m + k)).
    { intros m' Hm' writing' Hp' d Hd Hseq.
      destruct (IH writing' m' Hp' Hm') as (k & Hk & _ & Hrun).
      exists (k + d). cbn [length]. split; [lia|].
      rewrite Hrun, Hseq. unfold u32.
      rewrite Zplus_mod_idemp_l. f_equal. lia. }
    unfold Ipc.run_events. cbn [fold_left].
    fold (Ipc.run_events evs (Ipc.apply_event e m)).
    inversion Hp as [|evs' Hp'|f evs' Hf Hp'|evs' Hp']; subst;
      cbn [Ipc.apply_event].
    + destruct (Hstep (Ipc.thumbgrid_ipc_write_begin m)) with (d := 1)
        (writing' := true) as (k & Hk & Hrun); try assumption; try lia;
        try reflexivity.
      { cbn. unfold u32. apply Z.mod_pos_bound. lia. }
      exists k. split; [lia|]. split; [intros; lia | exact Hrun].
    + destruct (Hstep (f m)) with (d := 0) (writing' := true)
        as (k & Hk & Hrun); try assumption; try lia.
      { rewrite Hf. exact Hm. }
      { rewrite Hf, Z.add_0_r, u32_small by lia. reflexivity. }
      exists k. split; [lia|]. split; [discriminate | exact Hrun].
    + destruct (Hstep (Ipc.thumbgrid_ipc_write_end m)) with (d := 1)
        (writing' := false) as (k & Hk & Hrun); try assumption; try lia;
        try reflexivity.
      { cbn. unfold u32. apply Z.mod_pos_bound. lia. }
      exists k. split; [lia|]. split; [discriminate | exact Hrun].
Qed.

Ltac pick_single H :=
  let x := fresh "x" in
  let Hin := fresh "Hin" in
  destruct H as (x & Hin & H);
  apply list_elem_of_singleton in Hin; subst x.

Lemma assembled_from_single c m : Ipc.assembled_from c [m] -> c = m.
Proof.
  unfold Ipc.assembled_from.
  intros (H1 & H2 & H3 & H4 & H5 & H6 & H7 & H8 & H9 & H10 & H11 & H12
          & H13 & H14 & H15 & H16 & H17).
  pick_single H1. pick_single H2. pick_single H3. pick_single H4.
  pick_single H5. pick_single H6. pick_single H7. pick_single H8.
  pick_single H9. pick_single H10. pick_single H11. pick_single H12.
  pick_single H13. pick_single H14. pick_single H15. pick_single H16.
  pick_single H17.
  destruct c, m.
  cbn [Ipc.sequence Ipc.ime_active Ipc.selected_cell Ipc.current_page
       Ipc.accent_mode Ipc.output Ipc.output_length Ipc.text_cursor
       Ipc.selected_all Ipc.sel_start Ipc.sel_end Ipc.title Ipc.page_name
       Ipc.cells Ipc.offset_x Ipc.offset_y Ipc.shift_active] in *.
  subst. reflexivity.
Qed.

(** A read that is accepted saw no writer event between its two loads of
    the counter, provided the writer follows the protocol and fewer than
    2^32 events fall between the loads: the accepted snapshot is the
    record as it stood at the first load. *)
Lemma accepted_snapshot_is_untorn
    (m : Ipc.ThumbGridSharedState) (evs : list Ipc.writer_event)
    (src : Ipc.volatile_reads) (dst : Ipc.ThumbGridSharedState) :
  0 <= Ipc.sequence m < 2 ^ 32 ->
  Ipc.follows_protocol (Z.odd (Ipc.sequence m)) evs ->
  Z.of_nat (length evs) < 2 ^ 32 ->
  Ipc.seq_before src = Ipc.sequence m ->
  Ipc.seq_after src = Ipc.sequence (Ipc.run_events evs m) ->
  Ipc.assembled_from (Ipc.copied src) (Ipc.history evs m) ->
  fst (Ipc.thumbgrid_ipc_read src dst) = 1 ->
  evs = [] /\ snd (Ipc.thumbgrid_ipc_read src dst) = m.
Proof.
  intros Hm Hp Hlen Hb Ha Hasm Hok.
  unfold Ipc.thumbgrid_ipc_read in *. rewrite land_1_even in *.
  destruct (Z.even (Ipc.seq_before src)) eqn:Hev; cbn [negb fst snd] in *;
    [|discriminate Hok].
  destruct (Z.eqb_spec (Ipc.seq_before src) (Ipc.seq_after src)) as [He|];
    cbn [fst snd] in *; [|discriminate Hok].
  rewrite Hb in Hev. rewrite <- Z.negb_even, Hev in Hp. cbn [negb] in Hp.
  destruct (sequence_run_events evs false m Hp Hm) as (k & Hk & Hk1 & Hrun).
  assert (Hnil : evs = []).
  { destruct evs as [|e evs]; [reflexivity|]. exfalso.
    specialize (Hk1 ltac:(discriminate) eq_refl).
    rewrite Hb, Ha, Hrun in He. unfold u32 in He.
    destruct (Z.lt_ge_cases (Ipc.sequence m + k) (2 ^ 32)).
    - rewrite Z.mod_small in He by lia. lia.
    - rewrite <- (Z.mod_unique_pos (Ipc.sequence m + k) (2 ^ 32) 1
                    (Ipc.sequence m + k - 2 ^ 32)) in He by lia.
      lia. }
  split; [exact Hnil|]. subst evs. cbn [Ipc.history] in Hasm.
  apply assembled_from_single. exact Hasm.
Qed.

Lemma odd_u32 z : Z.odd (u32 z) = Z.odd z.
Proof.
  unfold u32. rewrite <- !Z.bit0_odd.
  rewrite Z.mod_pow2_bits_low by lia. reflexivity.
Qed.

(** The counter's parity follows the writer's phase as long as only the
    writer's protocol events store to the record. *)
Lemma protocol_parity evs : forall writing m,
  Ipc.follows_protocol writing evs ->
  0 <= Ipc.sequence m < 2 ^ 32 -> Z.odd (Ipc.sequence m) = writing ->
  0 <= Ipc.sequence (Ipc.run_events evs m) < 2 ^ 32 /\
  Z.odd (Ipc.sequence (Ipc.run_events evs m)) = Ipc.writing_after writing evs.
Proof.
  induction evs as [|e evs IH]; intros writing m Hp Hm Hodd.
  - split; assumption.
  - unfold Ipc.run_events. cbn [fold_left].
    fold (Ipc.run_events evs (Ipc.apply_event e m)).
    assert (Hnext : 0 <= u32 (Ipc.sequence m + 1) < 2 ^ 32).
    { unfold u32. apply Z.mod_pos_bound. lia. }
    revert Hodd.
    inversion Hp as [|evs' Hp'|f evs' Hf Hp'|evs' Hp']; subst; intros Hodd;
      cbn [Ipc.apply_event Ipc.writing_after].
    + apply IH; [exact Hp' | exact Hnext|].
      cbn. rewrite odd_u32, Z.odd_add, Hodd. reflexivity.
    + apply IH; [exact Hp' | rewrite Hf; exact Hm | rewrite Hf; exact Hodd].
    + apply IH; [exact Hp' | exact Hnext|].
      cbn. rewrite odd_u32, Z.odd_add, Hodd. reflexivity.
Qed.

Lemma follows_protocol_app pre : forall writing evs,
  Ipc.follows_protocol writing (pre ++ evs) ->
  Ipc.follows_protocol writing pre /\
  Ipc.follows_protocol (Ipc.writing_after writing pre) evs.
Proof.
  induction pre as [|e pre IH]; intros writing evs Hp.
  - split; [constructor | exact Hp].
  - cbn [app] in Hp.
    inversion Hp as [|evs' Hp'|f evs' Hf Hp'|evs' Hp']; subst;
      cbn [Ipc.writing_after]; destruct (IH _ _ Hp') as [H1 H2];
      (split; [constructor; assumption | exact H2]).
Qed.

(** X27.  The sequence lock where only the writer stores.  From a record
    with an even counter and no write in progress (the zeroed record of
    [ipc_open], for one), let the only stores be the writer's bracketed
    writes: [pre] before the first counter load of a read, [evs] between
    its two loads, fewer than 2^32 of them.  If the read is accepted,
    then no store fell between the loads, the snapshot is the record
    exactly as it stood at the first load, and no write was in progress
    at that moment: the snapshot is what the last complete write left.
    The reader's own stores to the counter are outside such a run. *)
Theorem accepted_snapshot_is_a_published_record
    (m0 : Ipc.ThumbGridSharedState) (pre evs : list Ipc.writer_event)
    (src : Ipc.volatile_reads) (dst : Ipc.ThumbGridSharedState) :
  0 <= Ipc.sequence m0 < 2 ^ 32 -> Z.even (Ipc.sequence m0) = true ->
  Ipc.follows_protocol false (pre ++ evs) ->
  Z.of_nat (length evs) < 2 ^ 32 ->
  Ipc.seq_before src = Ipc.sequence (Ipc.run_events pre m0) ->
  Ipc.seq_after src
    = Ipc.sequence (Ipc.run_events evs (Ipc.run_events pre m0)) ->
  Ipc.assembled_from (Ipc.copied src)
    (Ipc.history evs (Ipc.run_events pre m0)) ->
  fst (Ipc.thumbgrid_ipc_read src dst) = 1 ->
  evs = [] /\
  snd (Ipc.thumbgrid_ipc_read src dst) = Ipc.run_events pre m0 /\
  Ipc.writing_after false pre = false.
Proof.
  intros Hm0 Hev0 Hp Hlen Hb Ha Hasm Hok.
  destruct (follows_protocol_app pre false evs Hp) as [Hpre Hevs].
  assert (Hodd0 : Z.odd (Ipc.sequence m0) = false).
  { rewrite <- Z.negb_even, Hev0. reflexivity. }
  destruct (protocol_parity pre false m0 Hpre Hm0 Hodd0) as [Hm Hodd].
  rewrite <- Hodd in Hevs.
  destruct (accepted_snapshot_is_untorn (Ipc.run_events pre m0) evs src dst
              Hm Hevs Hlen Hb Ha Hasm Hok) as [Hnil Hsnap].
  split; [exact Hnil|]. split; [exact Hsnap|].
  rewrite <- Hodd, <- Hb.
  unfold Ipc.thumbgrid_ipc_read in Hok. rewrite land_1_even in Hok.
  rewrite <- Z.negb_even.
  destruct (Z.even (Ipc.seq_before src)); [reflexivity|].
  cbn [negb fst] in Hok. discriminate Hok.
Qed.

Lemma ipc_sync_state_follows_protocol custom_active s tg l2 m evs :
  Hook.ipc_sync_state custom_active s tg l2 m = Done evs ->
  Ipc.follows_protocol false evs.
Proof.
  unfold Hook.ipc_sync_state. intros H.
  destruct (negb custom_active || negb (is_active s)).
  { destruct (negb (Ipc.ime_active m =? 0)); injection H as <-;
      repeat constructor. }
  cbv zeta in H.
  destruct (memcpy_u16 _ (Ipc.output m) _ _ _) as [out|];
    cbn [mbind outcome_bind] in H; [|discriminate H].
  destruct (memcpy_u16 _ (Ipc.title m) _ _ _) as [ti|];
    cbn [mbind outcome_bind] in H; [|discriminate H].
  destruct (ThumbGrid.pages tg) as [pgs|];
    cbn [mbind outcome_bind] in H; [|discriminate H].
  destruct (ThumbGrid.load_at pgs _) as [page|];
    cbn [mbind outcome_bind] in H; [|discriminate H].
  destruct (Hook.strncpy _ _ _ _ _) as [pn|];
    cbn [mbind outcome_bind] in H; [|discriminate H].
  destruct (store pn _ _) as [pn'|];
    cbn [mbind outcome_bind] in H; [|discriminate H].
  injection H as <-.
  destruct l2; cbn [app]; repeat constructor.
Qed.

Lemma sync_events_follow_protocol s tg m :
  Ipc.follows_protocol false (Hook.sync_events s tg m).
Proof.
  unfold Hook.sync_events.
  destruct (Hook.ipc_sync_state true s tg false m) as [evs|] eqn:Hsync;
    [|constructor].
  exact (ipc_sync_state_follows_protocol _ _ _ _ _ _ Hsync).
Qed.

(** C6.  The reader's own store to the counter lets a torn record pass.
    The writer has published "ab" and is publishing "wxyz".  Its
    [thumbgrid_ipc_write_begin] has made the counter odd when the reader
    attaches and [ipc_reader_open] stores [sequence = 0].  The writer
    stores its eleven scalar fields; the reader polls.  Both counter
    loads see 0, so [thumbgrid_ipc_read] returns 1, and the poll loop
    shows the snapshot: a record marked active with the length and the
    cursor of "wxyz" and the text buffer of "ab", which is neither
    record the writer has published.  When the writer has finished, the
    complete record carries an odd counter and every read of it is
    rejected. *)
Theorem C6_reader_reset_inside_a_write_admits_a_torn_record :
  (* the two records the writer publishes *)
  Ipc.output_length record_ab = 2 /\
  take 2 (Ipc.output record_ab) = [97; 98] /\
  Z.even (Ipc.sequence record_ab) = true /\
  Ipc.output_length record_wxyz = 4 /\
  take 4 (Ipc.output record_wxyz) = [119; 120; 121; 122] /\
  (* the writer follows the protocol *)
  Ipc.follows_protocol false write_of_wxyz /\
  (* a write is in progress when the reader stores to the counter *)
  Z.odd (Ipc.sequence record_in_write) = true /\
  Ipc.sequence record_after_reader_open = 0 /\
  (* the read of the half-written record is accepted and shown *)
  Ipc.thumbgrid_ipc_read (Ipc.quiescent record_half_written) Ipc.zero_state
    = (1, record_half_written) /\
  Ipc.ime_active record_half_written = 1 /\
  Ipc.output_length record_half_written = 4 /\
  Ipc.text_cursor record_half_written = 4 /\
  take 4 (Ipc.output record_half_written) = [97; 98; 0; 0] /\
  (exists l' w',
     Ipc.poll_iteration Ipc.poll_attached widgets_at_start
       record_half_written (Ipc.quiescent record_half_written) 1000
       = (l', w', record_half_written, Some record_half_written) /\
     Ipc.grid_visible w' = true) /\
  (* the complete record is rejected *)
  Z.odd (Ipc.sequence record_wxyz) = true /\
  Ipc.thumbgrid_ipc_read (Ipc.quiescent record_wxyz) Ipc.zero_state
    = (0, Ipc.zero_state).
Proof.
  do 5 (split; [vm_compute; reflexivity|]).
  split.
  { apply sync_events_follow_protocol. }
  do 7 (split; [vm_compute; reflexivity|]).
  split.
  { eexists. eexists. split; vm_compute; reflexivity. }
  split; vm_compute; reflexivity.
Qed.

(** * C7: staleness recovery *)

(** One iteration over a record whose counter the reader has tracked as
    unchanged for longer than the timeout. *)
Lemma stale_iteration_resets
    (l : Ipc.poll_locals) (w : Ipc.widgets) (m : Ipc.ThumbGridSharedState)
    (now_us : Z) :
  Z.even (Ipc.sequence m) = true ->
  Ipc.ime_active m <> 0 ->
  Ipc.last_seq l = Ipc.sequence m ->
  0 < Ipc.last_seq_change_us l ->
  Ipc.last_seq_change_us l <= now_us < 2 ^ 64 ->
  Ipc.IPC_STALE_TIMEOUT_US < now_us - Ipc.last_seq_change_us l ->
  exists l' w' m' snap,
    Ipc.poll_iteration l w m (Ipc.quiescent m) now_us
      = (l', w', m', Some snap) /\
    Ipc.ime_active snap = 0 /\
    Ipc.sequence m' = 0 /\ Ipc.ime_active m' = 0.
Proof.
  intros Hev Hact Hseq Hpos Hnow Hstale.
  unfold Ipc.poll_iteration, Ipc.thumbgrid_ipc_read, Ipc.quiescent.
  cbn [Ipc.seq_before Ipc.seq_after Ipc.copied].
  rewrite land_1_even, Hev. cbn [negb].
  rewrite Z.eqb_refl. cbn [negb Z.eqb].
  cbn [Ipc.last_seq Ipc.last_seq_change_us Ipc.read_ok Ipc.read_fail].
  rewrite Hseq, Z.eqb_refl. cbn [negb].
  destruct (Z.eqb_spec (Ipc.ime_active m) 0) as [|_]; [contradiction|].
  cbn [negb andb].
  cbn [Ipc.last_seq Ipc.last_seq_change_us Ipc.read_ok Ipc.read_fail].
  destruct (Z.ltb_spec 0 (Ipc.last_seq_change_us l)); [|lia].
  rewrite u64_small by lia.
  destruct (Z.ltb_spec Ipc.IPC_STALE_TIMEOUT_US
              (now_us - Ipc.last_seq_change_us l)); [|lia].
  cbn [andb].
  eexists. eexists. eexists. eexists.
  split; [reflexivity|]. repeat split.
Qed.

(** C7.  The record is active, its counter is even (so reads succeed) and
    equal to the value the reader last recorded, and more than the
    staleness timeout has passed since the reader recorded that change.
    Then the iteration hands its consumer a snapshot with the active flag
    cleared (the grid is hidden if it was shown), stores [ime_active = 0]
    and [sequence = 0] (an even value) into the shared record, and resets
    its own tracking. *)
Theorem C7_stale_record_is_reported_inactive_and_reset
    (l : Ipc.poll_locals) (w : Ipc.widgets) (m : Ipc.ThumbGridSharedState)
    (now_us : Z) :
  Z.even (Ipc.sequence m) = true ->
  Ipc.ime_active m <> 0 ->
  Ipc.last_seq l = Ipc.sequence m ->
  0 < Ipc.last_seq_change_us l ->
  Ipc.last_seq_change_us l <= now_us < 2 ^ 64 ->
  Ipc.IPC_STALE_TIMEOUT_US < now_us - Ipc.last_seq_change_us l ->
  exists l' w' m' snap,
    Ipc.poll_iteration l w m (Ipc.quiescent m) now_us
      = (l', w', m', Some snap) /\
    snap = Ipc.set_ime_active 0 m /\
    Ipc.ime_active snap = 0 /\
    w' = Ipc.update_widgets w snap /\
    Ipc.ime_active (Ipc.g_cached_state w') = 0 /\
    (Ipc.ime_active (Ipc.g_cached_state w) <> 0 -> Ipc.grid_visible w' = false) /\
    m' = Ipc.set_sequence 0 (Ipc.set_ime_active 0 m) /\
    Ipc.sequence m' = 0 /\ Z.even (Ipc.sequence m') = true /\
    Ipc.ime_active m' = 0 /\
    Ipc.last_seq l' = 0 /\ Ipc.last_seq_change_us l' = 0.
Proof.
  intros Hev Hact Hseq Hpos Hnow Hstale.
  unfold Ipc.poll_iteration, Ipc.thumbgrid_ipc_read, Ipc.quiescent.
  cbn [Ipc.seq_before Ipc.seq_after Ipc.copied].
  rewrite land_1_even, Hev. cbn [negb].
  rewrite Z.eqb_refl. cbn [negb Z.eqb].
  cbn [Ipc.last_seq Ipc.last_seq_change_us Ipc.read_ok Ipc.read_fail].
  rewrite Hseq, Z.eqb_refl. cbn [negb].
  destruct (Z.eqb_spec (Ipc.ime_active m) 0) as [|_]; [contradiction|].
  cbn [negb andb].
  cbn [Ipc.last_seq Ipc.last_seq_change_us Ipc.read_ok Ipc.read_fail].
  destruct (Z.ltb_spec 0 (Ipc.last_seq_change_us l)); [|lia].
  rewrite u64_small by lia.
  destruct (Z.ltb_spec Ipc.IPC_STALE_TIMEOUT_US
              (now_us - Ipc.last_seq_change_us l)); [|lia].
  cbn [andb].
  eexists. eexists. eexists. eexists.
  split; [reflexivity|].
  repeat split.
  unfold Ipc.update_widgets. cbn. intros Hc.
  destruct (Z.eqb_spec (Ipc.ime_active (Ipc.g_cached_state w)) 0);
    [contradiction | reflexivity].
Qed.

(** The example of the specification: a record left active with its
    counter frozen at 42.  A reader that has just attached polls it at
    1 ms, 1 s, 2 s and 3.1 s of process time: the first three polls
    report it active, the fourth reports it inactive and the record ends
    with [sequence = 0], [ime_active = 0]. *)
Example frozen_at_42 :
  let m := Ipc.set_ime_active 1 (Ipc.set_sequence 42 Ipc.zero_state) in
  let w := {| Ipc.g_cached_state := Ipc.zero_state;
              Ipc.grid_visible := false |} in
  let '(_, w', m', shown) :=
    Ipc.poll_undisturbed [1000; 1000000; 2000000; 3100000]
      Ipc.poll_attached w m in
  map (option_map Ipc.ime_active) shown = [Some 1; Some 1; Some 1; Some 0] /\
  Ipc.grid_visible w' = false /\
  Ipc.sequence m' = 0 /\ Ipc.ime_active m' = 0.
Proof. vm_compute. repeat split. Qed.

Lemma C7_stale_record_is_reported_inactive_and_reset_witness :
  exists l' w' m' snap,
    Ipc.poll_iteration
      {| Ipc.read_ok := 1; Ipc.read_fail := 0; Ipc.last_seq := 42;
         Ipc.last_seq_change_us := 1000 |}
      {| Ipc.g_cached_state :=
           Ipc.set_ime_active 1 (Ipc.set_sequence 42 Ipc.zero_state);
         Ipc.grid_visible := true |}
      (Ipc.set_ime_active 1 (Ipc.set_sequence 42 Ipc.zero_state))
      (Ipc.quiescent
         (Ipc.set_ime_active 1 (Ipc.set_sequence 42 Ipc.zero_state)))
      3100000
      = (l', w', m', Some snap) /\
    Ipc.ime_active snap = 0 /\ Ipc.grid_visible w' = false /\
    Ipc.sequence m' = 0 /\ Ipc.ime_active m' = 0.
Proof.
  destruct (C7_stale_record_is_reported_inactive_and_reset
              {| Ipc.read_ok := 1; Ipc.read_fail := 0; Ipc.last_seq := 42;
                 Ipc.last_seq_change_us := 1000 |}
              {| Ipc.g_cached_state :=
                   Ipc.set_ime_active 1 (Ipc.set_sequence 42 Ipc.zero_state);
                 Ipc.grid_visible := true |}
              (Ipc.set_ime_active 1 (Ipc.set_sequence 42 Ipc.zero_state))
              3100000)
    as (l' & w' & m' & snap & Hrun & _ & Hsnap & _ & _ & Hvis & _ & Hseq & _
        & Hact & _).
  - reflexivity.
  - cbn. lia.
  - reflexivity.
  - cbn. lia.
  - cbn. lia.
  - cbn. unfold Ipc.IPC_STALE_TIMEOUT_US. lia.
  - exists l', w', m', snap.
    split; [exact Hrun|]. split; [exact Hsnap|].
    split; [apply Hvis; cbn; lia|]. split; [exact Hseq | exact Hact].
Defined.

(** * C8: cycling through the charset *)

Lemma wrap_index_mod index length :
  0 < length < 2 ^ 32 -> wrap_index index length = index mod length.
Proof.
  intros Hlen. unfold wrap_index.
  destruct (Z.eqb_spec length 0); [lia|].
  pose proof (Z.mod_pos_bound index length ltac:(lia)) as Hmod.
  assert (Hrem : (if Z.rem index length <? 0
                  then Z.rem index length + length
                  else Z.rem index length) = index mod length).
  { pose proof (Z.quot_rem' index length) as Hq.
    assert (Hb : - length < Z.rem index length < length).
    { destruct (Z.le_gt_cases 0 index) as [Hi|Hi].
      - pose proof (Z.rem_bound_pos index length Hi ltac:(lia)). lia.
      - pose proof (Z.rem_bound_pos_neg index length ltac:(lia) ltac:(lia)).
        lia. }
    destruct (Z.ltb_spec (Z.rem index length) 0) as [Hneg|Hnn].
    - apply (Z.mod_unique_pos index length (Z.quot index length - 1)); lia.
    - apply (Z.mod_unique_pos index length (Z.quot index length)); lia. }
  rewrite Hrem. apply u32_small. lia.
Qed.

Lemma cycle_active s delta :
  state s = IME_STATE_ACTIVE -> 0 < charset_length s < 2 ^ 32 ->
  ime_session_cycle s delta =
  set_cursor_index ((cursor_index s + delta) mod charset_length s) s.
Proof.
  intros Hst Hn. unfold ime_session_cycle.
  rewrite (is_active_true _ Hst). cbn [negb].
  destruct (Z.eqb_spec (charset_length s) 0); [lia|].
  rewrite wrap_index_mod by lia. reflexivity.
Qed.

Lemma set_cursor_index_same s : set_cursor_index (cursor_index s) s = s.
Proof. destruct s. reflexivity. Qed.

Lemma cycle_forward_iter s (k : nat) :
  state s = IME_STATE_ACTIVE -> 0 < charset_length s < 2 ^ 32 ->
  0 <= cursor_index s < charset_length s ->
  Nat.iter k (fun x => ime_session_cycle x 1) s =
  set_cursor_index ((cursor_index s + Z.of_nat k) mod charset_length s) s.
Proof.
  intros Hst Hn Hidx. induction k as [|k IH].
  - change (Nat.iter 0 (fun x => ime_session_cycle x 1) s) with s.
    rewrite Z.add_0_r, Z.mod_small by lia.
    symmetry. apply set_cursor_index_same.
  - rewrite Nat.iter_succ, IH. rewrite cycle_active; fields; try assumption.
    rewrite Zplus_mod_idemp_l.
    replace (cursor_index s + Z.of_nat k + 1)
      with (cursor_index s + Z.of_nat (S k)) by lia.
    reflexivity.
Qed.

(** C8.  [ime_session_cycle] does nothing on an empty charset.  On an
    active session with a charset of length [n > 0] and the cycle cursor
    inside it: [n] steps of [+1] bring the session back to where it was,
    a step of [-1] after a step of [+1] does too, and a step of [-1] from
    index 0 lands on [n - 1]. *)
Theorem C8_cycle_wraps :
  (forall s delta, charset_length s = 0 -> ime_session_cycle s delta = s) /\
  (forall s,
     state s = IME_STATE_ACTIVE ->
     0 < charset_length s <= U32_MAX ->
     0 <= cursor_index s < charset_length s ->
     Nat.iter (Z.to_nat (charset_length s))
       (fun x => ime_session_cycle x 1) s = s /\
     ime_session_cycle (ime_session_cycle s 1) (-1) = s /\
     (cursor_index s = 0 ->
      cursor_index (ime_session_cycle s (-1)) = charset_length s - 1)).
Proof.
  split.
  - intros s delta Hn. unfold ime_session_cycle.
    destruct (is_active s); cbn [negb]; [|reflexivity].
    rewrite Hn. reflexivity.
  - intros s Hst Hn Hidx. unfold U32_MAX in Hn.
    split; [|split].
    + rewrite cycle_forward_iter by (assumption || lia).
      rewrite Z2Nat.id by lia.
      rewrite <- (Z.mul_1_l (charset_length s)) at 1.
      rewrite Z.mod_add by lia. rewrite Z.mod_small by lia.
      apply set_cursor_index_same.
    + rewrite (cycle_active s 1) by (assumption || lia).
      rewrite cycle_active; fields; try assumption; try lia.
      rewrite Zplus_mod_idemp_l.
      replace (cursor_index s + 1 + -1) with (cursor_index s) by lia.
      rewrite Z.mod_small by lia.
      change (set_cursor_index (cursor_index s) s = s).
      apply set_cursor_index_same.
    + intros H0. rewrite cycle_active by (assumption || lia). fields.
      rewrite H0.
      replace (0 + -1) with (-1 + 1 * charset_length s - charset_length s)
        by lia.
      symmetry.
      apply (Z.mod_unique_pos _ (charset_length s) (-1)); lia.
Qed.

Lemma C8_cycle_wraps_witness :
  Nat.iter 13 (fun x => ime_session_cycle x 1)
    (session_after_init 4 10 None None) = session_after_init 4 10 None None /\
  ime_session_cycle (ime_session_cycle (session_after_init 4 10 None None) 1)
    (-1) = session_after_init 4 10 None None /\
  cursor_index (ime_session_cycle (session_after_init 4 10 None None) (-1))
    = 12 /\
  ime_session_cycle zero_session 1 = zero_session.
Proof.
  destruct C8_cycle_wraps as [Hempty Hwrap].
  destruct (Hwrap (session_after_init 4 10 None None))
    as (Hn & Hback & Hneg).
  - vm_compute. reflexivity.
  - vm_compute. split; [reflexivity | intros H; discriminate H].
  - vm_compute. split; [intros H; discriminate H | reflexivity].
  - split; [exact Hn|]. split; [exact Hback|].
    split; [apply Hneg; vm_compute; reflexivity|].
    apply Hempty. reflexivity.
Defined.

(** * C9: session creation *)

Lemma charset_for_panel_total panel :
  exists cs n, charset_for_panel panel = Done (cs, n) /\ 0 <= n <= 96.
Proof.
  unfold charset_for_panel.
  destruct (panel =? ORBIS_IME_PANEL_TYPE_NUMBER).
  - eexists. eexists. split; [vm_compute; reflexivity|]. lia.
  - destruct ((panel =? ORBIS_IME_PANEL_TYPE_URL)
              || (panel =? ORBIS_IME_PANEL_TYPE_MAIL)).
    + eexists. eexists. split; [vm_compute; reflexivity|]. lia.
    + eexists. eexists. split; [vm_compute; reflexivity|]. lia.
Qed.

Lemma safe_u16_strlen_loop_bound fuel : forall str len max_len r,
  0 <= len <= max_len -> max_len < 2 ^ 32 ->
  safe_u16_strlen_loop fuel str len max_len = Done r -> len <= r <= max_len.
Proof.
  induction fuel as [|fuel IH]; intros str len max_len r Hlen Hmax;
    cbn [safe_u16_strlen_loop].
  - intros [= <-]. lia.
  - destruct (Z.ltb_spec len max_len); [|intros [= <-]; lia].
    destruct (load str len) as [c|]; cbn [mbind outcome_bind]; [|discriminate].
    destruct (c =? 0); [intros [= <-]; lia|].
    rewrite u32_small by lia. intros Hr. apply IH in Hr; lia.
Qed.

Lemma store_length (a a' : list Z) i v :
  store a i v = Done a' -> length a' = length a.
Proof.
  intros H. apply store_Done_inv in H. destruct H as [_ ->].
  apply length_insert.
Qed.

Lemma safe_u16_copy_loop_length fuel : forall dst src i limit d' i',
  safe_u16_copy_loop fuel dst src i limit = Done (d', i') ->
  length d' = length dst.
Proof.
  induction fuel as [|fuel IH]; intros dst src i limit d' i';
    cbn [safe_u16_copy_loop].
  - intros [= <- _]. reflexivity.
  - destruct (i <? limit); [|intros [= <- _]; reflexivity].
    destruct (load src i) as [c|]; cbn [mbind outcome_bind]; [|discriminate].
    destruct (c =? 0); [intros [= <- _]; reflexivity|].
    destruct (store dst i c) as [d1|] eqn:Hst; cbn [mbind outcome_bind];
      [|discriminate].
    intros Hr. apply IH in Hr. rewrite Hr. exact (store_length _ _ _ _ Hst).
Qed.

Lemma safe_u16_copy_length d src max_dst_chars r :
  safe_u16_copy (Some d) src max_dst_chars = Done r ->
  exists d', r = Some d' /\ length d' = length d.
Proof.
  unfold safe_u16_copy.
  destruct (max_dst_chars =? 0).
  { intros [= <-]. exists d. split; reflexivity. }
  destruct src as [sr|].
  - destruct (safe_u16_copy_loop _ d sr 0 _) as [[d1 i]|] eqn:Hloop;
      cbn [mbind outcome_bind]; [|discriminate].
    destruct (store d1 i 0) as [d2|] eqn:Hst; cbn [mbind outcome_bind];
      [|discriminate].
    intros [= <-]. exists d2. split; [reflexivity|].
    rewrite (store_length _ _ _ _ Hst).
    exact (safe_u16_copy_loop_length _ _ _ _ _ _ _ Hloop).
  - destruct (store d 0 0) as [d1|] eqn:Hst; cbn [mbind outcome_bind];
      [|discriminate].
    intros [= <-]. exists d1. split; [reflexivity|].
    exact (store_length _ _ _ _ Hst).
Qed.

Lemma zero_session_fields :
  length (output zero_session) = Z.to_nat IME_MAX_OUTPUT_LENGTH /\
  length (clipboard zero_session) = Z.to_nat IME_MAX_OUTPUT_LENGTH /\
  output_length zero_session = 0 /\ text_cursor zero_session = 0 /\
  sel_start zero_session = 0 /\ sel_end zero_session = 0.
Proof.
  cbn [zero_session output clipboard output_length text_cursor sel_start
       sel_end].
  rewrite !length_replicate. repeat split.
Qed.

(** Every session that [ime_session_init] returns is well-formed and
    active. *)
Lemma init_wf old panel max_length caller prefill rc s :
  0 <= max_length <= U32_MAX ->
  ime_session_init old panel max_length caller prefill = Done (rc, s) ->
  wf_session s /\ state s = IME_STATE_ACTIVE /\ 1 <= max_output_length s.
Proof.
  intros Hmax. unfold ime_session_init, U32_MAX, memset_session in *.
  set (ml := if (max_length =? 0) || (IME_MAX_OUTPUT_LENGTH <? max_length)
             then CLAMP max_length 1 IME_MAX_OUTPUT_LENGTH else max_length).
  assert (Hml : 1 <= ml <= 256).
  { subst ml. unfold CLAMP, IME_MAX_OUTPUT_LENGTH. zbool; lia. }
  clearbody ml.
  destruct zero_session_fields as (Zo & Zc & Zl & Zt & Zs & Ze).
  set (z := zero_session) in *. clearbody z.
  destruct (charset_for_panel panel) as [[cs n]|]; cbn [mbind outcome_bind];
    [|discriminate].
  destruct prefill as [p|].
  - destruct (safe_u16_strlen (Some p) ml) as [plen|] eqn:Hlen;
      cbn [mbind outcome_bind]; [|discriminate].
    destruct (safe_u16_copy _ (Some p) ml) as [out|] eqn:Hcopy;
      cbn [mbind outcome_bind]; [|discriminate].
    intros [= _ <-].
    apply safe_u16_strlen_loop_bound in Hlen; [|lia|lia].
    apply safe_u16_copy_length in Hcopy.
    destruct Hcopy as (d' & -> & Hd'). fields.
    unfold_wf. fields. cbn [default from_option id].
    intuition (try lia; try congruence).
  - intros [= _ <-]. unfold_wf. fields. intuition (try lia; try congruence).
Qed.

(** C9.  [ime_session_init] starts from the zeroed object: its result does
    not depend on what the session object held before.  In the session it
    returns the clipboard is all zeros with length 0, no selection is
    set, the cycle cursor is 0, and without prefill the text and text
    cursor are empty; without prefill it always succeeds. *)
Theorem C9_init_discards_previous_session
    (old : ImeSession) (panel max_length : Z)
    (caller prefill : option (list Z)) :
  ime_session_init old panel max_length caller prefill
    = ime_session_init zero_session panel max_length caller prefill /\
  (forall rc s,
     ime_session_init old panel max_length caller prefill = Done (rc, s) ->
     clipboard s = replicate 256 0 /\ clipboard_length s = 0 /\
     selected_all s = false /\ sel_start s = 0 /\ sel_end s = 0 /\
     cursor_index s = 0 /\ text_cursor s = output_length s /\
     (prefill = None ->
      output_length s = 0 /\ output s = replicate 256 0)) /\
  (prefill = None ->
   exists s, ime_session_init old panel max_length caller prefill
             = Done (IME_OK, s)).
Proof.
  split; [reflexivity|]. split.
  - intros rc s. unfold ime_session_init.
    destruct (charset_for_panel panel) as [[cs n]|]; cbn [mbind outcome_bind];
      [|discriminate].
    destruct prefill as [p|].
    + destruct (safe_u16_strlen _ _) as [plen|]; cbn [mbind outcome_bind];
        [|discriminate].
      destruct (safe_u16_copy _ _ _) as [out|]; cbn [mbind outcome_bind];
        [|discriminate].
      intros [= _ <-]. fields.
      repeat (split; [reflexivity|]). intros H. discriminate H.
    + intros [= _ <-]. fields.
      repeat (split; [reflexivity|]). reflexivity.
  - intros ->. unfold ime_session_init.
    destruct (charset_for_panel_total panel) as (cs & n & -> & _).
    cbn [mbind outcome_bind]. eexists. reflexivity.
Qed.

Lemma C9_init_discards_previous_session_witness :
  exists s,
    ime_session_init
      (session_after
         [OpInsert 97; OpInsert 98; OpSetSelection 0 1; OpCursorEnd]
         (session_after_init 0 10 None None))
      4 5 None None = Done (IME_OK, s) /\
    clipboard s = replicate 256 0 /\ sel_end s = 0 /\ text_cursor s = 0.
Proof.
  destruct (C9_init_discards_previous_session
              (session_after
                 [OpInsert 97; OpInsert 98; OpSetSelection 0 1; OpCursorEnd]
                 (session_after_init 0 10 None None))
              4 5 None None) as (_ & Hfields & Htotal).
  destruct (Htotal eq_refl) as (s & Hs).
  destruct (Hfields _ _ Hs) as (Hclip & _ & _ & _ & Hsel & _ & Hcur & Hnone).
  destruct (Hnone eq_refl) as (Hlen & _).
  exists s. split; [exact Hs|]. split; [exact Hclip|].
  split; [exact Hsel|]. rewrite Hcur. exact Hlen.
Defined.

(** * C10: stores into the 256-element output array *)

(** With capacity 256 and 255 characters of text, the insertion stores the
    character at index 255 and then the terminator at index 256, one past
    the end of the array. *)
Lemma add_char16_terminator_out_of_bounds s c :
  wf_session s -> state s = IME_STATE_ACTIVE ->
  selected_all s = false -> sel_start s = sel_end s ->
  output_length s = 255 -> max_output_length s = IME_MAX_OUTPUT_LENGTH ->
  ime_session_add_char16 s c = OutOfBounds 256.
Proof.
  intros ([Hout Hclip] & (Hcur & Hsel & Hact) & Hmax) Hst Hall Heq Hlen Hcap.
  unfold IME_MAX_OUTPUT_LENGTH in *.
  unfold ime_session_add_char16, clear_if_selected.
  rewrite (is_active_true _ Hst), Hall, (proj2 (Z.eqb_eq _ _) Heq).
  cbn [negb mbind outcome_bind].
  destruct (Z.leb_spec (max_output_length s) (output_length s)); [lia|].
  set (pos := if output_length s <? text_cursor s
              then output_length s else text_cursor s).
  assert (Hpos : 0 <= pos <= output_length s)
    by (subst pos; destruct (Z.ltb_spec (output_length s) (text_cursor s)); lia).
  rewrite add_shift_loop_paste by lia.
  destruct (paste_shift_loop_spec (Z.to_nat (output_length s)) pos 1 (output s))
    as (a1 & -> & Hlen1 & _); try lia.
  cbn [mbind outcome_bind].
  rewrite store_in by lia. cbn [mbind outcome_bind].
  rewrite !u32_small by lia.
  rewrite store_out by (rewrite length_insert; lia).
  cbn [mbind outcome_bind]. f_equal. lia.
Qed.

(** C10.  A session created with capacity 256 and filled with 255
    characters is active and well-formed.  Inserting one more character,
    confirming the cycled character, or pasting one character each store
    the terminator at index 256 of the 256-element array. *)
Lemma C10_terminator_store_past_the_array :
  let s := session_after (replicate 255 (OpInsert 97))
             (session_after_init 0 256 None None) in
  state s = IME_STATE_ACTIVE /\
  output_length s = 255 /\ max_output_length s = 256 /\
  length (output s) = 256%nat /\
  ime_session_add_char16 s 98 = OutOfBounds 256 /\
  ime_session_confirm_char s = OutOfBounds 256 /\
  exists sc,
    ime_session_copy (ime_session_set_selection s 0 1) = Done sc /\
    clipboard_length sc = 1 /\
    ime_session_paste (ime_session_clear_selection sc) = OutOfBounds 256.
Proof.
  cbv zeta.
  do 6 (split; [vm_compute; reflexivity|]).
  eexists. split; [vm_compute; reflexivity|].
  split; vm_compute; reflexivity.
Qed.

(** The two polls behind C7: a reader whose recorded counter differs from
    the frozen one (a freshly attached reader, for every frozen value but
    0) records the change on its first poll and reports the record as it
    is; a poll more than the timeout later reports it inactive and resets
    it. *)
Lemma frozen_counter_detected_on_later_poll
    (l : Ipc.poll_locals) (w : Ipc.widgets) (m : Ipc.ThumbGridSharedState)
    (t0 t1 : Z) :
  Z.even (Ipc.sequence m) = true ->
  Ipc.ime_active m <> 0 ->
  Ipc.last_seq l <> Ipc.sequence m ->
  0 < t0 -> t0 + Ipc.IPC_STALE_TIMEOUT_US < t1 < 2 ^ 64 ->
  exists l1 w1,
    Ipc.poll_iteration l w m (Ipc.quiescent m) t0 = (l1, w1, m, Some m) /\
    exists l2 w2 m2 snap,
      Ipc.poll_iteration l1 w1 m (Ipc.quiescent m) t1
        = (l2, w2, m2, Some snap) /\
      Ipc.ime_active snap = 0 /\
      Ipc.sequence m2 = 0 /\ Ipc.ime_active m2 = 0.
Proof.
  intros Hev Hact Hseq Ht0 Ht1. unfold Ipc.IPC_STALE_TIMEOUT_US in Ht1.
  assert (Hfirst :
    Ipc.poll_iteration l w m (Ipc.quiescent m) t0 =
    ({| Ipc.read_ok := u32 (Ipc.read_ok l + 1);
        Ipc.read_fail := Ipc.read_fail l;
        Ipc.last_seq := Ipc.sequence m; Ipc.last_seq_change_us := t0 |},
     Ipc.update_widgets w m, m, Some m)).
  { unfold Ipc.poll_iteration, Ipc.thumbgrid_ipc_read, Ipc.quiescent.
    cbn [Ipc.seq_before Ipc.seq_after Ipc.copied].
    rewrite land_1_even, Hev. cbn [negb].
    rewrite Z.eqb_refl. cbn [negb Z.eqb].
    cbn [Ipc.last_seq Ipc.last_seq_change_us Ipc.read_ok Ipc.read_fail].
    destruct (Z.eqb_spec (Ipc.sequence m) (Ipc.last_seq l)) as [He|_];
      [symmetry in He; contradiction|].
    cbn [negb Ipc.last_seq Ipc.last_seq_change_us Ipc.read_ok Ipc.read_fail].
    rewrite Z.sub_diag. rewrite (u64_small 0) by lia.
    unfold Ipc.IPC_STALE_TIMEOUT_US. cbn [Z.ltb Z.compare].
    rewrite !andb_false_r. reflexivity. }
  eexists. eexists. split; [exact Hfirst|].
  destruct (stale_iteration_resets
              {| Ipc.read_ok := u32 (Ipc.read_ok l + 1);
                 Ipc.read_fail := Ipc.read_fail l;
                 Ipc.last_seq := Ipc.sequence m;
                 Ipc.last_seq_change_us := t0 |}
              (Ipc.update_widgets w m) m t1)
    as (l2 & w2 & m2 & snap & Hrun & Hsnap & Hm2 & Hm2');
    cbn [Ipc.last_seq Ipc.last_seq_change_us]; try assumption;
    try reflexivity; try (unfold Ipc.IPC_STALE_TIMEOUT_US; lia).
  exists l2, w2, m2, snap. auto.
Qed.

(** * Further properties of the edit session *)

Lemma get_neg (a : list Z) i : i < 0 -> get a i = None.
Proof. intros H. unfold get. destruct (Z.ltb_spec i 0); [reflexivity | lia]. Qed.

Lemma get_app (a b : list Z) i :
  get (a ++ b) i =
  if i <? Z.of_nat (length a) then get a i
  else get b (i - Z.of_nat (length a)).
Proof.
  unfold get. destruct (Z.ltb_spec i 0).
  - destruct (Z.ltb_spec i (Z.of_nat (length a))); [reflexivity | lia].
  - destruct (Z.ltb_spec i (Z.of_nat (length a))).
    + apply lookup_app_l. lia.
    + destruct (Z.ltb_spec (i - Z.of_nat (length a)) 0); [lia|].
      rewrite lookup_app_r by lia. f_equal. lia.
Qed.

Lemma get_drop (a : list Z) (n : nat) i :
  get (drop n a) i = if i <? 0 then None else get a (i + Z.of_nat n).
Proof.
  unfold get. destruct (Z.ltb_spec i 0); [reflexivity|].
  destruct (Z.ltb_spec (i + Z.of_nat n) 0); [lia|].
  rewrite lookup_drop. f_equal. lia.
Qed.

Lemma get_singleton (c : Z) i : get [c] i = if i =? 0 then Some c else None.
Proof.
  destruct (Z.eqb_spec i 0) as [->|Hne]; [reflexivity|].
  apply get_None_iff. cbn [length]. lia.
Qed.

(** The text after [ins] has been spliced in at position [p]. *)
Lemma take_splice (out out' ins : list Z) (n p : Z) :
  0 <= p <= n -> n <= Z.of_nat (length out) ->
  (forall j, 0 <= j < n + Z.of_nat (length ins) ->
     get out' j =
       if j <? p then get out j
       else if j <? p + Z.of_nat (length ins) then get ins (j - p)
       else get out (j - Z.of_nat (length ins))) ->
  take (Z.to_nat (n + Z.of_nat (length ins))) out' =
  take (Z.to_nat p) (take (Z.to_nat n) out) ++ ins
    ++ drop (Z.to_nat p) (take (Z.to_nat n) out).
Proof.
  intros Hp Hn Hget. apply get_ext. intros j.
  rewrite get_take, !get_app, get_drop, !get_take.
  rewrite !length_take. rewrite !Z2Nat.id by lia.
  replace (Z.of_nat (Z.to_nat p `min` (Z.to_nat n `min` length out)))
    with p by lia.
  destruct (Z.ltb_spec j 0).
  { rewrite !get_neg by lia. zdecide. reflexivity. }
  destruct (Z.ltb_spec j (n + Z.of_nat (length ins))).
  - rewrite Hget by lia.
    destruct (Z.ltb_spec j p); [zdecide; reflexivity|].
    destruct (Z.ltb_spec j (p + Z.of_nat (length ins))).
    + zdecide. reflexivity.
    + zdecide. f_equal. lia.
  - zdecide.
    destruct (Z.ltb_spec (j - p - Z.of_nat (length ins) + p) n); [lia|].
    reflexivity.
Qed.

(** The text after [d] elements have been cut out at position [a]. *)
Lemma take_cut (out out' : list Z) (n a d : Z) :
  0 <= a -> 0 <= d -> a + d <= n -> n <= Z.of_nat (length out) ->
  (forall j, 0 <= j < n - d ->
     get out' j = if j <? a then get out j else get out (j + d)) ->
  take (Z.to_nat (n - d)) out' =
  take (Z.to_nat a) (take (Z.to_nat n) out)
    ++ drop (Z.to_nat (a + d)) (take (Z.to_nat n) out).
Proof.
  intros Ha Hd Had Hn Hget. apply get_ext. intros j.
  rewrite get_take, !get_app, get_drop, !get_take.
  rewrite !length_take. rewrite !Z2Nat.id by lia.
  replace (Z.of_nat (Z.to_nat a `min` (Z.to_nat n `min` length out)))
    with a by lia.
  destruct (Z.ltb_spec j 0).
  { rewrite !get_neg by lia. zdecide. reflexivity. }
  destruct (Z.ltb_spec j (n - d)).
  - rewrite Hget by lia.
    destruct (Z.ltb_spec j a); [zdecide; reflexivity|].
    zdecide. f_equal. lia.
  - zdecide.
    destruct (Z.ltb_spec (j - a + (a + d)) n); [lia|]. reflexivity.
Qed.

(** Insertion with nothing selected and room for the character and its
    terminator: the character goes in at the cursor, the tail moves right
    by one, the cursor follows, everything else stays. *)
Lemma add_char16_at_cursor_spec (s : ImeSession) (c : Z) :
  wf_session s -> state s = IME_STATE_ACTIVE ->
  selected_all s = false -> sel_start s = sel_end s ->
  output_length s < max_output_length s ->
  output_length s + 1 < IME_MAX_OUTPUT_LENGTH ->
  exists out',
    ime_session_add_char16 s c =
      Done (true,
            set_output out'
              (set_text_cursor (text_cursor s + 1)
                 (set_output_length (output_length s + 1) s))) /\
    length out' = length (output s) /\
    take (Z.to_nat (output_length s + 1)) out' =
      take (Z.to_nat (text_cursor s)) (text_of s) ++ [c]
        ++ drop (Z.to_nat (text_cursor s)) (text_of s) /\
    get out' (output_length s + 1) = Some 0.
Proof.
  intros ([Hout Hclip] & (Hcur & Hsel & Hact) & Hmax) Hst Hall Heq Hroom Hfit.
  unfold IME_MAX_OUTPUT_LENGTH in *.
  unfold ime_session_add_char16, clear_if_selected.
  rewrite (is_active_true _ Hst), Hall, (proj2 (Z.eqb_eq _ _) Heq).
  cbn [negb mbind outcome_bind].
  destruct (Z.leb_spec (max_output_length s) (output_length s)); [lia|].
  destruct (Z.ltb_spec (output_length s) (text_cursor s)); [lia|].
  rewrite add_shift_loop_paste by lia.
  destruct (paste_shift_loop_spec (Z.to_nat (output_length s))
              (text_cursor s) 1 (output s))
    as (a1 & -> & Hlen1 & Hget1); try lia.
  cbn [mbind outcome_bind].
  rewrite store_in by lia. cbn [mbind outcome_bind].
  rewrite !u32_small by lia.
  rewrite store_in by (rewrite length_insert; lia).
  cbn [mbind outcome_bind].
  eexists. split; [reflexivity|].
  split; [rewrite !length_insert; exact Hlen1|].
  split.
  - unfold text_of.
    apply (take_splice (output s) _ [c] (output_length s) (text_cursor s));
      try lia.
    cbn [length]. change (Z.of_nat 1) with 1. intros j Hj.
    rewrite !get_insert by (rewrite ?length_insert; lia).
    rewrite Hget1, get_singleton. rewrite Z2Nat.id by lia.
    destruct (Z.ltb_spec j (text_cursor s)); [zdecide; reflexivity|].
    destruct (Z.ltb_spec j (text_cursor s + 1)).
    + zdecide. reflexivity.
    + zdecide. reflexivity.
  - rewrite get_insert by (rewrite length_insert; lia).
    rewrite Z.eqb_refl. reflexivity.
Qed.

(** Backspace with nothing selected and the cursor after at least one
    character: the character before the cursor goes, the tail moves left
    by one and the cursor follows. *)
Lemma backspace_before_cursor_spec (s : ImeSession) :
  wf_session s -> state s = IME_STATE_ACTIVE ->
  selected_all s = false -> sel_start s = sel_end s ->
  0 < text_cursor s ->
  exists out',
    ime_session_backspace s =
      Done (true,
            set_output out'
              (set_text_cursor (text_cursor s - 1)
                 (set_output_length (output_length s - 1) s))) /\
    length out' = length (output s) /\
    take (Z.to_nat (output_length s - 1)) out' =
      take (Z.to_nat (text_cursor s - 1)) (text_of s)
        ++ drop (Z.to_nat (text_cursor s)) (text_of s) /\
    get out' (output_length s - 1) = Some 0.
Proof.
  intros ([Hout Hclip] & (Hcur & Hsel & Hact) & Hmax) Hst Hall Heq Hpos.
  unfold IME_MAX_OUTPUT_LENGTH in *.
  unfold ime_session_backspace.
  rewrite (is_active_true _ Hst), Hall, (proj2 (Z.eqb_eq _ _) Heq).
  cbn [negb].
  destruct (Z.eqb_spec (text_cursor s) 0); [lia|].
  destruct (Z.eqb_spec (output_length s) 0); [lia|]. cbn [orb].
  rewrite !u32_small by lia.
  rewrite backspace_loop_delete by lia.
  destruct (delete_loop_spec (Z.to_nat (output_length s)) (output s)
              (text_cursor s - 1) 1 (output_length s - 1 + 1))
    as (a1 & -> & Hlen1 & Hget1); try lia.
  cbn [mbind outcome_bind].
  rewrite store_in by lia. cbn [mbind outcome_bind].
  eexists. split; [reflexivity|].
  split; [rewrite length_insert; exact Hlen1|].
  split.
  - unfold text_of.
    replace (Z.to_nat (text_cursor s)) with (Z.to_nat (text_cursor s - 1 + 1))
      by (f_equal; lia).
    apply (take_cut (output s) _ (output_length s) (text_cursor s - 1) 1);
      try lia.
    intros j Hj. rewrite get_insert by lia. rewrite Hget1.
    destruct (Z.ltb_spec j (text_cursor s - 1)); zdecide; reflexivity.
  - rewrite get_insert by lia. rewrite Z.eqb_refl. reflexivity.
Qed.

(** X3.  Deleting an active partial selection removes exactly the characters
    of the range [sel_start, sel_end) from the text. *)
Theorem delete_selection_removes_range (s : ImeSession) :
  wf_session s -> state s = IME_STATE_ACTIVE -> sel_start s <> sel_end s ->
  exists s',
    ime_session_delete_selection s = Done s' /\
    text_of s' =
      take (Z.to_nat (sel_start s)) (text_of s)
        ++ drop (Z.to_nat (sel_end s)) (text_of s) /\
    output_length s' = output_length s - (sel_end s - sel_start s) /\
    text_cursor s' = sel_start s /\
    selected_all s' = false /\ sel_start s' = 0 /\ sel_end s' = 0 /\
    get (output s') (output_length s') = Some 0 /\
    clipboard s' = clipboard s /\ clipboard_length s' = clipboard_length s.
Proof.
  intros Hwf Hst Hne.
  destruct (delete_selection_spec s Hwf Hst Hne) as (out' & -> & Hlen & Hget).
  destruct Hwf as ([Hout Hclip] & (Hcur & Hsel & Hact) & Hmax).
  specialize (Hact Hne). unfold IME_MAX_OUTPUT_LENGTH in *.
  eexists. split; [reflexivity|]. unfold text_of. fields.
  split.
  - replace (Z.to_nat (sel_end s))
      with (Z.to_nat (sel_start s + (sel_end s - sel_start s)))
      by (f_equal; lia).
    apply (take_cut (output s) _ (output_length s) (sel_start s)
             (sel_end s - sel_start s)); try lia.
    intros j Hj. rewrite Hget.
    destruct (Z.ltb_spec j (sel_start s)); zdecide; reflexivity.
  - rewrite Hget, Z.eqb_refl. repeat (split; [reflexivity|]). reflexivity.
Qed.

Lemma delete_selection_removes_range_witness :
  exists s',
    ime_session_delete_selection
      (session_after
         [OpInsert 97; OpInsert 98; OpInsert 99; OpInsert 100;
          OpSetSelection 1 3]
         (session_after_init 0 10 None None)) = Done s' /\
    text_of s' = [97; 100] /\ text_cursor s' = 1.
Proof.
  destruct (delete_selection_removes_range
              (session_after
                 [OpInsert 97; OpInsert 98; OpInsert 99; OpInsert 100;
                  OpSetSelection 1 3]
                 (session_after_init 0 10 None None)))
    as (s' & Hs' & Htext & _ & Hcur & _).
  - apply wf_sessionb_ok. vm_compute. reflexivity.
  - vm_compute. reflexivity.
  - vm_compute. intros H. discriminate H.
  - exists s'. split; [exact Hs'|]. split; [exact Htext | exact Hcur].
Defined.



(** X1.  Insertion with nothing selected: the character is placed at the
    cursor, the cursor moves past it, and the selection, the clipboard,
    the capacity and the state are untouched. *)
Theorem insert_places_char_at_cursor (s : ImeSession) (c : Z) :
  wf_session s -> state s = IME_STATE_ACTIVE ->
  selected_all s = false -> sel_start s = sel_end s ->
  output_length s < max_output_length s ->
  output_length s + 1 < IME_MAX_OUTPUT_LENGTH ->
  exists s',
    ime_session_add_char16 s c = Done (true, s') /\
    text_of s' =
      take (Z.to_nat (text_cursor s)) (text_of s) ++ [c]
        ++ drop (Z.to_nat (text_cursor s)) (text_of s) /\
    output_length s' = output_length s + 1 /\
    text_cursor s' = text_cursor s + 1 /\
    get (output s') (output_length s') = Some 0 /\
    clipboard s' = clipboard s /\ clipboard_length s' = clipboard_length s /\
    sel_start s' = sel_start s /\ sel_end s' = sel_end s /\
    max_output_length s' = max_output_length s /\ state s' = state s.
Proof.
  intros Hwf Hst Hall Heq Hroom Hfit.
  destruct (add_char16_at_cursor_spec s c Hwf Hst Hall Heq Hroom Hfit)
    as (out' & -> & _ & Htext & Hterm).
  eexists. split; [reflexivity|]. unfold text_of at 1. fields.
  split; [exact Htext|]. split; [reflexivity|]. split; [reflexivity|].
  split; [exact Hterm|]. repeat (split; [reflexivity|]). reflexivity.
Qed.

Lemma insert_places_char_at_cursor_witness :
  exists s',
    ime_session_add_char16
      (session_after [OpInsert 97; OpInsert 98; OpCursorLeft]
         (session_after_init 0 10 None None)) 120 = Done (true, s') /\
    text_of s' = [97; 120; 98] /\ text_cursor s' = 2.
Proof.
  destruct (insert_places_char_at_cursor
              (session_after [OpInsert 97; OpInsert 98; OpCursorLeft]
                 (session_after_init 0 10 None None)) 120)
    as (s' & Hs' & Htext & _ & Hcur & _).
  - apply wf_sessionb_ok. vm_compute. reflexivity.
  - vm_compute. reflexivity.
  - vm_compute. reflexivity.
  - vm_compute. reflexivity.
  - vm_compute. reflexivity.
  - vm_compute. reflexivity.
  - exists s'. split; [exact Hs'|]. split; [exact Htext | exact Hcur].
Defined.

(** X2.  Backspace with nothing selected and the cursor past the first
    character: exactly the character before the cursor is removed. *)
Theorem backspace_removes_char_before_cursor (s : ImeSession) :
  wf_session s -> state s = IME_STATE_ACTIVE ->
  selected_all s = false -> sel_start s = sel_end s ->
  0 < text_cursor s ->
  exists s',
    ime_session_backspace s = Done (true, s') /\
    text_of s' =
      take (Z.to_nat (text_cursor s - 1)) (text_of s)
        ++ drop (Z.to_nat (text_cursor s)) (text_of s) /\
    output_length s' = output_length s - 1 /\
    text_cursor s' = text_cursor s - 1 /\
    get (output s') (output_length s') = Some 0 /\
    clipboard s' = clipboard s /\ clipboard_length s' = clipboard_length s.
Proof.
  intros Hwf Hst Hall Heq Hpos.
  destruct (backspace_before_cursor_spec s Hwf Hst Hall Heq Hpos)
    as (out' & -> & _ & Htext & Hterm).
  eexists. split; [reflexivity|]. unfold text_of at 1. fields.
  split; [exact Htext|]. split; [reflexivity|]. split; [reflexivity|].
  split; [exact Hterm|]. split; reflexivity.
Qed.

Lemma backspace_removes_char_before_cursor_witness :
  exists s',
    ime_session_backspace
      (session_after [OpInsert 97; OpInsert 98; OpInsert 99; OpCursorLeft]
         (session_after_init 0 10 None None)) = Done (true, s') /\
    text_of s' = [97; 99] /\ text_cursor s' = 1.
Proof.
  destruct (backspace_removes_char_before_cursor
              (session_after
                 [OpInsert 97; OpInsert 98; OpInsert 99; OpCursorLeft]
                 (session_after_init 0 10 None None)))
    as (s' & Hs' & Htext & _ & Hcur & _).
  - apply wf_sessionb_ok. vm_compute. reflexivity.
  - vm_compute. reflexivity.
  - vm_compute. reflexivity.
  - vm_compute. reflexivity.
  - vm_compute. reflexivity.
  - exists s'. split; [exact Hs'|]. split; [exact Htext | exact Hcur].
Defined.

(** X5.  Select-all followed by an insertion replaces the whole text by the
    one character, whatever the capacity. *)
Theorem select_all_then_insert_replaces_text (s : ImeSession) (c : Z) :
  wf_session s -> state s = IME_STATE_ACTIVE -> 0 < output_length s ->
  exists s',
    ime_session_add_char16 (ime_session_select_all s) c = Done (true, s') /\
    text_of s' = [c] /\ output_length s' = 1 /\ text_cursor s' = 1 /\
    selected_all s' = false /\ sel_start s' = 0 /\ sel_end s' = 0 /\
    get (output s') 1 = Some 0.
Proof.
  intros ([Hout Hclip] & (Hcur & Hsel & Hact) & Hmax) Hst Hlen.
  unfold IME_MAX_OUTPUT_LENGTH in *.
  unfold ime_session_select_all. rewrite (is_active_true _ Hst). cbn [negb].
  destruct (Z.eqb_spec (output_length s) 0); [lia|].
  unfold ime_session_add_char16, is_active. fields.
  rewrite bool_decide_eq_true_2 by exact Hst. cbn [negb].
  unfold clear_if_selected. fields.
  rewrite clear_all_selected_spec
    by (unfold arrays_ok, IME_MAX_OUTPUT_LENGTH; fields; split; assumption).
  cbn [mbind outcome_bind]. fields.
  destruct (Z.leb_spec (max_output_length s) 0); [lia|].
  change (Z.to_nat 0) with 0%nat.
  cbn [Z.ltb Z.compare add_shift_loop mbind outcome_bind].
  rewrite store_in by (rewrite length_insert; lia).
  cbn [mbind outcome_bind]. rewrite !u32_small by lia.
  rewrite store_in by (rewrite !length_insert; lia).
  cbn [mbind outcome_bind].
  eexists. split; [reflexivity|]. unfold text_of. fields.
  split.
  - apply get_ext. intros j. rewrite get_take, get_singleton.
    change (Z.of_nat (Z.to_nat 1)) with 1.
    rewrite !get_insert by (rewrite ?length_insert; lia).
    destruct (Z.ltb_spec j 0); [rewrite (get_neg _ j) by lia; zdecide; reflexivity|].
    zbool; try lia; reflexivity.
  - repeat (split; [reflexivity|]).
    rewrite get_insert by (rewrite !length_insert; lia). reflexivity.
Qed.

Lemma select_all_then_insert_replaces_text_witness :
  exists s',
    ime_session_add_char16
      (ime_session_select_all
         (session_after [OpInsert 97; OpInsert 98; OpInsert 99]
            (session_after_init 0 3 None None))) 120 = Done (true, s') /\
    text_of s' = [120] /\ text_cursor s' = 1.
Proof.
  destruct (select_all_then_insert_replaces_text
              (session_after [OpInsert 97; OpInsert 98; OpInsert 99]
                 (session_after_init 0 3 None None)) 120)
    as (s' & Hs' & Htext & _ & Hcur & _).
  - apply wf_sessionb_ok. vm_compute. reflexivity.
  - vm_compute. reflexivity.
  - vm_compute. reflexivity.
  - exists s'. split; [exact Hs'|]. split; [exact Htext | exact Hcur].
Defined.

(** * The clipboard and cycling fields under the editing calls *)

Ltac frame_step H :=
  match type of H with
  | Done _ = Done _ => injection H as <-
  | OutOfBounds _ = Done _ => discriminate H
  | context [if ?b then _ else _] => destruct b
  | context [mbind _ ?m] =>
      let E := fresh "E" in
      destruct m eqn:E; cbn [mbind outcome_bind] in H
  end.

Ltac frame_done :=
  unfold same_clipboard_and_cycle; fields; repeat split; congruence.

Lemma same_clipboard_and_cycle_refl s : same_clipboard_and_cycle s s.
Proof. frame_done. Qed.

Lemma same_clipboard_and_cycle_trans s1 s2 s3 :
  same_clipboard_and_cycle s1 s2 -> same_clipboard_and_cycle s2 s3 ->
  same_clipboard_and_cycle s1 s3.
Proof. unfold same_clipboard_and_cycle. intuition congruence. Qed.

Lemma delete_selection_frame s s' :
  ime_session_delete_selection s = Done s' -> same_clipboard_and_cycle s s'.
Proof.
  unfold ime_session_delete_selection. intros H.
  repeat frame_step H; frame_done.
Qed.

Lemma clear_all_selected_frame s s' :
  clear_all_selected s = Done s' -> same_clipboard_and_cycle s s'.
Proof.
  unfold clear_all_selected. intros H. repeat frame_step H; frame_done.
Qed.

Lemma clear_if_selected_frame s s' :
  clear_if_selected s = Done s' -> same_clipboard_and_cycle s s'.
Proof.
  unfold clear_if_selected. intros H.
  destruct (selected_all s); [exact (clear_all_selected_frame _ _ H)|].
  destruct (negb (sel_start s =? sel_end s));
    [exact (delete_selection_frame _ _ H)|].
  injection H as <-. apply same_clipboard_and_cycle_refl.
Qed.

Lemma add_char16_frame s c r :
  ime_session_add_char16 s c = Done r -> same_clipboard_and_cycle s (snd r).
Proof.
  unfold ime_session_add_char16. intros H.
  destruct (negb (is_active s));
    [injection H as <-; apply same_clipboard_and_cycle_refl|].
  destruct (clear_if_selected s) as [s1|] eqn:E1;
    cbn [mbind outcome_bind] in H; [|discriminate H].
  apply clear_if_selected_frame in E1.
  apply (same_clipboard_and_cycle_trans _ _ _ E1).
  repeat frame_step H; frame_done.
Qed.

Lemma backspace_frame s r :
  ime_session_backspace s = Done r -> same_clipboard_and_cycle s (snd r).
Proof.
  unfold ime_session_backspace. intros H.
  destruct (negb (is_active s));
    [injection H as <-; apply same_clipboard_and_cycle_refl|].
  destruct (selected_all s).
  { destruct (clear_all_selected s) as [s1|] eqn:E1;
      cbn [mbind outcome_bind] in H; [|discriminate H].
    injection H as <-. exact (clear_all_selected_frame _ _ E1). }
  destruct (negb (sel_start s =? sel_end s)).
  { destruct (ime_session_delete_selection s) as [s1|] eqn:E1;
      cbn [mbind outcome_bind] in H; [|discriminate H].
    injection H as <-. exact (delete_selection_frame _ _ E1). }
  repeat frame_step H; frame_done.
Qed.

Lemma apply_op_frame op s s' :
  apply_op op s = Done s' -> same_clipboard_and_cycle s s'.
Proof.
  destruct op; cbn [apply_op]; intros H.
  - destruct (ime_session_add_char16 s c) as [r|] eqn:E;
      cbn [mbind outcome_bind] in H; [|discriminate H].
    injection H as <-. exact (add_char16_frame _ _ _ E).
  - destruct (ime_session_backspace s) as [r|] eqn:E;
      cbn [mbind outcome_bind] in H; [|discriminate H].
    injection H as <-. exact (backspace_frame _ _ E).
  - exact (delete_selection_frame _ _ H).
  - injection H as <-. unfold ime_session_cursor_left.
    destruct (negb (is_active s)); [frame_done|].
    destruct (0 <? _); frame_done.
  - injection H as <-. unfold ime_session_cursor_right.
    destruct (negb (is_active s)); [frame_done|].
    destruct (_ <? _); frame_done.
  - injection H as <-. unfold ime_session_cursor_home.
    destruct (negb (is_active s)); frame_done.
  - injection H as <-. unfold ime_session_cursor_end.
    destruct (negb (is_active s)); frame_done.
  - injection H as <-. unfold ime_session_set_selection.
    destruct (negb (is_active s)); [frame_done|].
    destruct (_ <? _), (_ <? _);
      match goal with |- context [if ?b then _ else _] => destruct b end;
      frame_done.
  - injection H as <-. unfold ime_session_clear_selection. frame_done.
  - injection H as <-. unfold ime_session_select_all.
    destruct (negb (is_active s)); [frame_done|].
    destruct (_ =? _); frame_done.
Qed.

(** * Paste in general *)

(** Paste with nothing selected: [k], the smaller of the clipboard length
    and the remaining capacity, characters are inserted at the cursor. *)
Lemma paste_truncated_spec s :
  wf_session s -> state s = IME_STATE_ACTIVE -> selected_all s = false ->
  sel_start s = sel_end s ->
  0 < clipboard_length s <= IME_MAX_OUTPUT_LENGTH ->
  0 < Z.min (clipboard_length s) (max_output_length s - output_length s) ->
  output_length s
    + Z.min (clipboard_length s) (max_output_length s - output_length s)
    < IME_MAX_OUTPUT_LENGTH ->
  exists out',
    ime_session_paste s =
      Done (set_output out'
              (set_text_cursor
                 (text_cursor s
                  + Z.min (clipboard_length s)
                      (max_output_length s - output_length s))
                 (set_output_length
                    (output_length s
                     + Z.min (clipboard_length s)
                         (max_output_length s - output_length s)) s))) /\
    length out' = length (output s) /\
    forall j, get out' j =
      if j =? output_length s
              + Z.min (clipboard_length s)
                  (max_output_length s - output_length s) then Some 0
      else if (text_cursor s <=? j)
              && (j <? text_cursor s
                       + Z.min (clipboard_length s)
                           (max_output_length s - output_length s))
      then get (clipboard s) (j - text_cursor s)
      else if (text_cursor s
               + Z.min (clipboard_length s)
                   (max_output_length s - output_length s) <=? j)
              && (j <? output_length s
                       + Z.min (clipboard_length s)
                           (max_output_length s - output_length s))
      then get (output s)
             (j - Z.min (clipboard_length s)
                    (max_output_length s - output_length s))
      else get (output s) j.
Proof.
  intros ([Hout Hclip] & (Hcur & Hsel & Hact) & Hmax) Hst Hall Heq Hc Hk Hfit.
  unfold IME_MAX_OUTPUT_LENGTH in *.
  unfold ime_session_paste. rewrite (is_active_true _ Hst), Hall. cbn [negb].
  destruct (Z.eqb_spec (clipboard_length s) 0); [lia|].
  rewrite (proj2 (Z.eqb_eq _ _) Heq). cbn [negb mbind outcome_bind].
  rewrite (u32_small (max_output_length s - output_length s)) by lia.
  set (k := Z.min (clipboard_length s)
              (max_output_length s - output_length s)) in *.
  replace (if max_output_length s - output_length s <? clipboard_length s
           then max_output_length s - output_length s
           else clipboard_length s) with k
    by (subst k;
        destruct (Z.ltb_spec (max_output_length s - output_length s)
                    (clipboard_length s)); lia).
  destruct (Z.eqb_spec k 0); [lia|].
  destruct (Z.ltb_spec (output_length s) (text_cursor s)); [lia|].
  destruct (paste_shift_loop_spec (Z.to_nat (output_length s)) (text_cursor s)
              k (output s))
    as (a1 & -> & Hlen1 & Hget1); try lia.
  cbn [mbind outcome_bind].
  destruct (memcpy_u16_spec (Z.to_nat k) a1 (text_cursor s)
              (clipboard s) 0) as (a2 & -> & Hlen2 & Hget2); try lia.
  cbn [mbind outcome_bind].
  rewrite !u32_small by lia.
  rewrite store_in by lia. cbn [mbind outcome_bind].
  eexists. split; [reflexivity|].
  split; [rewrite length_insert; lia|].
  intros j. rewrite get_insert by lia. rewrite Hget2, Hget1.
  rewrite !Z2Nat.id by lia.
  zbool; try lia; try reflexivity. f_equal. lia.
Qed.

(** X6.  Paste truncates to the room left.  For an active well-formed
    session with nothing selected, a non-empty clipboard, a text shorter
    than the capacity, and a new length
    [output_length + min (clipboard_length, max_output_length - output_length)]
    below 256, so that the terminator falls inside the 256-element array:
    the first [min (clipboard_length, max_output_length - output_length)]
    clipboard characters go in at the cursor, the rest of the clipboard
    is dropped, the new length stays within the capacity, the cursor moves
    past the inserted characters, a terminator follows the text and the
    clipboard is unchanged. *)
Theorem paste_inserts_what_fits (s : ImeSession) :
  wf_session s -> state s = IME_STATE_ACTIVE -> selected_all s = false ->
  sel_start s = sel_end s ->
  0 < clipboard_length s <= IME_MAX_OUTPUT_LENGTH ->
  output_length s < max_output_length s ->
  output_length s
    + Z.min (clipboard_length s) (max_output_length s - output_length s)
    < IME_MAX_OUTPUT_LENGTH ->
  exists s',
    ime_session_paste s = Done s' /\
    text_of s' =
      take (Z.to_nat (text_cursor s)) (text_of s)
        ++ take (Z.to_nat (Z.min (clipboard_length s)
                             (max_output_length s - output_length s)))
             (clipboard s)
        ++ drop (Z.to_nat (text_cursor s)) (text_of s) /\
    output_length s' =
      output_length s
      + Z.min (clipboard_length s) (max_output_length s - output_length s) /\
    output_length s' <= max_output_length s' /\
    text_cursor s' =
      text_cursor s
      + Z.min (clipboard_length s) (max_output_length s - output_length s) /\
    get (output s') (output_length s') = Some 0 /\
    clipboard s' = clipboard s /\ clipboard_length s' = clipboard_length s.
Proof.
  intros Hwf Hst Hall Heq Hc Hroom Hfit.
  destruct (paste_truncated_spec s Hwf Hst Hall Heq Hc ltac:(lia) Hfit)
    as (out' & -> & Hlen & Hget).
  destruct Hwf as ([Hout Hclip] & (Hcur & Hsel & Hact) & Hmax).
  unfold IME_MAX_OUTPUT_LENGTH in *.
  set (k := Z.min (clipboard_length s)
              (max_output_length s - output_length s)) in *.
  eexists. split; [reflexivity|]. unfold text_of. fields.
  split.
  - assert (Hins : Z.of_nat (length (take (Z.to_nat k) (clipboard s))) = k)
      by (rewrite length_take; lia).
    rewrite <- Hins at 1.
    apply (take_splice (output s) out' (take (Z.to_nat k) (clipboard s))
             (output_length s) (text_cursor s)); try lia.
    rewrite Hins. intros j Hj. rewrite Hget, get_take.
    rewrite Z2Nat.id by lia.
    destruct (Z.ltb_spec j (text_cursor s)); [zdecide; reflexivity|].
    destruct (Z.ltb_spec j (text_cursor s + k)); zdecide; reflexivity.
  - split; [reflexivity|]. split; [lia|]. split; [reflexivity|].
    split; [|split; reflexivity].
    rewrite Hget, Z.eqb_refl. reflexivity.
Qed.

Lemma paste_inserts_what_fits_witness :
  exists sc s',
    ime_session_copy
      (session_after
         [OpInsert 97; OpInsert 98; OpInsert 99; OpSetSelection 0 3]
         (session_after_init 0 4 None None)) = Done sc /\
    ime_session_paste (ime_session_clear_selection sc) = Done s' /\
    text_of s' = [97; 98; 99; 97] /\ output_length s' = 4.
Proof.
  eexists.
  destruct (paste_inserts_what_fits
              (ime_session_clear_selection
                 (set_clipboard_length 3
                    (set_clipboard
                       (<[2%nat := 99]> (<[1%nat := 98]> (<[0%nat := 97]>
                          (replicate 256 0))))
                       (session_after
                          [OpInsert 97; OpInsert 98; OpInsert 99;
                           OpSetSelection 0 3]
                          (session_after_init 0 4 None None))))))
    as (s' & Hs' & Htext & Hlen & _).
  - apply wf_sessionb_ok. vm_compute. reflexivity.
  - vm_compute. reflexivity.
  - vm_compute. reflexivity.
  - vm_compute. reflexivity.
  - vm_compute. split; [reflexivity | intros H; discriminate H].
  - vm_compute. reflexivity.
  - vm_compute. reflexivity.
  - exists s'. split; [vm_compute; reflexivity|].
    split; [exact Hs'|]. split; [exact Htext | exact Hlen].
Defined.

(** * Copy *)

(** X7.  Copy puts exactly the selected characters into the clipboard (the
    whole text with select-all, the range otherwise) and leaves the text,
    the cursor and the selection as they are; with nothing selected it
    changes nothing. *)
Theorem copy_fills_clipboard_with_selection (s : ImeSession) :
  wf_session s -> state s = IME_STATE_ACTIVE ->
  (selected_all s = true ->
   exists s', ime_session_copy s = Done s' /\
     clipboard_length s' = output_length s /\
     take (Z.to_nat (output_length s)) (clipboard s') = text_of s /\
     s' = set_clipboard_length (clipboard_length s')
            (set_clipboard (clipboard s') s)) /\
  (selected_all s = false -> sel_start s <> sel_end s ->
   exists s', ime_session_copy s = Done s' /\
     clipboard_length s' = sel_end s - sel_start s /\
     take (Z.to_nat (sel_end s - sel_start s)) (clipboard s') =
       drop (Z.to_nat (sel_start s))
         (take (Z.to_nat (sel_end s)) (text_of s)) /\
     s' = set_clipboard_length (clipboard_length s')
            (set_clipboard (clipboard s') s)) /\
  (selected_all s = false -> sel_start s = sel_end s ->
   ime_session_copy s = Done s).
Proof.
  intros Hwf Hst. split; [|split].
  - intros Hall.
    destruct (copy_all_spec s Hwf Hst Hall) as (clip' & -> & Hlen & Hget).
    eexists. split; [reflexivity|]. fields.
    split; [reflexivity|]. split; [|reflexivity].
    unfold text_of. apply take_get_ext. intros j Hj.
    rewrite Hget. zdecide. reflexivity.
  - intros Hall Hne.
    destruct (copy_partial_spec s Hwf Hst Hall Hne)
      as (clip' & -> & Hlen & Hget).
    destruct Hwf as ([Hout Hclip] & (Hcur & Hsel & Hact) & Hmax).
    specialize (Hact Hne). unfold IME_MAX_OUTPUT_LENGTH in *.
    eexists. split; [reflexivity|]. fields.
    split; [reflexivity|]. split; [|reflexivity].
    unfold text_of. apply get_ext. intros j.
    rewrite get_take, get_drop, !get_take, Hget.
    rewrite !Z2Nat.id by lia.
    destruct (Z.ltb_spec j 0).
    { zdecide. apply get_neg. lia. }
    destruct (Z.ltb_spec j (sel_end s - sel_start s)); zdecide; reflexivity.
  - intros Hall Heq. unfold ime_session_copy.
    rewrite (is_active_true _ Hst), Hall, (proj2 (Z.eqb_eq _ _) Heq).
    reflexivity.
Qed.

Lemma copy_fills_clipboard_with_selection_witness :
  exists s',
    ime_session_copy
      (session_after
         [OpInsert 97; OpInsert 98; OpInsert 99; OpInsert 100;
          OpSetSelection 1 3]
         (session_after_init 0 10 None None)) = Done s' /\
    clipboard_length s' = 2 /\ take 2 (clipboard s') = [98; 99].
Proof.
  destruct (copy_fills_clipboard_with_selection
              (session_after
                 [OpInsert 97; OpInsert 98; OpInsert 99; OpInsert 100;
                  OpSetSelection 1 3]
                 (session_after_init 0 10 None None)))
    as (_ & Hpartial & _).
  - apply wf_sessionb_ok. vm_compute. reflexivity.
  - vm_compute. reflexivity.
  - destruct Hpartial as (s' & Hs' & Hlen & Htext & _).
    + vm_compute. reflexivity.
    + vm_compute. intros H. discriminate H.
    + exists s'. split; [exact Hs'|]. split; [exact Hlen | exact Htext].
Defined.

(** * The invariant under every operation *)

Lemma wf_full_from_frame s s' :
  wf_full s -> wf_session s' -> same_clipboard_and_cycle s s' -> wf_full s'.
Proof.
  intros (_ & Hc & Hcs & Hcs' & Hidx) Hwf' (E1 & E2 & E3 & E4 & E5).
  unfold wf_full. rewrite E2, E3, E4, E5. auto.
Qed.

Lemma step_full_ok_same s : wf_full s -> step_full_ok s (Done s).
Proof. intros H. left. exists s. auto. Qed.

Lemma edit_op_full_ok e s :
  wf_full s -> valid_op e -> step_full_ok s (apply_op e s).
Proof.
  intros Hfull Hv.
  destruct (apply_op_ok e s (proj1 Hfull) Hv)
    as [(s' & Hs' & Hwf' & Hmax' & Hst')|[Hoob Hcap]].
  - left. exists s'. split; [exact Hs'|].
    split; [|split; assumption].
    apply (wf_full_from_frame s s' Hfull Hwf').
    apply (apply_op_frame e). exact Hs'.
  - right. split; assumption.
Qed.

Ltac full_done :=
  left; eexists; split; [reflexivity|];
  unfold wf_full, wf_session, arrays_ok, session_invariant,
    IME_MAX_OUTPUT_LENGTH, IME_MAX_CHARSET_SIZE, U32_MAX in *;
  fields; rewrite ?length_insert; intuition (try lia; try congruence).

Lemma copy_full_ok s : wf_full s -> step_full_ok s (ime_session_copy s).
Proof.
  intros Hfull. pose proof Hfull as (Hwf & Hc & Hcs & Hcs' & Hidx).
  destruct (decide (state s = IME_STATE_ACTIVE)) as [Hst|Hst].
  2:{ unfold ime_session_copy. rewrite (is_active_false _ Hst).
      apply step_full_ok_same, Hfull. }
  destruct (selected_all s) eqn:Hall.
  - destruct (copy_all_spec s Hwf Hst Hall) as (clip' & -> & Hlen & _).
    destruct Hwf as ([Hout Hclip] & (Hcur & Hsel & Hact) & Hmax).
    full_done.
  - destruct (Z.eq_dec (sel_start s) (sel_end s)) as [Heq|Hne].
    + unfold ime_session_copy.
      rewrite (is_active_true _ Hst), Hall, (proj2 (Z.eqb_eq _ _) Heq).
      apply step_full_ok_same, Hfull.
    + destruct (copy_partial_spec s Hwf Hst Hall Hne)
        as (clip' & -> & Hlen & _).
      destruct Hwf as ([Hout Hclip] & (Hcur & Hsel & Hact) & Hmax).
      specialize (Hact Hne). full_done.
Qed.

Lemma clear_all_selected_full_ok s :
  wf_full s -> step_full_ok s (clear_all_selected s).
Proof.
  intros Hfull.
  destruct (clear_all_selected_ok s (proj1 Hfull))
    as [(s' & Hs' & Hwf' & Hmax' & Hst')|[Hoob Hcap]].
  - left. exists s'. split; [exact Hs'|]. split; [|split; assumption].
    exact (wf_full_from_frame s s' Hfull Hwf'
             (clear_all_selected_frame _ _ Hs')).
  - right. split; assumption.
Qed.

Lemma delete_selection_full_ok s :
  wf_full s -> step_full_ok s (ime_session_delete_selection s).
Proof.
  intros Hfull.
  destruct (delete_selection_ok s (proj1 Hfull))
    as [(s' & Hs' & Hwf' & Hmax' & Hst')|[Hoob Hcap]].
  - left. exists s'. split; [exact Hs'|]. split; [|split; assumption].
    exact (wf_full_from_frame s s' Hfull Hwf'
             (delete_selection_frame _ _ Hs')).
  - right. split; assumption.
Qed.

Lemma step_full_ok_from s1 s r :
  max_output_length s1 = max_output_length s -> state s1 = state s ->
  step_full_ok s1 r -> step_full_ok s r.
Proof. unfold step_full_ok. intros -> ->. exact (fun H => H). Qed.

Lemma cut_full_ok s : wf_full s -> step_full_ok s (ime_session_cut s).
Proof.
  intros Hfull. unfold ime_session_cut.
  destruct (negb (is_active s)); [apply step_full_ok_same, Hfull|].
  destruct (copy_full_ok s Hfull)
    as [(s1 & -> & Hfull1 & Hmax1 & Hst1)|[-> Hcap]];
    [|right; split; [reflexivity | exact Hcap]].
  cbn [mbind outcome_bind].
  apply (step_full_ok_from s1 s _ Hmax1 Hst1).
  destruct (0 <? clipboard_length s1); [|apply step_full_ok_same, Hfull1].
  destruct (selected_all s1).
  - apply clear_all_selected_full_ok, Hfull1.
  - apply delete_selection_full_ok, Hfull1.
Qed.

(** Paste with nothing selected. *)
Lemma paste_no_selection_full_ok s :
  wf_full s -> state s = IME_STATE_ACTIVE -> selected_all s = false ->
  sel_start s = sel_end s -> step_full_ok s (ime_session_paste s).
Proof.
  intros Hfull Hst Hall Heq.
  pose proof Hfull as (Hwf & Hc & Hcs & Hcs' & Hidx).
  pose proof Hwf as ([Hout Hclip] & (Hcur & Hsel & Hact) & Hmax).
  unfold IME_MAX_OUTPUT_LENGTH in *.
  destruct (Z.eq_dec (clipboard_length s) 0) as [Hc0|Hc0].
  { unfold ime_session_paste. rewrite (is_active_true _ Hst). cbn [negb].
    rewrite (proj2 (Z.eqb_eq _ _) Hc0). apply step_full_ok_same, Hfull. }
  set (k := Z.min (clipboard_length s)
              (max_output_length s - output_length s)).
  destruct (Z.eq_dec k 0) as [Hk0|Hk0].
  { unfold ime_session_paste.
    rewrite (is_active_true _ Hst), Hall, (proj2 (Z.eqb_eq _ _) Heq).
    cbn [negb mbind outcome_bind].
    destruct (Z.eqb_spec (clipboard_length s) 0); [lia|].
    rewrite (u32_small (max_output_length s - output_length s)) by lia.
    replace (if max_output_length s - output_length s <? clipboard_length s
             then max_output_length s - output_length s
             else clipboard_length s) with k
      by (subst k;
          destruct (Z.ltb_spec (max_output_length s - output_length s)
                      (clipboard_length s)); lia).
    rewrite (proj2 (Z.eqb_eq _ _) Hk0). apply step_full_ok_same, Hfull. }
  destruct (Z.lt_ge_cases (output_length s + k) 256) as [Hfit|Hover].
  - destruct (paste_truncated_spec s Hwf Hst Hall Heq)
      as (out' & -> & Hlen & _);
      unfold IME_MAX_OUTPUT_LENGTH; fold k; try lia.
    fold k. full_done.
  - (* the terminator falls on index 256 *)
    right. split; [|unfold IME_MAX_OUTPUT_LENGTH; lia].
    unfold ime_session_paste.
    rewrite (is_active_true _ Hst), Hall, (proj2 (Z.eqb_eq _ _) Heq).
    cbn [negb mbind outcome_bind].
    destruct (Z.eqb_spec (clipboard_length s) 0); [lia|].
    rewrite (u32_small (max_output_length s - output_length s)) by lia.
    replace (if max_output_length s - output_length s <? clipboard_length s
             then max_output_length s - output_length s
             else clipboard_length s) with k
      by (subst k;
          destruct (Z.ltb_spec (max_output_length s - output_length s)
                      (clipboard_length s)); lia).
    destruct (Z.eqb_spec k 0); [lia|].
    destruct (Z.ltb_spec (output_length s) (text_cursor s)); [lia|].
    destruct (paste_shift_loop_spec (Z.to_nat (output_length s))
                (text_cursor s) k (output s))
      as (a1 & -> & Hlen1 & _); try lia.
    cbn [mbind outcome_bind].
    destruct (memcpy_u16_spec (Z.to_nat k) a1 (text_cursor s)
                (clipboard s) 0) as (a2 & -> & Hlen2 & _); try lia.
    cbn [mbind outcome_bind].
    rewrite !u32_small by lia.
    rewrite store_out by lia. cbn [mbind outcome_bind]. f_equal. lia.
Qed.

Lemma paste_full_ok s : wf_full s -> step_full_ok s (ime_session_paste s).
Proof.
  intros Hfull. pose proof Hfull as (Hwf & Hc & Hcs & Hcs' & Hidx).
  destruct (decide (state s = IME_STATE_ACTIVE)) as [Hst|Hst].
  2:{ unfold ime_session_paste. rewrite (is_active_false _ Hst).
      apply step_full_ok_same, Hfull. }
  destruct (Z.eq_dec (clipboard_length s) 0) as [Hc0|Hc0].
  { unfold ime_session_paste. rewrite (is_active_true _ Hst). cbn [negb].
    rewrite (proj2 (Z.eqb_eq _ _) Hc0). apply step_full_ok_same, Hfull. }
  destruct (selected_all s) eqn:Hall.
  - (* select-all: the text is cleared first *)
    destruct (clear_all_selected_full_ok s Hfull)
      as [(s1 & Hs1 & Hfull1 & Hmax1 & Hst1)|[Hoob _]].
    2:{ rewrite clear_all_selected_spec in Hoob by apply Hwf.
        discriminate Hoob. }
    assert (Hp : ime_session_paste s = ime_session_paste s1).
    { rewrite clear_all_selected_spec in Hs1 by apply Hwf.
      injection Hs1 as <-.
      unfold ime_session_paste, is_active. fields.
      rewrite bool_decide_eq_true_2 by exact Hst. cbn [negb].
      destruct (Z.eqb_spec (clipboard_length s) 0); [contradiction|].
      rewrite Hall. rewrite clear_all_selected_spec by apply Hwf.
      cbn [mbind outcome_bind negb Z.eqb]. reflexivity. }
    rewrite Hp. apply (step_full_ok_from s1 s _ Hmax1 Hst1).
    rewrite clear_all_selected_spec in Hs1 by apply Hwf.
    injection Hs1 as <-.
    apply paste_no_selection_full_ok; fields; auto.
  - destruct (Z.eq_dec (sel_start s) (sel_end s)) as [Heq|Hne].
    + apply paste_no_selection_full_ok; assumption.
    + destruct (delete_selection_spec s Hwf Hst Hne)
        as (out1 & Hdel & Hlen1 & _).
      destruct (delete_selection_full_ok s Hfull)
        as [(s1 & Hs1 & Hfull1 & Hmax1 & Hst1)|[Hoob _]];
        [|rewrite Hdel in Hoob; discriminate Hoob].
      rewrite Hdel in Hs1. injection Hs1 as Hs1.
      assert (Hp : ime_session_paste s = ime_session_paste s1).
      { subst s1.
        unfold ime_session_paste at 1.
        rewrite (is_active_true _ Hst), Hall. cbn [negb].
        destruct (Z.eqb_spec (clipboard_length s) 0); [contradiction|].
        destruct (Z.eqb_spec (sel_start s) (sel_end s)); [contradiction|].
        cbn [negb]. rewrite Hdel. cbn [mbind outcome_bind].
        unfold ime_session_paste, is_active. fields.
        rewrite bool_decide_eq_true_2 by exact Hst. cbn [negb].
        destruct (Z.eqb_spec (clipboard_length s) 0); [contradiction|].
        cbn [mbind outcome_bind negb Z.eqb]. reflexivity. }
      rewrite Hp. apply (step_full_ok_from s1 s _ Hmax1 Hst1).
      apply paste_no_selection_full_ok; try assumption;
        subst s1; fields; congruence.
Qed.

Lemma wrap_index_range index length :
  0 <= wrap_index index length <= U32_MAX.
Proof.
  unfold wrap_index, U32_MAX.
  destruct (length =? 0); [lia|].
  unfold u32.
  match goal with |- context [?a mod 2 ^ 32] =>
    pose proof (Z.mod_pos_bound a (2 ^ 32) ltac:(lia)) end.
  lia.
Qed.

Lemma cycle_full_ok s delta :
  wf_full s -> step_full_ok s (Done (ime_session_cycle s delta)).
Proof.
  intros Hfull. unfold ime_session_cycle.
  destruct (negb (is_active s)); [apply step_full_ok_same, Hfull|].
  destruct (charset_length s =? 0); [apply step_full_ok_same, Hfull|].
  pose proof (wrap_index_range (cursor_index s + delta) (charset_length s)).
  destruct Hfull as (([Hout Hclip] & (Hcur & Hsel & Hact) & Hmax)
                     & Hc & Hcs & Hcs' & Hidx).
  full_done.
Qed.

Lemma update_timing_full_ok s current_us :
  wf_full s ->
  step_full_ok s (Done (ime_session_update_timing s current_us)).
Proof.
  intros Hfull. unfold ime_session_update_timing.
  destruct (negb (is_active s)); [apply step_full_ok_same, Hfull|].
  destruct (negb (dpad_held s) || (hold_direction s =? 0));
    [apply step_full_ok_same, Hfull|].
  destruct (_ <? initial_delay_ms _); [apply step_full_ok_same, Hfull|].
  destruct (_ <? _); [apply step_full_ok_same, Hfull|].
  destruct (cycle_full_ok s (hold_direction s) Hfull)
    as [(s1 & Hs1 & Hfull1 & Hmax1 & Hst1)|[Hoob _]]; [|discriminate Hoob].
  injection Hs1 as <-.
  left. eexists. split; [reflexivity|].
  split; [|split; [exact Hmax1 | exact Hst1]].
  destruct Hfull1 as (([Hout Hclip] & (Hcur & Hsel & Hact) & Hmax)
                      & Hc & Hcs & Hcs' & Hidx).
  unfold wf_full, wf_session, arrays_ok, session_invariant. fields.
  intuition.
Qed.

Lemma confirm_char_full_ok s :
  wf_full s ->
  step_full_ok s (r ← ime_session_confirm_char s; Done (snd r)).
Proof.
  intros Hfull. unfold ime_session_confirm_char.
  destruct (negb (is_active s));
    [cbn [mbind outcome_bind snd]; apply step_full_ok_same, Hfull|].
  destruct (Z.leb_spec (max_output_length s) (output_length s));
    [cbn [mbind outcome_bind snd]; apply step_full_ok_same, Hfull|].
  destruct (Z.leb_spec (charset_length s) (cursor_index s));
    [cbn [mbind outcome_bind snd]; apply step_full_ok_same, Hfull|].
  destruct Hfull as (([Hout Hclip] & (Hcur & Hsel & Hact) & Hmax)
                     & Hc & Hcs & Hcs' & Hidx).
  unfold IME_MAX_OUTPUT_LENGTH, U32_MAX in *.
  destruct (get_lt_Some (charset s) (cursor_index s)) as [ch Hch]; [lia|].
  rewrite (load_get _ _ _ Hch). cbn [mbind outcome_bind].
  rewrite store_in by lia. cbn [mbind outcome_bind].
  rewrite !u32_small by lia.
  destruct (Z.eq_dec (output_length s + 1) 256) as [Hfull|Hroom].
  - rewrite store_out by (rewrite length_insert; lia).
    cbn [mbind outcome_bind]. right.
    split; [f_equal; exact Hfull | unfold IME_MAX_OUTPUT_LENGTH; lia].
  - rewrite store_in by (rewrite length_insert; lia).
    cbn [mbind outcome_bind snd]. full_done.
Qed.

Lemma apply_session_op_ok op s :
  wf_full s -> valid_session_op op ->
  step_full_ok s (apply_session_op op s).
Proof.
  intros Hfull Hv. destruct op; cbn [apply_session_op valid_session_op] in *.
  - apply edit_op_full_ok; assumption.
  - apply copy_full_ok, Hfull.
  - apply cut_full_ok, Hfull.
  - apply paste_full_ok, Hfull.
  - apply confirm_char_full_ok, Hfull.
  - apply cycle_full_ok, Hfull.
  - apply update_timing_full_ok, Hfull.
Qed.

Lemma run_session_ops_ok ops : forall s,
  wf_full s -> Forall valid_session_op ops ->
  step_full_ok s (run_session_ops ops s).
Proof.
  induction ops as [|op ops IH]; intros s Hfull Hv.
  - apply step_full_ok_same, Hfull.
  - apply Forall_cons in Hv. destruct Hv as [Hop Hops].
    cbn [run_session_ops].
    destruct (apply_session_op_ok op s Hfull Hop)
      as [(s1 & -> & Hfull1 & Hmax1 & Hst1)|[-> Hcap]].
    + cbn [mbind outcome_bind].
      apply (step_full_ok_from s1 s _ Hmax1 Hst1).
      apply IH; assumption.
    + right. split; [reflexivity | exact Hcap].
Qed.

(** X8.  Every sequence of editing, clipboard and cycling calls keeps the
    session well-formed: cursor and length within the capacity, an active
    selection within the text, the clipboard length within the clipboard
    array and the cycle cursor a valid machine integer.  The state and
    the capacity never change.  Below capacity 256 no call of the
    sequence leaves the arrays. *)
Theorem all_operations_keep_session_well_formed
    (s : ImeSession) (ops : list session_op) :
  wf_full s -> Forall valid_session_op ops ->
  (forall s', run_session_ops ops s = Done s' ->
     wf_full s' /\ state s' = state s /\
     max_output_length s' = max_output_length s) /\
  (max_output_length s < IME_MAX_OUTPUT_LENGTH ->
   exists s', run_session_ops ops s = Done s').
Proof.
  intros Hfull Hv.
  destruct (run_session_ops_ok ops s Hfull Hv)
    as [(s1 & Hrun & Hfull1 & Hmax1 & Hst1)|[Hrun Hcap]].
  - split.
    + intros s' Hs'. rewrite Hrun in Hs'. injection Hs' as <-. auto.
    + intros _. exists s1. exact Hrun.
  - split.
    + intros s' Hs'. rewrite Hrun in Hs'. discriminate Hs'.
    + intros Hlt. rewrite Hcap in Hlt. lia.
Qed.

Lemma all_operations_keep_session_well_formed_witness :
  let s := session_after_init 0 10 None None in
  let ops := [OpCycle 3; OpConfirmChar; OpEdit (OpInsert 98);
              OpEdit OpSelectAll; OpCut; OpPaste; OpPaste;
              OpUpdateTiming 1000000] in
  (forall s', run_session_ops ops s = Done s' ->
     wf_full s' /\ state s' = state s /\
     max_output_length s' = max_output_length s) /\
  (max_output_length s < IME_MAX_OUTPUT_LENGTH ->
   exists s', run_session_ops ops s = Done s').
Proof.
  cbv zeta.
  apply (all_operations_keep_session_well_formed
           (session_after_init 0 10 None None)).
  - split; [apply wf_sessionb_ok; vm_compute; reflexivity|].
    vm_compute. repeat split; intros H; discriminate H.
  - repeat constructor; cbn; unfold U32_MAX; lia.
Defined.

(** * The character sets *)

Lemma charset_for_panel_spec panel :
  exists cs n,
    charset_for_panel panel = Done (cs, n) /\
    0 < n <= IME_MAX_CHARSET_SIZE /\
    n < Z.of_nat (length cs) /\
    get cs n = Some 0 /\
    forall i, 0 <= i < n -> exists ch, get cs i = Some ch /\ 32 <= ch <= 126.
Proof.
  assert (Hpoint : forall (cs : list Z) (n : Z),
    forallb (fun c => (32 <=? c) && (c <=? 126)) (take (Z.to_nat n) cs) = true ->
    n < Z.of_nat (length cs) ->
    forall i, 0 <= i < n -> exists ch, get cs i = Some ch /\ 32 <= ch <= 126).
  { intros cs n Hall Hlen i Hi.
    destruct (get_lt_Some cs i) as [ch Hch]; [lia|].
    exists ch. split; [exact Hch|].
    rewrite forallb_forall in Hall.
    assert (Hin : In ch (take (Z.to_nat n) cs)).
    { apply list_elem_of_In, list_elem_of_lookup.
      exists (Z.to_nat i). rewrite lookup_take_lt by lia.
      unfold get in Hch. destruct (i <? 0); [discriminate | exact Hch]. }
    apply Hall in Hin. apply andb_true_iff in Hin. lia. }
  unfold charset_for_panel.
  destruct (panel =? ORBIS_IME_PANEL_TYPE_NUMBER).
  - eexists. eexists. split; [vm_compute; reflexivity|].
    split; [unfold IME_MAX_CHARSET_SIZE; lia|].
    split; [vm_compute; reflexivity|].
    split; [vm_compute; reflexivity|].
    apply Hpoint; vm_compute; reflexivity.
  - destruct ((panel =? ORBIS_IME_PANEL_TYPE_URL)
              || (panel =? ORBIS_IME_PANEL_TYPE_MAIL)).
    + eexists. eexists. split; [vm_compute; reflexivity|].
      split; [unfold IME_MAX_CHARSET_SIZE; lia|].
      split; [vm_compute; reflexivity|].
      split; [vm_compute; reflexivity|].
      apply Hpoint; vm_compute; reflexivity.
    + eexists. eexists. split; [vm_compute; reflexivity|].
      split; [unfold IME_MAX_CHARSET_SIZE; lia|].
      split; [vm_compute; reflexivity|].
      split; [vm_compute; reflexivity|].
      apply Hpoint; vm_compute; reflexivity.
Qed.

Lemma init_fields old panel max_length caller prefill rc s :
  ime_session_init old panel max_length caller prefill = Done (rc, s) ->
  rc = IME_OK /\
  charset_for_panel panel = Done (charset s, charset_length s) /\
  cursor_index s = 0 /\ clipboard_length s = 0 /\
  panel_type s = panel /\ caller_buffer s = caller /\
  max_output_length s =
    (if max_length =? 0 then 1
     else Z.min max_length IME_MAX_OUTPUT_LENGTH).
Proof.
  unfold ime_session_init, memset_session.
  assert (Hml :
    (if (max_length =? 0) || (IME_MAX_OUTPUT_LENGTH <? max_length)
     then CLAMP max_length 1 IME_MAX_OUTPUT_LENGTH else max_length)
    = (if max_length =? 0 then 1
       else Z.min max_length IME_MAX_OUTPUT_LENGTH)).
  { unfold CLAMP, IME_MAX_OUTPUT_LENGTH. zbool; lia. }
  rewrite Hml.
  set (ml := if max_length =? 0 then 1
             else Z.min max_length IME_MAX_OUTPUT_LENGTH).
  clearbody ml.
  destruct zero_session_fields as (Zo & Zc & Zl & Zt & Zs & Ze).
  assert (Zcl : clipboard_length zero_session = 0) by reflexivity.
  set (z := zero_session) in *. clearbody z.
  destruct (charset_for_panel panel) as [[cs n]|]; cbn [mbind outcome_bind];
    [|discriminate].
  destruct prefill as [p|].
  - destruct (safe_u16_strlen (Some p) ml) as [plen|];
      cbn [mbind outcome_bind]; [|discriminate].
    destruct (safe_u16_copy _ (Some p) ml) as [out|];
      cbn [mbind outcome_bind]; [|discriminate].
    intros [= <- <-]. fields. auto 10.
  - intros [= <- <-]. fields. auto 10.
Qed.

(** X9.  Every session [ime_session_init] returns satisfies the full
    invariant: the session is active, the capacity is the requested one
    brought into 1..256, the charset and its length are those of
    [charset_for_panel] for the panel, and the clipboard is empty
    (length 0, all elements 0). *)
Theorem init_establishes_well_formed_session
    (old : ImeSession) (panel max_length : Z)
    (caller prefill : option (list Z)) (rc : Z) (s : ImeSession) :
  0 <= max_length <= U32_MAX ->
  ime_session_init old panel max_length caller prefill = Done (rc, s) ->
  rc = IME_OK /\ wf_full s /\ state s = IME_STATE_ACTIVE /\
  max_output_length s =
    (if max_length =? 0 then 1 else Z.min max_length IME_MAX_OUTPUT_LENGTH) /\
  1 <= max_output_length s <= IME_MAX_OUTPUT_LENGTH /\
  panel_type s = panel /\ caller_buffer s = caller /\
  charset_for_panel panel = Done (charset s, charset_length s) /\
  clipboard_length s = 0 /\ clipboard s = replicate 256 0.
Proof.
  intros Hmax Hinit.
  destruct (init_wf _ _ _ _ _ _ _ Hmax Hinit) as (Hwf & Hst & Hpos).
  assert (Hclipz : clipboard s = replicate 256 0).
  { revert Hinit. unfold ime_session_init.
    destruct (charset_for_panel panel) as [[cs0 n0]|];
      cbn [mbind outcome_bind]; [|discriminate].
    destruct prefill as [p|].
    - destruct (safe_u16_strlen _ _) as [plen|]; cbn [mbind outcome_bind];
        [|discriminate].
      destruct (safe_u16_copy _ _ _) as [out|]; cbn [mbind outcome_bind];
        [|discriminate].
      intros [= _ <-]. reflexivity.
    - intros [= _ <-]. reflexivity. }
  destruct (init_fields _ _ _ _ _ _ _ Hinit)
    as (Hrc & Hcs & Hidx & Hclip & Hpanel & Hcaller & Hcap).
  destruct (charset_for_panel_spec panel) as (cs & n & Hcs' & Hn & Hlen & _).
  pose proof Hcs as Hcs0.
  rewrite Hcs' in Hcs. injection Hcs as Hcs1 Hcs2.
  split; [exact Hrc|]. split.
  - unfold wf_full. split; [exact Hwf|].
    rewrite Hclip, Hidx, <- Hcs1, <- Hcs2.
    unfold IME_MAX_OUTPUT_LENGTH, IME_MAX_CHARSET_SIZE, U32_MAX in *. lia.
  - split; [exact Hst|]. split; [exact Hcap|].
    split; [split; [exact Hpos | apply Hwf]|].
    split; [exact Hpanel|]. split; [exact Hcaller|].
    split; [exact Hcs0|]. split; [exact Hclip | exact Hclipz].
Qed.

Lemma init_establishes_well_formed_session_witness :
  exists s,
    ime_session_init zero_session 1 300 (Some [7; 7]) (Some [104; 105; 0])
      = Done (IME_OK, s) /\
    wf_full s /\ max_output_length s = 256.
Proof.
  eexists. split; [vm_compute; reflexivity|].
  destruct (init_establishes_well_formed_session
              zero_session 1 300 (Some [7; 7]) (Some [104; 105; 0]) IME_OK _
              ltac:(unfold U32_MAX; lia) eq_refl)
    as (_ & Hfull & _ & Hcap & _).
  split; [exact Hfull | exact Hcap].
Defined.

(** X10.  The charset of a session returned by [ime_session_init] is a
    non-empty run of printable ASCII characters followed by its NUL
    terminator at index [charset_length]: the length loop stopped at the
    terminator, not at its cap of 96. *)
Theorem init_charset_is_printable_and_terminated
    (old : ImeSession) (panel max_length : Z)
    (caller prefill : option (list Z)) (rc : Z) (s : ImeSession) :
  ime_session_init old panel max_length caller prefill = Done (rc, s) ->
  0 < charset_length s <= IME_MAX_CHARSET_SIZE /\
  get (charset s) (charset_length s) = Some 0 /\
  forall i, 0 <= i < charset_length s ->
    exists ch, get (charset s) i = Some ch /\ 32 <= ch <= 126.
Proof.
  intros Hinit.
  destruct (init_fields _ _ _ _ _ _ _ Hinit) as (_ & Hcs & _).
  destruct (charset_for_panel_spec panel)
    as (cs & n & Hcs' & Hn & Hlen & Hnul & Hprint).
  rewrite Hcs' in Hcs. injection Hcs as <- <-.
  split; [exact Hn|]. split; [exact Hnul | exact Hprint].
Qed.

Lemma init_charset_is_printable_and_terminated_witness :
  0 < charset_length (session_after_init 1 10 None None)
    <= IME_MAX_CHARSET_SIZE /\
  get (charset (session_after_init 1 10 None None))
      (charset_length (session_after_init 1 10 None None)) = Some 0.
Proof.
  destruct (init_charset_is_printable_and_terminated
              zero_session 1 10 None None IME_OK
              (session_after_init 1 10 None None) eq_refl)
    as (Hn & Hnul & _).
  split; [exact Hn | exact Hnul].
Defined.

(** * plugin_common.h: bounded length and copy *)

Lemma safe_u16_strlen_loop_spec fuel : forall str len max_len L,
  0 <= len <= L -> L <= max_len -> max_len < 2 ^ 32 ->
  L - len <= Z.of_nat fuel ->
  (forall j, len <= j < L -> exists v, get str j = Some v /\ v <> 0) ->
  (L = max_len \/ get str L = Some 0) ->
  safe_u16_strlen_loop fuel str len max_len = Done L.
Proof.
  induction fuel as [|fuel IH]; intros str len max_len L Hlen HL Hmax Hfuel Hnz Hend.
  - cbn [safe_u16_strlen_loop]. f_equal. lia.
  - cbn [safe_u16_strlen_loop].
    destruct (Z.ltb_spec len max_len) as [Hlt|Hge]; [|f_equal; lia].
    destruct (Z.eq_dec len L) as [->|Hne].
    + destruct Hend as [->|H0]; [lia|].
      rewrite (load_get _ _ _ H0). cbn [mbind outcome_bind].
      rewrite Z.eqb_refl. reflexivity.
    + destruct (Hnz len) as (v & Hv & Hv0); [lia|].
      rewrite (load_get _ _ _ Hv). cbn [mbind outcome_bind].
      destruct (Z.eqb_spec v 0) as [|_]; [contradiction|].
      rewrite u32_small by lia.
      apply IH; try lia; try assumption.
      intros j Hj. apply Hnz. lia.
Qed.

(** X11.  [safe_u16_copy] into a destination of at least [max_dst_chars]
    elements copies exactly the [safe_u16_strlen (src, max_dst_chars - 1)]
    leading non-NUL characters of the source, stores a terminator after
    them, and leaves the rest of the destination as it was; no access
    leaves either array. *)
Theorem safe_u16_copy_copies_strlen_chars_and_terminates
    (d src : list Z) (max_dst_chars L : Z) :
  0 < max_dst_chars < 2 ^ 32 ->
  max_dst_chars <= Z.of_nat (length d) ->
  0 <= L <= max_dst_chars - 1 ->
  (forall j, 0 <= j < L -> exists v, get src j = Some v /\ v <> 0) ->
  (L = max_dst_chars - 1 \/ get src L = Some 0) ->
  safe_u16_strlen (Some src) (max_dst_chars - 1) = Done L /\
  exists d',
    safe_u16_copy (Some d) (Some src) max_dst_chars = Done (Some d') /\
    length d' = length d /\
    take (Z.to_nat L) d' = take (Z.to_nat L) src /\
    get d' L = Some 0 /\
    forall j, L < j -> get d' j = get d j.
Proof.
  intros Hmax Hd HL Hnz Hend. split.
  - unfold safe_u16_strlen.
    apply safe_u16_strlen_loop_spec; try lia; assumption.
  - unfold safe_u16_copy.
    destruct (Z.eqb_spec max_dst_chars 0); [lia|].
    rewrite u32_small by lia.
    destruct (safe_u16_copy_loop_spec (Z.to_nat (max_dst_chars - 1))
                d src 0 (max_dst_chars - 1) L)
      as (d1 & Hd1 & Hlen1 & Hget1); try lia; try assumption.
    rewrite Hd1. cbn [mbind outcome_bind].
    rewrite store_in by lia. cbn [mbind outcome_bind].
    eexists. split; [reflexivity|].
    split; [rewrite length_insert; exact Hlen1|].
    split; [|split].
    + apply take_get_ext. intros i Hi.
      rewrite get_insert by lia. rewrite Hget1. zdecide. reflexivity.
    + rewrite get_insert by lia. rewrite Z.eqb_refl. reflexivity.
    + intros j Hj. rewrite get_insert by lia. rewrite Hget1.
      zdecide. reflexivity.
Qed.

Lemma safe_u16_copy_copies_strlen_chars_and_terminates_witness :
  safe_u16_strlen (Some [104; 105; 0; 33]) 3 = Done 2 /\
  exists d',
    safe_u16_copy (Some [9; 9; 9; 9; 9]) (Some [104; 105; 0; 33]) 4
      = Done (Some d') /\
    get d' 2 = Some 0.
Proof.
  destruct (safe_u16_copy_copies_strlen_chars_and_terminates
              [9; 9; 9; 9; 9] [104; 105; 0; 33] 4 2) as (Hlen & d' & Hd' & _ & _ & Hnul & _).
  - lia.
  - cbn [length]. lia.
  - lia.
  - intros j Hj.
    assert (j = 0 \/ j = 1) as [-> | ->] by lia;
      eexists; (split; [reflexivity | lia]).
  - right. reflexivity.
  - split; [exact Hlen|]. exists d'. split; [exact Hd' | exact Hnul].
Defined.

(** * Session creation with a prefill *)

Lemma init_prefill_spec old panel max_length caller p Ls :
  0 <= max_length <= U32_MAX ->
  let cap := if max_length =? 0 then 1
             else Z.min max_length IME_MAX_OUTPUT_LENGTH in
  0 <= Ls <= cap ->
  (forall j, 0 <= j < Ls -> exists v, get p j = Some v /\ v <> 0) ->
  (Ls = cap \/ get p Ls = Some 0) ->
  exists s,
    ime_session_init old panel max_length caller (Some p) = Done (IME_OK, s) /\
    output_length s = Ls /\ text_cursor s = Ls /\
    take (Z.to_nat (Z.min Ls (cap - 1))) (output s)
      = take (Z.to_nat (Z.min Ls (cap - 1))) p /\
    get (output s) (Z.min Ls (cap - 1)) = Some 0.
Proof.
  intros Hmax cap HLs Hnz Hend.
  assert (Hcap : 1 <= cap <= 256).
  { subst cap. unfold U32_MAX, IME_MAX_OUTPUT_LENGTH in *. zbool; lia. }
  unfold ime_session_init, memset_session.
  assert (Hml :
    (if (max_length =? 0) || (IME_MAX_OUTPUT_LENGTH <? max_length)
     then CLAMP max_length 1 IME_MAX_OUTPUT_LENGTH else max_length) = cap).
  { subst cap. unfold CLAMP, IME_MAX_OUTPUT_LENGTH. zbool; lia. }
  rewrite Hml. clearbody cap. clear Hml.
  destruct zero_session_fields as (Zo & _).
  set (z := zero_session) in *. clearbody z.
  destruct (charset_for_panel_total panel) as (cs & n & -> & _).
  cbn [mbind outcome_bind]. fields.
  unfold safe_u16_strlen.
  rewrite (safe_u16_strlen_loop_spec _ p 0 cap Ls) by (try lia; assumption).
  cbn [mbind outcome_bind].
  unfold safe_u16_copy.
  destruct (Z.eqb_spec cap 0); [lia|].
  rewrite u32_small by lia.
  unfold IME_MAX_OUTPUT_LENGTH in Zo.
  set (k := Z.min Ls (cap - 1)).
  destruct (safe_u16_copy_loop_spec (Z.to_nat (cap - 1))
              (output z) p 0 (cap - 1) k)
    as (d1 & Hd1 & Hlen1 & Hget1); try lia.
  { intros j Hj. apply Hnz. lia. }
  { destruct (Z.le_gt_cases Ls (cap - 1)).
    - destruct Hend as [->|H0]; [lia|].
      right. replace k with Ls by lia. exact H0.
    - left. lia. }
  rewrite Hd1. cbn [mbind outcome_bind].
  rewrite store_in by lia. cbn [mbind outcome_bind default from_option id].
  eexists. split; [reflexivity|]. fields.
  split; [reflexivity|]. split; [reflexivity|]. split.
  - apply take_get_ext. intros i Hi.
    rewrite get_insert by lia. rewrite Hget1. zdecide. reflexivity.
  - rewrite get_insert by lia. rewrite Z.eqb_refl. reflexivity.
Qed.

(** X12.  A prefill shorter than the capacity becomes the session's text: the
    text is the prefill up to its terminator, the buffer is terminated
    after it, and the text cursor stands at the end. *)
Theorem init_with_prefill_copies_text
    (old : ImeSession) (panel max_length : Z) (caller : option (list Z))
    (p : list Z) (L : Z) :
  0 <= max_length <= U32_MAX ->
  0 <= L < (if max_length =? 0 then 1
            else Z.min max_length IME_MAX_OUTPUT_LENGTH) ->
  (forall j, 0 <= j < L -> exists v, get p j = Some v /\ v <> 0) ->
  get p L = Some 0 ->
  exists s,
    ime_session_init old panel max_length caller (Some p) = Done (IME_OK, s) /\
    output_length s = L /\ text_cursor s = L /\
    text_of s = take (Z.to_nat L) p /\
    get (output s) L = Some 0.
Proof.
  intros Hmax HL Hnz H0.
  destruct (init_prefill_spec old panel max_length caller p L Hmax
              ltac:(lia) Hnz (or_intror H0))
    as (s & Hs & Hlen & Hcur & Htake & Hnul).
  rewrite Z.min_l in Htake, Hnul by lia.
  exists s. split; [exact Hs|]. split; [exact Hlen|]. split; [exact Hcur|].
  split; [|exact Hnul].
  unfold text_of. rewrite Hlen. exact Htake.
Qed.

Lemma init_with_prefill_copies_text_witness :
  exists s,
    ime_session_init zero_session 0 10 None (Some [104; 105; 0; 33])
      = Done (IME_OK, s) /\
    text_of s = [104; 105].
Proof.
  destruct (init_with_prefill_copies_text
              zero_session 0 10 None [104; 105; 0; 33] 2)
    as (s & Hs & _ & _ & Htext & _).
  - unfold U32_MAX. lia.
  - vm_compute. split; [intros H; discriminate H | reflexivity].
  - intros j Hj.
    assert (j = 0 \/ j = 1) as [-> | ->] by lia;
      eexists; (split; [reflexivity | lia]).
  - reflexivity.
  - exists s. split; [exact Hs | exact Htext].
Defined.

(** X13.  A prefill with at least as many characters as the capacity fills the
    session to the capacity: the length and the cursor are the capacity,
    the buffer holds the first capacity - 1 characters of the prefill,
    and the element at index capacity - 1, which the length counts as
    text, is the terminator. *)
Theorem init_with_long_prefill_counts_terminator
    (old : ImeSession) (panel max_length : Z) (caller : option (list Z))
    (p : list Z) :
  0 <= max_length <= U32_MAX ->
  let cap := if max_length =? 0 then 1
             else Z.min max_length IME_MAX_OUTPUT_LENGTH in
  (forall j, 0 <= j < cap -> exists v, get p j = Some v /\ v <> 0) ->
  exists s,
    ime_session_init old panel max_length caller (Some p) = Done (IME_OK, s) /\
    output_length s = cap /\ text_cursor s = cap /\
    max_output_length s = cap /\
    take (Z.to_nat (cap - 1)) (output s) = take (Z.to_nat (cap - 1)) p /\
    get (output s) (cap - 1) = Some 0.
Proof.
  intros Hmax cap Hnz.
  assert (Hcap : 1 <= cap <= 256).
  { subst cap. unfold U32_MAX, IME_MAX_OUTPUT_LENGTH in *. zbool; lia. }
  destruct (init_prefill_spec old panel max_length caller p cap Hmax
              ltac:(fold cap; lia) Hnz (or_introl eq_refl))
    as (s & Hs & Hlen & Hcur & Htake & Hnul).
  fold cap in Htake, Hnul.
  rewrite Z.min_r in Htake, Hnul by lia.
  exists s. split; [exact Hs|]. split; [exact Hlen|]. split; [exact Hcur|].
  split; [|split; [exact Htake | exact Hnul]].
  apply (init_fields _ _ _ _ _ _ _ Hs).
Qed.

Lemma init_with_long_prefill_counts_terminator_witness :
  exists s,
    ime_session_init zero_session 0 3 None (Some [97; 98; 99; 100; 0])
      = Done (IME_OK, s) /\
    output_length s = 3 /\ get (output s) 2 = Some 0.
Proof.
  destruct (init_with_long_prefill_counts_terminator
              zero_session 0 3 None [97; 98; 99; 100; 0])
    as (s & Hs & Hlen & _ & _ & _ & Hnul).
  - unfold U32_MAX. lia.
  - intros j Hj. change (0 <= j < 3) in Hj.
    assert (j = 0 \/ j = 1 \/ j = 2) as [-> | [-> | ->]] by lia;
      eexists; (split; [reflexivity | lia]).
  - exists s. split; [exact Hs|]. split; [exact Hlen | exact Hnul].
Defined.

(** * The cycling front end *)



(** X15.  The neighbours shown beside the cycled character are the characters
    one step back and one step forward: [ime_session_get_neighbors]
    returns what [ime_session_current_char] returns after
    [ime_session_cycle] by -1 and by +1, wrap-around included. *)
Theorem get_neighbors_previews_cycle (s : ImeSession) :
  wf_full s -> state s = IME_STATE_ACTIVE -> 0 < charset_length s ->
  exists p n,
    ime_session_get_neighbors s = Done (p, n) /\
    ime_session_current_char (ime_session_cycle s (-1)) = Done p /\
    ime_session_current_char (ime_session_cycle s 1) = Done n.
Proof.
  intros (_ & _ & Hcs & Hcs' & Hidx) Hst Hpos.
  unfold IME_MAX_CHARSET_SIZE in *.
  unfold ime_session_get_neighbors.
  rewrite !cycle_active by (try assumption; lia).
  unfold ime_session_current_char, is_active. fields.
  rewrite (bool_decide_eq_true_2 _ Hst). cbn [negb orb].
  destruct (Z.eqb_spec (charset_length s) 0) as [|_]; [lia|].
  rewrite !wrap_index_mod by lia.
  replace (cursor_index s - 1) with (cursor_index s + -1) by lia.
  pose proof (Z.mod_pos_bound (cursor_index s + -1) (charset_length s) Hpos).
  pose proof (Z.mod_pos_bound (cursor_index s + 1) (charset_length s) Hpos).
  destruct (get_lt_Some (charset s)
              ((cursor_index s + -1) mod charset_length s)) as [p Hp]; [lia|].
  destruct (get_lt_Some (charset s)
              ((cursor_index s + 1) mod charset_length s)) as [n Hn]; [lia|].
  rewrite (load_get _ _ _ Hp), (load_get _ _ _ Hn).
  cbn [mbind outcome_bind].
  exists p, n. split; [reflexivity|].
  split.
  - rewrite (proj2 (Z.leb_gt _ _)) by lia. reflexivity.
  - rewrite (proj2 (Z.leb_gt _ _)) by lia. reflexivity.
Qed.

Lemma get_neighbors_previews_cycle_witness :
  ime_session_get_neighbors (session_after_init 2 10 None None)
    = Done (37, 98).
Proof.
  destruct (get_neighbors_previews_cycle (session_after_init 2 10 None None))
    as (p & n & Hpn & Hp & Hn).
  - split; [apply wf_sessionb_ok; vm_compute; reflexivity|].
    vm_compute. repeat split; intros H; discriminate H.
  - vm_compute. reflexivity.
  - vm_compute. reflexivity.
  - vm_compute in Hp, Hn. injection Hp as <-. injection Hn as <-. exact Hpn.
Defined.

(** X16.  Cycling by [delta] and then by [-delta] returns to the same
    character, across the wrap-around as well. *)
Theorem cycle_there_and_back (s : ImeSession) (delta : Z) :
  state s = IME_STATE_ACTIVE -> 0 < charset_length s < 2 ^ 32 ->
  0 <= cursor_index s < charset_length s ->
  ime_session_cycle (ime_session_cycle s delta) (- delta) = s.
Proof.
  intros Hst Hn Hidx.
  rewrite (cycle_active s delta Hst Hn).
  rewrite cycle_active by (fields; assumption).
  fields.
  replace ((cursor_index s + delta) mod charset_length s + - delta)
    with ((cursor_index s + delta) mod charset_length s - delta) by lia.
  rewrite Zminus_mod_idemp_l.
  replace (cursor_index s + delta - delta) with (cursor_index s) by lia.
  rewrite Z.mod_small by exact Hidx.
  destruct s. reflexivity.
Qed.

Lemma cycle_there_and_back_witness :
  ime_session_cycle
    (ime_session_cycle (session_after_init 2 10 None None) (-3)) (- -3)
  = session_after_init 2 10 None None.
Proof.
  apply (cycle_there_and_back (session_after_init 2 10 None None) (-3)).
  - vm_compute. reflexivity.
  - vm_compute. split; reflexivity.
  - vm_compute. split; [intros H; discriminate H | reflexivity].
Defined.

Lemma update_timing_cases s t :
  ime_session_update_timing s t = s \/
  (ime_session_update_timing s t
     = set_last_cycle_time_us t (ime_session_cycle s (hold_direction s)) /\
   negb (is_active s) = false /\
   negb (dpad_held s) || (hold_direction s =? 0) = false).
Proof.
  unfold ime_session_update_timing.
  destruct (negb (is_active s)); [left; reflexivity|].
  destruct (negb (dpad_held s) || (hold_direction s =? 0));
    [left; reflexivity|].
  destruct (_ <? initial_delay_ms _); [left; reflexivity|].
  destruct (_ <? _); [left; reflexivity|].
  right. auto.
Qed.

(** X17.  Auto-repeat is rate-limited: once a call of
    [ime_session_update_timing] at time [t] has stepped the cycle cursor,
    a call at a later time [t'] less than both repeat intervals after [t]
    changes nothing.  The step needs [dpad_held] and a non-zero
    [hold_direction], fields that the caller of the module sets: no
    function of the module assigns them. *)
Theorem update_timing_rate_limit (s : ImeSession) (t t' : Z) :
  0 <= t <= t' -> t' < 2 ^ 64 ->
  (t' - t) / 1000 < Z.min (repeat_interval_ms (cycle_config s))
                          (accel_interval_ms (cycle_config s)) ->
  ime_session_update_timing s t = s \/
  ime_session_update_timing (ime_session_update_timing s t) t'
    = ime_session_update_timing s t.
Proof.
  intros Ht Ht' Hwin.
  destruct (update_timing_cases s t) as [Hsame|(-> & Hact & Hheld)];
    [left; exact Hsame|].
  right.
  set (s1 := ime_session_cycle s (hold_direction s)).
  assert (Hs1 : is_active s1 = is_active s /\ dpad_held s1 = dpad_held s /\
                hold_direction s1 = hold_direction s /\
                cycle_config s1 = cycle_config s /\
                hold_start_time_us s1 = hold_start_time_us s).
  { subst s1. unfold ime_session_cycle.
    destruct (negb (is_active s)); [auto|].
    destruct (charset_length s =? 0); auto. }
  destruct Hs1 as (E1 & E2 & E3 & E4 & E5).
  clearbody s1.
  unfold ime_session_update_timing.
  unfold is_active in *. fields.
  rewrite E1, E2, E3, E4, E5, Hact, Hheld.
  destruct (_ <? initial_delay_ms _); [reflexivity|].
  rewrite u64_small by lia.
  match goal with |- (if ?a <? ?b then _ else _) = _ =>
    rewrite (proj2 (Z.ltb_lt a b)); [reflexivity|] end.
  destruct (_ <? _); lia.
Qed.

Lemma update_timing_rate_limit_witness :
  let s := session_holding 1 0 (session_after_init 0 10 None None) in
  cursor_index s = 0 /\
  cursor_index (ime_session_update_timing s 2000000) = 1 /\
  last_cycle_time_us (ime_session_update_timing s 2000000) = 2000000 /\
  ime_session_update_timing (ime_session_update_timing s 2000000) 2030000
    = ime_session_update_timing s 2000000.
Proof.
  cbv zeta.
  split; [vm_compute; reflexivity|].
  split; [vm_compute; reflexivity|].
  split; [vm_compute; reflexivity|].
  destruct (update_timing_rate_limit
              (session_holding 1 0 (session_after_init 0 10 None None))
              2000000 2030000) as [Hsame|Hlimit].
  - lia.
  - lia.
  - vm_compute. reflexivity.
  - apply (f_equal last_cycle_time_us) in Hsame.
    vm_compute in Hsame. discriminate Hsame.
  - exact Hlimit.
Defined.

(** * Selection and submission *)

(** X18.  [ime_session_set_selection] does not depend on the order of its two
    arguments: the selection runs from the smaller to the larger of the
    two positions, each brought back to the end of the text first, and it
    cancels a select-all mark. *)
Theorem set_selection_orders_and_clamps (s : ImeSession) (a b : Z) :
  state s = IME_STATE_ACTIVE ->
  ime_session_set_selection s a b = ime_session_set_selection s b a /\
  sel_start (ime_session_set_selection s a b)
    = Z.min (Z.min a (output_length s)) (Z.min b (output_length s)) /\
  sel_end (ime_session_set_selection s a b)
    = Z.max (Z.min a (output_length s)) (Z.min b (output_length s)) /\
  selected_all (ime_session_set_selection s a b) = false.
Proof.
  intros Hst. unfold ime_session_set_selection.
  rewrite (is_active_true _ Hst). cbn [negb].
  destruct (Z.ltb_spec (output_length s) a), (Z.ltb_spec (output_length s) b);
    repeat match goal with |- context [if ?x <? ?y then _ else _] =>
      destruct (Z.ltb_spec x y) end;
    fields;
    (split; [first [reflexivity | lia | repeat f_equal; lia]|]);
    (split; [lia|]); (split; [lia | reflexivity]).
Qed.

Lemma set_selection_orders_and_clamps_witness :
  let s := session_after [OpInsert 97; OpInsert 98; OpInsert 99]
             (session_after_init 0 10 None None) in
  sel_start (ime_session_set_selection s 7 1) = 1 /\
  sel_end (ime_session_set_selection s 7 1) = 3.
Proof.
  cbv zeta.
  destruct (set_selection_orders_and_clamps
              (session_after [OpInsert 97; OpInsert 98; OpInsert 99]
                 (session_after_init 0 10 None None)) 7 1)
    as (_ & Hs & He & _).
  - vm_compute. reflexivity.
  - split; [rewrite Hs | rewrite He]; vm_compute; reflexivity.
Defined.

(** What [ime_session_submit] leaves alone: the elements of the caller's
    buffer after the terminator it stores. *)
Lemma submit_keeps_rest_of_caller_buffer s d :
  wf_session s -> state s = IME_STATE_ACTIVE -> caller_buffer s = Some d ->
  0 < max_output_length s ->
  max_output_length s <= Z.of_nat (length d) ->
  (forall j, 0 <= j < output_length s ->
             exists v, get (output s) j = Some v /\ v <> 0) ->
  get (output s) (output_length s) = Some 0 \/
    output_length s = max_output_length s ->
  exists d',
    ime_session_submit s =
      Done (set_state IME_STATE_CONFIRMING (set_caller_buffer (Some d') s)) /\
    forall j, Z.min (output_length s) (max_output_length s - 1) < j ->
              get d' j = get d j.
Proof.
  intros ([Hout Hclip] & (Hcur & Hsel & Hact) & Hmax) Hst Hcb Hpos Hd Hnz Hend.
  unfold IME_MAX_OUTPUT_LENGTH in *.
  unfold ime_session_submit. rewrite (is_active_true _ Hst). cbn [negb].
  rewrite Hcb. unfold safe_u16_copy.
  destruct (Z.eqb_spec (max_output_length s) 0); [lia|].
  rewrite u32_small by lia.
  set (k := Z.min (output_length s) (max_output_length s - 1)).
  destruct (safe_u16_copy_loop_spec (Z.to_nat (max_output_length s - 1))
              d (output s) 0 (max_output_length s - 1) k)
    as (d1 & Hd1 & Hlen1 & Hget1); try lia.
  { intros j Hj. apply Hnz. lia. }
  { destruct Hend as [H0|Hfull]; [|left; lia].
    destruct (Z.le_gt_cases (output_length s) (max_output_length s - 1)).
    - right. replace k with (output_length s) by lia. exact H0.
    - left. lia. }
  rewrite Hd1. cbn [mbind outcome_bind].
  rewrite store_in by lia. cbn [mbind outcome_bind].
  eexists. split; [reflexivity|].
  intros j Hj. rewrite get_insert by lia. rewrite Hget1.
  zbool; try lia; reflexivity.
Qed.

(** X19.  A text that leaves room for the terminator reaches the caller whole.
    For an active session whose text holds no NUL, is followed by a NUL in
    [output] and is shorter than the capacity, with a caller's buffer of
    at least [max_output_length] elements: [ime_session_submit] writes the
    text and a terminator to the caller's buffer, leaves every element of
    that buffer after the terminator as it was, and changes nothing in the
    session but the state, now Confirming, and the caller's buffer. *)
Theorem submit_delivers_text_below_capacity (s : ImeSession) (d : list Z) :
  wf_session s -> state s = IME_STATE_ACTIVE -> caller_buffer s = Some d ->
  output_length s < max_output_length s ->
  max_output_length s <= Z.of_nat (length d) ->
  (forall j, 0 <= j < output_length s ->
             exists v, get (output s) j = Some v /\ v <> 0) ->
  get (output s) (output_length s) = Some 0 ->
  exists s' d',
    ime_session_submit s = Done s' /\
    state s' = IME_STATE_CONFIRMING /\
    caller_buffer s' = Some d' /\
    length d' = length d /\
    take (Z.to_nat (output_length s)) d' = text_of s /\
    get d' (output_length s) = Some 0 /\
    output s' = output s /\ output_length s' = output_length s /\
    (forall j, output_length s < j -> get d' j = get d j) /\
    s' = set_state IME_STATE_CONFIRMING (set_caller_buffer (Some d') s).
Proof.
  intros Hwf Hst Hcb Hroom Hd Hnz Hnul.
  pose proof Hwf as (_ & (Hcur & _) & _).
  destruct (submit_copies_prefix s d Hwf Hst Hcb ltac:(lia) Hd Hnz
              (or_introl Hnul)) as (d' & Hsub & Hlen & Hpre & Hterm).
  destruct (submit_keeps_rest_of_caller_buffer s d Hwf Hst Hcb ltac:(lia) Hd
              Hnz (or_introl Hnul)) as (d2 & Hsub2 & Hrest).
  rewrite Hsub in Hsub2. injection Hsub2 as Hd2. subst d2.
  rewrite Z.min_l in Hpre, Hterm, Hrest by lia.
  eexists. exists d'. split; [exact Hsub|]. fields.
  split; [reflexivity|]. split; [reflexivity|]. split; [exact Hlen|].
  split; [|split; [exact Hterm |]].
  - unfold text_of. apply take_get_ext. intros i Hi. apply Hpre. lia.
  - split; [reflexivity|]. split; [reflexivity|].
    split; [exact Hrest | reflexivity].
Qed.

Lemma submit_delivers_text_below_capacity_witness :
  exists s' d',
    ime_session_submit
      (session_after [OpInsert 104; OpInsert 105]
         (session_after_init 0 10 (Some [9; 9; 9; 9; 9; 9; 9; 9; 9; 9]) None))
      = Done s' /\
    caller_buffer s' = Some d' /\
    take 2 d' = [104; 105] /\ get d' 2 = Some 0 /\ get d' 3 = Some 9.
Proof.
  destruct (submit_delivers_text_below_capacity
              (session_after [OpInsert 104; OpInsert 105]
                 (session_after_init 0 10
                    (Some [9; 9; 9; 9; 9; 9; 9; 9; 9; 9]) None))
              [9; 9; 9; 9; 9; 9; 9; 9; 9; 9])
    as (s' & d' & Hs' & _ & Hcb & _ & Htext & Hnul & _ & _ & Hrest & _).
  - apply wf_sessionb_ok. vm_compute. reflexivity.
  - vm_compute. reflexivity.
  - vm_compute. reflexivity.
  - vm_compute. reflexivity.
  - vm_compute. intros H. discriminate H.
  - intros j Hj. change (0 <= j < 2) in Hj.
    assert (j = 0 \/ j = 1) as [-> | ->] by lia;
      eexists; (split; [vm_compute; reflexivity | lia]).
  - vm_compute. reflexivity.
  - exists s', d'. split; [exact Hs'|]. split; [exact Hcb|].
    split; [exact Htext|]. split; [exact Hnul|].
    rewrite Hrest; [reflexivity | vm_compute; reflexivity].
Defined.

(** * The grid *)

Ltac grid_fields :=
  cbn [ThumbGrid.selected_cell ThumbGrid.current_page ThumbGrid.page_count
       ThumbGrid.pages ThumbGrid.offset_x ThumbGrid.offset_y
       ThumbGrid.accent_mode ThumbGrid.title
       ThumbGrid.set_selected_cell ThumbGrid.set_current_page
       ThumbGrid.set_offset_x ThumbGrid.set_offset_y
       ThumbGrid.set_accent_mode] in *.

Lemma select_cell_range st x y :
  0 <= ThumbGrid.selected_cell (ThumbGrid.thumbgrid_select_cell st x y) < 9.
Proof.
  unfold ThumbGrid.thumbgrid_select_cell. grid_fields.
  destruct (x <? 78), (178 <? x), (y <? 78), (178 <? y); lia.
Qed.

Lemma update_position_frame st rx ry w h :
  let st' := ThumbGrid.thumbgrid_update_position st rx ry w h in
  ThumbGrid.selected_cell st' = ThumbGrid.selected_cell st /\
  ThumbGrid.current_page st' = ThumbGrid.current_page st /\
  ThumbGrid.page_count st' = ThumbGrid.page_count st /\
  ThumbGrid.pages st' = ThumbGrid.pages st /\
  ThumbGrid.accent_mode st' = ThumbGrid.accent_mode st /\
  ThumbGrid.title st' = ThumbGrid.title st.
Proof.
  cbv zeta. unfold ThumbGrid.thumbgrid_update_position.
  destruct (_ && _); [auto 10|].
  repeat match goal with |- context [if ?a <? ?b then _ else _] =>
    destruct (a <? b) end; grid_fields; auto 10.
Qed.

Lemma apply_grid_op_ok op st :
  ThumbGrid.grid_ok st -> ThumbGrid.grid_ok (ThumbGrid.apply_grid_op op st).
Proof.
  unfold ThumbGrid.grid_ok, ThumbGrid.TG_MAX_PAGES, ThumbGrid.TG_CELLS.
  intros (Hp & Hc & Hpage & Hcell).
  destruct op; cbn [ThumbGrid.apply_grid_op].
  - pose proof (select_cell_range st stick_x stick_y).
    unfold ThumbGrid.thumbgrid_select_cell in *. grid_fields. auto.
  - unfold ThumbGrid.thumbgrid_shift_toggle.
    destruct (ThumbGrid.current_page st =? 0); [grid_fields; intuition lia|].
    destruct (ThumbGrid.current_page st =? 1); grid_fields; intuition lia.
  - unfold ThumbGrid.thumbgrid_toggle_symbols.
    destruct (ThumbGrid.current_page st =? 2); grid_fields; intuition lia.
  - unfold ThumbGrid.thumbgrid_toggle_accent. grid_fields. auto.
  - destruct (update_position_frame st rstick_x rstick_y screen_w screen_h)
      as (E1 & E2 & E3 & E4 & _).
    rewrite E1, E2, E3, E4. auto.
Qed.

Lemma run_grid_ops_ok ops : forall st,
  ThumbGrid.grid_ok st -> ThumbGrid.grid_ok (ThumbGrid.run_grid_ops ops st).
Proof.
  induction ops as [|op ops IH]; intros st Hst; [exact Hst|].
  unfold ThumbGrid.run_grid_ops. cbn [fold_left].
  apply IH, apply_grid_op_ok, Hst.
Qed.

Lemma grid_char_spec st b :
  ThumbGrid.grid_ok st -> 0 <= b < ThumbGrid.TG_BUTTONS ->
  exists c,
    ThumbGrid.thumbgrid_get_char st b = Done c /\
    ThumbGrid.thumbgrid_is_special st b
      = Done (ThumbGrid.selected_cell st =? ThumbGrid.TG_CENTER_CELL) /\
    (if ThumbGrid.selected_cell st =? ThumbGrid.TG_CENTER_CELL
     then c = nth (Z.to_nat b) ThumbGrid.center 0
     else 32 <= c <= 126).
Proof.
  unfold ThumbGrid.grid_ok, ThumbGrid.TG_MAX_PAGES, ThumbGrid.TG_CELLS,
    ThumbGrid.TG_BUTTONS.
  intros (Hp & Hc & Hpage & Hcell) Hb.
  unfold ThumbGrid.thumbgrid_is_special, ThumbGrid.thumbgrid_get_char.
  rewrite Hp, Hc.
  assert (Hpages : ThumbGrid.current_page st = 0 \/
                   ThumbGrid.current_page st = 1 \/
                   ThumbGrid.current_page st = 2) by lia.
  assert (Hcells : In (ThumbGrid.selected_cell st) [0; 1; 2; 3; 4; 5; 6; 7; 8]).
  { cbn [In]. lia. }
  assert (Hbs : In b [0; 1; 2; 3]).
  { cbn [In]. lia. }
  clear Hpage Hcell Hb.
  destruct Hpages as [-> | [-> | ->]];
    cbn [In] in Hcells;
    repeat (destruct Hcells as [<- | Hcells]; [|]);
    try contradiction;
    cbn [In] in Hbs;
    repeat (destruct Hbs as [<- | Hbs]; [|]);
    try contradiction;
    (eexists; split; [vm_compute; reflexivity|];
     split; [vm_compute; reflexivity|];
     vm_compute; first [reflexivity | split; intros H; discriminate H]).
Qed.

(** X20.  From [thumbgrid_init] on, whatever the sticks and toggles do, every
    face button of the selected cell has a character: it is never 0, it
    is one of the special markers exactly on the center cell (space,
    exit, select-all, backspace for triangle, circle, cross, square), and
    a printable ASCII character on every other cell.  The page and cell
    indices stay inside the page array. *)
Theorem grid_always_yields_a_character
    (st0 : ThumbGrid.ThumbGridState) (ops : list ThumbGrid.grid_op) (b : Z) :
  0 <= b < ThumbGrid.TG_BUTTONS ->
  let st := ThumbGrid.run_grid_ops ops (ThumbGrid.thumbgrid_init st0) in
  ThumbGrid.grid_ok st /\
  exists c,
    ThumbGrid.thumbgrid_get_char st b = Done c /\ c <> 0 /\
    ThumbGrid.thumbgrid_is_special st b
      = Done (ThumbGrid.selected_cell st =? ThumbGrid.TG_CENTER_CELL) /\
    (ThumbGrid.selected_cell st = ThumbGrid.TG_CENTER_CELL ->
     c = nth (Z.to_nat b) ThumbGrid.center 0) /\
    (ThumbGrid.selected_cell st <> ThumbGrid.TG_CENTER_CELL ->
     32 <= c <= 126).
Proof.
  intros Hb st.
  assert (Hok : ThumbGrid.grid_ok st).
  { apply run_grid_ops_ok. unfold ThumbGrid.grid_ok, ThumbGrid.thumbgrid_init.
    grid_fields. repeat split; vm_compute; congruence. }
  split; [exact Hok|].
  destruct (grid_char_spec st b Hok Hb) as (c & Hc & Hsp & Hval).
  exists c. split; [exact Hc|].
  destruct (Z.eqb_spec (ThumbGrid.selected_cell st) ThumbGrid.TG_CENTER_CELL)
    as [Hcenter|Hother].
  - split; [|split; [exact Hsp | split; [auto | contradiction]]].
    subst c. unfold ThumbGrid.TG_BUTTONS in Hb.
    assert (b = 0 \/ b = 1 \/ b = 2 \/ b = 3) as [-> | [-> | [-> | ->]]] by lia;
      vm_compute; congruence.
  - split; [lia|]. split; [exact Hsp|]. split; [contradiction | auto].
Qed.

Lemma grid_always_yields_a_character_witness :
  exists c,
    ThumbGrid.thumbgrid_get_char
      (ThumbGrid.run_grid_ops
         [ThumbGrid.GSelectCell 0 255; ThumbGrid.GToggleSymbols]
         (ThumbGrid.thumbgrid_init
            {| ThumbGrid.selected_cell := 77; ThumbGrid.current_page := -1;
               ThumbGrid.page_count := 0; ThumbGrid.pages := None;
               ThumbGrid.offset_x := 0; ThumbGrid.offset_y := 0;
               ThumbGrid.accent_mode := true;
               ThumbGrid.title := replicate 48 7 |})) 2 = Done c /\
    c <> 0.
Proof.
  destruct (grid_always_yields_a_character
              {| ThumbGrid.selected_cell := 77; ThumbGrid.current_page := -1;
                 ThumbGrid.page_count := 0; ThumbGrid.pages := None;
                 ThumbGrid.offset_x := 0; ThumbGrid.offset_y := 0;
                 ThumbGrid.accent_mode := true;
                 ThumbGrid.title := replicate 48 7 |}
              [ThumbGrid.GSelectCell 0 255; ThumbGrid.GToggleSymbols] 2)
    as (_ & c & Hc & Hnz & _).
  - unfold ThumbGrid.TG_BUTTONS. lia.
  - exists c. split; [exact Hc | exact Hnz].
Defined.

Lemma i32_small z : - 2 ^ 31 <= z < 2 ^ 31 -> i32 z = z.
Proof. intros H. unfold i32. rewrite Z.mod_small by lia. lia. Qed.

Lemma stick_speed_range val : -10 <= ThumbGrid.stick_speed val <= 10.
Proof.
  unfold ThumbGrid.stick_speed.
  destruct (val <? 40); [lia|]. destruct (val <? 108); [lia|].
  destruct (val <=? 148); [lia|]. destruct (val <=? 216); lia.
Qed.

Ltac i32_simpl :=
  repeat match goal with
         | |- context [i32 ?a] =>
             lazymatch a with
             | context [i32 _] => fail
             | _ => rewrite (i32_small a) by lia
             end
         | H : context [i32 ?a] |- _ =>
             lazymatch a with
             | context [i32 _] => fail
             | _ => rewrite (i32_small a) in H by lia
             end
         end.

(** X21.  On a screen that has room for the overlay and its margins, with
    screen sizes and offsets far inside the range of [int] (below 2^30,
    so that no [int] operation overflows), a frame in which the right
    stick is deflected leaves the overlay wholly on the screen, 10
    pixels inside every edge, wherever it was before; a frame with the
    stick at rest leaves the position alone.  The position is the
    [base_x], [base_y] from which [thumbgrid_draw] draws. *)
Theorem update_position_keeps_overlay_on_screen
    (st : ThumbGrid.ThumbGridState) (rx ry screen_w screen_h : Z) :
  ThumbGrid.OVL_TOTAL_W + 20 <= screen_w < 2 ^ 30 ->
  ThumbGrid.OVL_TOTAL_H + 20 <= screen_h < 2 ^ 30 ->
  - 2 ^ 30 <= ThumbGrid.offset_x st <= 2 ^ 30 ->
  - 2 ^ 30 <= ThumbGrid.offset_y st <= 2 ^ 30 ->
  let st' := ThumbGrid.thumbgrid_update_position st rx ry screen_w screen_h in
  (ThumbGrid.stick_speed rx = 0 /\ ThumbGrid.stick_speed ry = 0 -> st' = st) /\
  (ThumbGrid.stick_speed rx <> 0 \/ ThumbGrid.stick_speed ry <> 0 ->
   10 <= ThumbGrid.overlay_x st' screen_w /\
   ThumbGrid.overlay_x st' screen_w + ThumbGrid.OVL_TOTAL_W <= screen_w - 10 /\
   10 <= ThumbGrid.overlay_y st' screen_h /\
   ThumbGrid.overlay_y st' screen_h + ThumbGrid.OVL_TOTAL_H <= screen_h - 10).
Proof.
  intros Hw Hh Hox Hoy. cbv zeta.
  unfold ThumbGrid.thumbgrid_update_position, ThumbGrid.overlay_x,
    ThumbGrid.overlay_y, ThumbGrid.OVL_TOTAL_W, ThumbGrid.OVL_TOTAL_H in *.
  change (440 ÷ 2) with 220.
  pose proof (stick_speed_range rx) as Hdx.
  pose proof (stick_speed_range ry) as Hdy.
  rewrite !(i32_small screen_w), !(i32_small screen_h) by lia.
  rewrite !(i32_small (screen_w - 620)), !(i32_small (screen_h * 2)),
    !(i32_small (screen_h - 440)) by lia.
  assert (Hqx : 0 <= 2 * ((screen_w - 620) ÷ 2) <= screen_w - 620).
  { pose proof (Z.quot_rem' (screen_w - 620) 2).
    pose proof (Z.rem_bound_pos (screen_w - 620) 2 ltac:(lia) ltac:(lia)).
    lia. }
  assert (Hqy : 0 <= 3 * ((screen_h * 2) ÷ 3) <= screen_h * 2).
  { pose proof (Z.quot_rem' (screen_h * 2) 3).
    pose proof (Z.rem_bound_pos (screen_h * 2) 3 ltac:(lia) ltac:(lia)).
    lia. }
  set (def_x := (screen_w - 620) ÷ 2) in *.
  set (q := (screen_h * 2) ÷ 3) in *.
  split.
  - intros [-> ->]. reflexivity.
  - intros Hmove.
    destruct (Z.eqb_spec (ThumbGrid.stick_speed rx) 0) as [Hx|Hx];
      destruct (Z.eqb_spec (ThumbGrid.stick_speed ry) 0) as [Hy|Hy];
      cbn [andb]; try (exfalso; lia);
      grid_fields; i32_simpl;
      repeat match goal with |- context [if ?a <? ?b then _ else _] =>
        destruct (Z.ltb_spec a b) end;
      grid_fields; i32_simpl; lia.
Qed.

Lemma update_position_keeps_overlay_on_screen_witness :
  let st := ThumbGrid.set_offset_x 5000
              (ThumbGrid.thumbgrid_init
                 {| ThumbGrid.selected_cell := 0; ThumbGrid.current_page := 0;
                    ThumbGrid.page_count := 0; ThumbGrid.pages := None;
                    ThumbGrid.offset_x := 0; ThumbGrid.offset_y := 0;
                    ThumbGrid.accent_mode := false;
                    ThumbGrid.title := replicate 48 0 |}) in
  ThumbGrid.overlay_x
    (ThumbGrid.thumbgrid_update_position st 255 128 1920 1080) 1920
    + ThumbGrid.OVL_TOTAL_W <= 1920 - 10.
Proof.
  cbv zeta.
  apply (update_position_keeps_overlay_on_screen
           (ThumbGrid.set_offset_x 5000
              (ThumbGrid.thumbgrid_init
                 {| ThumbGrid.selected_cell := 0; ThumbGrid.current_page := 0;
                    ThumbGrid.page_count := 0; ThumbGrid.pages := None;
                    ThumbGrid.offset_x := 0; ThumbGrid.offset_y := 0;
                    ThumbGrid.accent_mode := false;
                    ThumbGrid.title := replicate 48 0 |}))
           255 128 1920 1080).
  - unfold ThumbGrid.OVL_TOTAL_W. lia.
  - unfold ThumbGrid.OVL_TOTAL_H. lia.
  - cbn. lia.
  - cbn. lia.
  - left. vm_compute. intros H. discriminate H.
Defined.

(** The conversion [(int)screen_w] matters: for a screen width of
    [UINT32_MAX], which as an [int] is -1, a deflected stick leaves the
    offset at -321 and the overlay off the screen. *)
Example update_position_with_width_beyond_int :
  ThumbGrid.offset_x
    (ThumbGrid.thumbgrid_update_position
       (ThumbGrid.thumbgrid_init
          {| ThumbGrid.selected_cell := 0; ThumbGrid.current_page := 0;
             ThumbGrid.page_count := 0; ThumbGrid.pages := None;
             ThumbGrid.offset_x := 0; ThumbGrid.offset_y := 0;
             ThumbGrid.accent_mode := false;
             ThumbGrid.title := replicate 48 0 |})
       255 128 4294967295 1080) = -321.
Proof. vm_compute. reflexivity. Qed.

Lemma accent_consistent_all (c : Z) :
  -128 <= c <= 127 -> ThumbGrid.accent_consistent c = true.
Proof.
  intros Hc.
  assert (Hall : forallb ThumbGrid.accent_consistent (seqZ (-128) 256) = true)
    by (vm_compute; reflexivity).
  rewrite forallb_forall in Hall. apply Hall.
  apply list_elem_of_In, elem_of_seqZ. lia.
Qed.

(** X22.  The accent tables agree.  For every [char]: it has an accented
    variant in [thumbgrid_accent_lookup] exactly when [is_accentable]
    says so, and the variant is a Latin-1 code point that
    [u16_is_accented] recognises and [u16_to_base] maps back to the
    character. *)
Theorem accent_lookup_round_trip (c : Z) :
  -128 <= c <= 127 ->
  (ThumbGrid.thumbgrid_accent_lookup c <> 0 <->
   ThumbGrid.is_accentable c = true) /\
  (ThumbGrid.thumbgrid_accent_lookup c <> 0 ->
   ThumbGrid.u16_to_base (ThumbGrid.thumbgrid_accent_lookup c) = c /\
   ThumbGrid.u16_is_accented (ThumbGrid.thumbgrid_accent_lookup c) = true /\
   128 <= ThumbGrid.thumbgrid_accent_lookup c < 256).
Proof.
  intros Hc. pose proof (accent_consistent_all c Hc) as H.
  unfold ThumbGrid.accent_consistent in H. cbv zeta in H.
  apply andb_true_iff in H. destruct H as [Hiff Hrt].
  apply eqb_prop in Hiff.
  destruct (Z.eqb_spec (ThumbGrid.thumbgrid_accent_lookup c) 0) as [H0|H0];
    cbn [negb orb] in *.
  - split; [split; [congruence | intros H; rewrite <- Hiff in H; discriminate H]
           | contradiction].
  - split; [split; [intros _; symmetry; exact Hiff | intros _; exact H0]|].
    intros _.
    apply andb_true_iff in Hrt. destruct Hrt as [Hrt Hlt].
    apply andb_true_iff in Hrt. destruct Hrt as [Hrt Hge].
    apply andb_true_iff in Hrt. destruct Hrt as [Hbase Hacc].
    split; [lia|]. split; [exact Hacc | lia].
Qed.

Lemma accent_lookup_round_trip_witness :
  ThumbGrid.u16_to_base (ThumbGrid.thumbgrid_accent_lookup 110) = 110.
Proof.
  apply (accent_lookup_round_trip 110).
  - lia.
  - vm_compute. intros H. discriminate H.
Defined.

(** * Button edges *)

Lemma u32_not_bit x i :
  0 <= i < 32 -> Z.testbit (Input.u32_not x) i = negb (Z.testbit x i).
Proof.
  intros Hi. unfold Input.u32_not, u32.
  rewrite Z.mod_pow2_bits_low by lia.
  apply Z.lnot_spec. lia.
Qed.

Lemma u32_high_bit x i : 0 <= x < 2 ^ 32 -> 32 <= i -> Z.testbit x i = false.
Proof.
  intros Hx Hi.
  rewrite <- (Z.mod_small x (2 ^ 32)) by lia.
  apply Z.mod_pow2_bits_high. lia.
Qed.

Lemma land_u32_not_self x : 0 <= x < 2 ^ 32 -> Z.land x (Input.u32_not x) = 0.
Proof.
  intros Hx. apply Z.bits_inj'. intros i Hi.
  rewrite Z.land_spec, Z.bits_0.
  destruct (Z.lt_ge_cases i 32).
  - rewrite u32_not_bit by lia. apply andb_negb_r.
  - rewrite (u32_high_bit x i) by lia. reflexivity.
Qed.

Lemma land_pow2_testbit x i :
  0 <= i -> negb (Z.land x (2 ^ i) =? 0) = Z.testbit x i.
Proof.
  intros Hi.
  destruct (Z.testbit x i) eqn:Hb.
  - destruct (Z.eqb_spec (Z.land x (2 ^ i)) 0) as [H0|]; [|reflexivity].
    assert (Ht : Z.testbit (Z.land x (2 ^ i)) i = true).
    { rewrite Z.land_spec, Hb, Z.pow2_bits_true by lia. reflexivity. }
    rewrite H0, Z.bits_0 in Ht. discriminate Ht.
  - replace (Z.land x (2 ^ i)) with 0; [reflexivity|].
    symmetry. apply Z.bits_inj'. intros j Hj.
    rewrite Z.land_spec, Z.bits_0, Z.pow2_bits_eqb by lia.
    destruct (Z.eqb_spec i j) as [->|];
      [rewrite Hb; reflexivity | apply andb_false_r].
Qed.

(** X23.  Edge detection.  After [input_update], a button is in
    [buttons_pressed] exactly when it is down now and was up at the
    previous update, in [buttons_released] exactly when it was down and
    is up now; no button is in both. *)
Theorem input_update_detects_edges
    (st : Input.InputState) (raw sx sy rx ry ts i : Z) :
  0 <= raw < 2 ^ 32 -> 0 <= Input.buttons_current st < 2 ^ 32 ->
  0 <= i < 32 ->
  let st' := Input.input_update st raw sx sy rx ry ts in
  Z.testbit (Input.buttons_pressed st') i
    = Z.testbit raw i && negb (Z.testbit (Input.buttons_current st) i) /\
  Z.testbit (Input.buttons_released st') i
    = Z.testbit (Input.buttons_current st) i && negb (Z.testbit raw i) /\
  Z.land (Input.buttons_pressed st') (Input.buttons_released st') = 0 /\
  Input.input_is_held st' (2 ^ i) = Z.testbit raw i /\
  Input.input_just_pressed st' (2 ^ i)
    = Z.testbit raw i && negb (Z.testbit (Input.buttons_current st) i).
Proof.
  intros Hraw Hcur Hi. cbv zeta.
  unfold Input.input_update, Input.input_is_held, Input.input_just_pressed.
  cbn [Input.buttons_pressed Input.buttons_released Input.buttons_current].
  assert (Hbit := fun x => land_pow2_testbit x i (proj1 Hi)).
  split; [rewrite Z.land_spec, u32_not_bit by lia; reflexivity|].
  split; [rewrite Z.land_spec, u32_not_bit by lia; reflexivity|].
  split.
  - apply Z.bits_inj'. intros j Hj.
    rewrite !Z.land_spec, Z.bits_0.
    destruct (Z.lt_ge_cases j 32).
    + rewrite !u32_not_bit by lia.
      destruct (Z.testbit raw j), (Z.testbit (Input.buttons_current st) j);
        reflexivity.
    + rewrite (u32_high_bit raw j) by lia. reflexivity.
  - split; [apply Hbit|].
    rewrite Hbit, Z.land_spec, u32_not_bit by lia. reflexivity.
Qed.

Lemma input_update_detects_edges_witness :
  let st := Input.input_update
              {| Input.buttons_current := 0; Input.buttons_previous := 0;
                 Input.buttons_pressed := 0; Input.buttons_released := 0;
                 Input.timestamp_us := 0; Input.stick_x := 128;
                 Input.stick_y := 128; Input.rstick_x := 128;
                 Input.rstick_y := 128 |}
              Input.PAD_BUTTON_CROSS 128 128 128 128 1000 in
  Input.input_just_pressed
    (Input.input_update st
       (Z.lor Input.PAD_BUTTON_CROSS Input.PAD_BUTTON_TRIANGLE)
       128 128 128 128 2000) (2 ^ 12) = true.
Proof.
  cbv zeta.
  refine (proj2 (proj2 (proj2 (proj2
    (input_update_detects_edges
       (Input.input_update
          {| Input.buttons_current := 0; Input.buttons_previous := 0;
             Input.buttons_pressed := 0; Input.buttons_released := 0;
             Input.timestamp_us := 0; Input.stick_x := 128;
             Input.stick_y := 128; Input.rstick_x := 128;
             Input.rstick_y := 128 |}
          Input.PAD_BUTTON_CROSS 128 128 128 128 1000)
       (Z.lor Input.PAD_BUTTON_CROSS Input.PAD_BUTTON_TRIANGLE)
       128 128 128 128 2000 12 _ _ _))))).
  - vm_compute. split; [intros H; discriminate H | reflexivity].
  - vm_compute. split; [intros H; discriminate H | reflexivity].
  - lia.
Defined.

(** X24.  A button that stays down fires once: when two consecutive updates
    see the same buttons, the second one reports nothing pressed and
    nothing released, and [input_get_action] returns no action. *)
Theorem held_buttons_fire_once
    (st : Input.InputState) (raw : Z)
    (sx sy rx ry ts sx' sy' rx' ry' ts' : Z) :
  0 <= raw < 2 ^ 32 ->
  let st1 := Input.input_update st raw sx sy rx ry ts in
  let st2 := Input.input_update st1 raw sx' sy' rx' ry' ts' in
  Input.buttons_pressed st2 = 0 /\ Input.buttons_released st2 = 0 /\
  Input.input_get_action st2 = Input.IME_ACTION_NONE /\
  (forall button, Input.input_just_pressed st2 button = false) /\
  (forall button, Input.input_is_held st2 button
                  = Input.input_is_held st1 button).
Proof.
  intros Hraw. cbv zeta.
  unfold Input.input_get_action, Input.pressed, Input.input_just_pressed,
    Input.input_is_held, Input.input_update.
  cbn [Input.buttons_pressed Input.buttons_released Input.buttons_current].
  rewrite (land_u32_not_self raw Hraw).
  repeat split.
Qed.

Lemma held_buttons_fire_once_witness :
  Input.input_get_action
    (Input.input_update
       (Input.input_update
          {| Input.buttons_current := 0; Input.buttons_previous := 0;
             Input.buttons_pressed := 0; Input.buttons_released := 0;
             Input.timestamp_us := 0; Input.stick_x := 128;
             Input.stick_y := 128; Input.rstick_x := 128;
             Input.rstick_y := 128 |}
          Input.PAD_BUTTON_SQUARE 128 128 128 128 1000)
       Input.PAD_BUTTON_SQUARE 128 128 128 128 2000)
  = Input.IME_ACTION_NONE.
Proof.
  apply (held_buttons_fire_once
           {| Input.buttons_current := 0; Input.buttons_previous := 0;
              Input.buttons_pressed := 0; Input.buttons_released := 0;
              Input.timestamp_us := 0; Input.stick_x := 128;
              Input.stick_y := 128; Input.rstick_x := 128;
              Input.rstick_y := 128 |}
           Input.PAD_BUTTON_SQUARE 128 128 128 128 1000 128 128 128 128 2000).
  vm_compute. split; [intros H; discriminate H | reflexivity].
Defined.

Ltac action_step :=
  match goal with
  | |- (if negb (Z.land ?p ?b =? 0) then _ else _) = _ <-> _ =>
      destruct (Z.eqb_spec (Z.land p b) 0) as [?|?]; cbn [negb];
      [|split; [intros H; discriminate H | intros; exfalso; tauto]]
  end.

(** X25.  [input_get_action] returns no action exactly when none of the eleven
    buttons it maps (Options, R2, triangle, circle, square, the four
    directions, R1, L1) is newly pressed; a press of cross, L2 or L3
    alone never yields an action. *)
Theorem no_action_iff_no_mapped_button_pressed (st : Input.InputState) :
  Input.input_get_action st = Input.IME_ACTION_NONE <->
  Z.land (Input.buttons_pressed st) Input.action_buttons = 0.
Proof.
  unfold Input.input_get_action, Input.pressed, Input.action_buttons.
  rewrite !Z.land_lor_distr_r, !Z.lor_eq_0_iff.
  do 11 action_step.
  split; [intros _; tauto | reflexivity].
Qed.

(** * The writer of the shared record *)

Ltac ipc_fields :=
  cbn [Ipc.sequence Ipc.ime_active Ipc.selected_cell Ipc.current_page
       Ipc.accent_mode Ipc.output Ipc.output_length Ipc.text_cursor
       Ipc.selected_all Ipc.sel_start Ipc.sel_end Ipc.title Ipc.page_name
       Ipc.cells Ipc.offset_x Ipc.offset_y Ipc.shift_active
       Ipc.set_sequence Ipc.set_ime_active
       Ipc.thumbgrid_ipc_write_begin Ipc.thumbgrid_ipc_write_end
       Hook.ipc_set_selected_cell Hook.ipc_set_current_page
       Hook.ipc_set_accent_mode Hook.ipc_set_output
       Hook.ipc_set_output_length Hook.ipc_set_text_cursor
       Hook.ipc_set_selected_all Hook.ipc_set_sel_start Hook.ipc_set_sel_end
       Hook.ipc_set_title Hook.ipc_set_page_name Hook.ipc_set_cells
       Hook.ipc_set_offset_x Hook.ipc_set_offset_y Hook.ipc_set_shift_active
       Hook.store_cell] in *.

Lemma strncpy_total n : forall dst src i padding k,
  0 <= i -> i + Z.of_nat n <= Z.of_nat (length dst) ->
  (padding = false -> i <= k /\ get src k = Some 0) ->
  exists dst',
    Hook.strncpy n dst src i padding = Done dst' /\ length dst' = length dst.
Proof.
  induction n as [|n IH]; intros dst src i padding k Hi Hn Hk.
  - exists dst. split; reflexivity.
  - cbn [Hook.strncpy]. destruct padding.
    + rewrite store_in by lia. cbn [mbind outcome_bind].
      destruct (IH (<[Z.to_nat i := 0]> dst) src (i + 1) true k)
        as (d' & Hd' & Hlen);
        [lia | rewrite length_insert; lia | intros H; discriminate H |].
      exists d'. split; [exact Hd'|]. rewrite Hlen. apply length_insert.
    + destruct (Hk eq_refl) as [Hik H0].
      pose proof (get_Some_lt _ _ _ H0) as Hklt.
      destruct (get_lt_Some src i) as [c Hc]; [lia|].
      rewrite (load_get _ _ _ Hc). cbn [mbind outcome_bind].
      rewrite store_in by lia. cbn [mbind outcome_bind].
      destruct (IH (<[Z.to_nat i := c]> dst) src (i + 1) (c =? 0) k)
        as (d' & Hd' & Hlen); [lia | rewrite length_insert; lia | |].
      { intros Hc0. apply Z.eqb_neq in Hc0. split; [|exact H0].
        destruct (Z.eq_dec i k) as [->|]; [|lia].
        rewrite H0 in Hc. congruence. }
      exists d'. split; [exact Hd'|]. rewrite Hlen. apply length_insert.
Qed.

Lemma even_u32 z : Z.even (u32 z) = Z.even z.
Proof.
  unfold u32. rewrite <- !Z.negb_odd, <- !Z.bit0_odd.
  rewrite Z.mod_pow2_bits_low by lia. reflexivity.
Qed.

Lemma grid_page st :
  ThumbGrid.grid_ok st ->
  exists page,
    ThumbGrid.pages st = Some ThumbGrid.g_thumbgrid_pages /\
    ThumbGrid.load_at ThumbGrid.g_thumbgrid_pages (ThumbGrid.current_page st)
      = Done page /\
    get (ThumbGrid.name page) 3 = Some 0 /\
    length (ThumbGrid.chars page) = 9%nat.
Proof.
  unfold ThumbGrid.grid_ok, ThumbGrid.TG_MAX_PAGES.
  intros (Hp & _ & Hpage & _).
  assert (ThumbGrid.current_page st = 0 \/ ThumbGrid.current_page st = 1 \/
          ThumbGrid.current_page st = 2) as [-> | [-> | ->]] by lia;
    (eexists; split; [exact Hp|];
     split; [vm_compute; reflexivity|]; split; reflexivity).
Qed.

(** X26.  After [ipc_sync_state] on an active session, a read of the shared
    record is accepted and shows the session: the stores are bracketed
    by the two counter increments (the counter advances by 2 and stays
    even), the record is marked active, and its text, length, cursor,
    selection, cell, page and cell labels are those of the session and
    the grid; the page name is terminated.  No access leaves an array,
    the unchecked index into the page array included. *)
Theorem ipc_sync_then_read_shows_session
    (s : ImeSession) (tg : ThumbGrid.ThumbGridState)
    (m dst : Ipc.ThumbGridSharedState) :
  wf_session s -> state s = IME_STATE_ACTIVE ->
  ThumbGrid.grid_ok tg -> length (ThumbGrid.title tg) = 48%nat ->
  length (Ipc.output m) = 256%nat -> length (Ipc.title m) = 48%nat ->
  length (Ipc.page_name m) = 8%nat ->
  0 <= Ipc.sequence m < 2 ^ 32 -> Z.even (Ipc.sequence m) = true ->
  exists evs page,
    Hook.ipc_sync_state true s tg false m = Done evs /\
    Ipc.follows_protocol false evs /\
    ThumbGrid.load_at ThumbGrid.g_thumbgrid_pages (ThumbGrid.current_page tg)
      = Done page /\
    let m' := Ipc.run_events evs m in
    Ipc.thumbgrid_ipc_read (Ipc.quiescent m') dst = (1, m') /\
    Ipc.sequence m' = u32 (Ipc.sequence m + 2) /\
    Ipc.ime_active m' = 1 /\
    Ipc.output_length m' = output_length s /\
    take (Z.to_nat (output_length s)) (Ipc.output m') = text_of s /\
    Ipc.text_cursor m' = text_cursor s /\
    Ipc.selected_all m' = Hook.bool_to_Z (selected_all s) /\
    Ipc.sel_start m' = sel_start s /\ Ipc.sel_end m' = sel_end s /\
    Ipc.selected_cell m' = ThumbGrid.selected_cell tg /\
    Ipc.current_page m' = ThumbGrid.current_page tg /\
    Ipc.cells m' = ThumbGrid.chars page /\
    Ipc.title m' = ThumbGrid.title tg /\
    get (Ipc.page_name m') 7 = Some 0.
Proof.
  intros ([Hout Hclip] & (Hcur & Hsel & Hact) & Hmax) Hst Hgrid Htitle
         Hmo Hmt Hmp Hseq Hev.
  unfold IME_MAX_OUTPUT_LENGTH in *.
  destruct (grid_page tg Hgrid) as (page & Hpages & Hpage & Hname & Hchars).
  unfold Hook.ipc_sync_state.
  rewrite (is_active_true _ Hst). cbn [negb orb].
  unfold Hook.TG_IPC_MAX_OUTPUT, Hook.TG_IPC_TITLE_MAX,
    Hook.TG_IPC_PAGE_NAME_MAX.
  destruct (Z.ltb_spec 256 (output_length s)) as [|_]; [lia|].
  destruct (memcpy_u16_spec (Z.to_nat (output_length s)) (Ipc.output m) 0
              (output s) 0) as (out & -> & Hlen_out & Hget_out); try lia.
  cbn [mbind outcome_bind].
  destruct (memcpy_u16_spec (Z.to_nat 48) (Ipc.title m) 0
              (ThumbGrid.title tg) 0) as (ti & -> & Hlen_ti & Hget_ti);
    try lia.
  cbn [mbind outcome_bind].
  rewrite Hpages. cbn [mbind outcome_bind]. rewrite Hpage.
  cbn [mbind outcome_bind].
  change (8 - 1) with 7.
  destruct (strncpy_total (Z.to_nat 7) (Ipc.page_name m)
              (ThumbGrid.name page) 0 false 3) as (pn & -> & Hlen_pn);
    try lia.
  { intros _. split; [lia | exact Hname]. }
  cbn [mbind outcome_bind].
  rewrite store_in by lia. cbn [mbind outcome_bind].
  eexists. exists page. split; [reflexivity|].
  split; [|split; [reflexivity|]].
  { cbn [app]. repeat constructor. }
  cbn [app Ipc.run_events fold_left Ipc.apply_event]. cbv zeta.
  unfold Ipc.thumbgrid_ipc_read, Ipc.quiescent.
  cbn [Ipc.seq_before Ipc.seq_after Ipc.copied]. ipc_fields.
  assert (Hseq2 : u32 (u32 (Ipc.sequence m + 1) + 1) = u32 (Ipc.sequence m + 2)).
  { unfold u32. rewrite Zplus_mod_idemp_l. f_equal. lia. }
  rewrite Hseq2.
  rewrite land_1_even, even_u32, Z.even_add, Hev. cbn [Z.even eqb negb].
  rewrite Z.eqb_refl.
  split; [reflexivity|]. split; [reflexivity|].
  repeat (split; [reflexivity|]).
  split; [|repeat (split; [reflexivity|])].
  - unfold text_of. apply take_get_ext. intros i Hi.
    rewrite Hget_out. zdecide. f_equal. lia.
  - split.
    + apply get_ext. intros j. rewrite Hget_ti.
      destruct (Z.ltb_spec j 0).
      * rewrite !get_neg by lia. zdecide. reflexivity.
      * destruct (Z.ltb_spec j 48).
        -- zdecide. f_equal. lia.
        -- zdecide. rewrite (proj2 (get_None_iff (ThumbGrid.title tg) j)) by lia.
           apply get_None_iff. lia.
    + rewrite get_insert by lia. reflexivity.
Qed.

Lemma ipc_sync_then_read_shows_session_witness :
  exists evs,
    Hook.ipc_sync_state true
      (session_after [OpInsert 104; OpInsert 105]
         (session_after_init 0 10 None None))
      (Hook.g_tgrid
         (Hook.globals_at_start zero_session (replicate 48 0) 0))
      false Ipc.zero_state = Done evs /\
    take 2 (Ipc.output (Ipc.run_events evs Ipc.zero_state)) = [104; 105] /\
    Ipc.ime_active (Ipc.run_events evs Ipc.zero_state) = 1.
Proof.
  destruct (ipc_sync_then_read_shows_session
              (session_after [OpInsert 104; OpInsert 105]
                 (session_after_init 0 10 None None))
              (Hook.g_tgrid
                 (Hook.globals_at_start zero_session (replicate 48 0) 0))
              Ipc.zero_state Ipc.zero_state)
    as (evs & page & Hevs & _ & _ & _ & _ & Hact & _ & Htext & _).
  - apply wf_sessionb_ok. vm_compute. reflexivity.
  - vm_compute. reflexivity.
  - unfold ThumbGrid.grid_ok. vm_compute.
    repeat split; congruence.
  - vm_compute. reflexivity.
  - vm_compute. reflexivity.
  - vm_compute. reflexivity.
  - vm_compute. reflexivity.
  - vm_compute. split; [intros H; discriminate H | reflexivity].
  - vm_compute. reflexivity.
  - exists evs. split; [exact Hevs|]. split; [exact Htext | exact Hact].
Defined.

Lemma accepted_snapshot_is_a_published_record_witness :
  let pre := [Ipc.WBegin; Ipc.WField (Ipc.set_ime_active 1); Ipc.WEnd] in
  snd (Ipc.thumbgrid_ipc_read
         (Ipc.quiescent (Ipc.run_events pre Ipc.zero_state)) Ipc.zero_state)
    = Ipc.run_events pre Ipc.zero_state /\
  Ipc.writing_after false pre = false.
Proof.
  cbv zeta.
  refine (proj2 (accepted_snapshot_is_a_published_record
                   Ipc.zero_state
                   [Ipc.WBegin; Ipc.WField (Ipc.set_ime_active 1); Ipc.WEnd]
                   []
                   (Ipc.quiescent
                      (Ipc.run_events
                         [Ipc.WBegin; Ipc.WField (Ipc.set_ime_active 1);
                          Ipc.WEnd] Ipc.zero_state))
                   Ipc.zero_state _ _ _ _ _ _ _ _)).
  - cbn. lia.
  - reflexivity.
  - cbn [app]. repeat constructor.
  - cbn. lia.
  - reflexivity.
  - reflexivity.
  - unfold Ipc.assembled_from. cbn [Ipc.history Ipc.quiescent Ipc.copied].
    set (m := Ipc.run_events _ Ipc.zero_state).
    repeat (split;
            [exists m;
             split; [apply list_elem_of_singleton; reflexivity | reflexivity]|]).
    exists m.
    split; [apply list_elem_of_singleton; reflexivity | reflexivity].
  - vm_compute. reflexivity.
Defined.

(** * The input router *)

Ltac hook_fields :=
  cbn [Hook.g_session Hook.g_tgrid Hook.g_input_state
       Hook.g_session_start_us Hook.g_overlay_screen_w
       Hook.g_overlay_screen_h Hook.g_bs_held Hook.g_bs_start_us
       Hook.g_bs_last_repeat_us Hook.g_x_held Hook.g_x_dpad_used
       Hook.g_x_anchor Hook.g_l2_prev_analog Hook.g_l2_shift_active
       Hook.g_l2_saved_page Hook.g_l3_prev
       Hook.set_session Hook.set_tgrid Hook.set_input_state Hook.set_bs
       Hook.set_x Hook.set_l2 Hook.set_l3_prev] in *.

Lemma accentable_iff_lookup c :
  -128 <= c <= 127 ->
  negb (ThumbGrid.thumbgrid_accent_lookup c =? 0) = ThumbGrid.is_accentable c.
Proof.
  intros Hc. pose proof (accent_consistent_all c Hc) as H.
  unfold ThumbGrid.accent_consistent in H. cbv zeta in H.
  apply andb_true_iff in H. destruct H as [Hiff _].
  apply eqb_prop in Hiff. exact Hiff.
Qed.

Lemma dispatch_face_button_spec (h : Hook.hook_globals) (b : Z) :
  ThumbGrid.grid_ok (Hook.g_tgrid h) -> 0 <= b < ThumbGrid.TG_BUTTONS ->
  (ThumbGrid.selected_cell (Hook.g_tgrid h) <> ThumbGrid.TG_CENTER_CELL ->
   exists c,
     ThumbGrid.thumbgrid_get_char (Hook.g_tgrid h) b = Done c /\
     32 <= c <= 126 /\
     Hook.dispatch_face_button b h =
       Hook.with_session
         (ime_session_add_char16 (Hook.g_session h)
            (if ThumbGrid.accent_mode (Hook.g_tgrid h)
                && ThumbGrid.is_accentable c
             then ThumbGrid.thumbgrid_accent_lookup c else c)) h) /\
  (ThumbGrid.selected_cell (Hook.g_tgrid h) = ThumbGrid.TG_CENTER_CELL ->
   Hook.dispatch_face_button ThumbGrid.TG_BTN_TRIANGLE h =
     Hook.with_session (ime_session_add_char16 (Hook.g_session h) 32) h /\
   Hook.dispatch_face_button ThumbGrid.TG_BTN_CIRCLE h =
     Done (Hook.set_session (ime_session_cancel (Hook.g_session h)) h) /\
   Hook.dispatch_face_button ThumbGrid.TG_BTN_CROSS h =
     Done (Hook.set_session (ime_session_select_all (Hook.g_session h)) h) /\
   Hook.dispatch_face_button ThumbGrid.TG_BTN_SQUARE h =
     Hook.with_session (ime_session_backspace (Hook.g_session h)) h).
Proof.
  intros Hgrid Hb. split.
  - intros Hcell.
    destruct (grid_char_spec _ b Hgrid Hb) as (c & Hc & Hsp & Hval).
    apply Z.eqb_neq in Hcell. rewrite Hcell in Hsp, Hval.
    exists c. split; [exact Hc|]. split; [exact Hval|].
    unfold Hook.dispatch_face_button. rewrite Hc, Hsp.
    cbn [mbind outcome_bind].
    destruct (Z.eqb_spec c 0); [lia|].
    rewrite accentable_iff_lookup by lia.
    destruct (ThumbGrid.accent_mode (Hook.g_tgrid h)
              && ThumbGrid.is_accentable c); [reflexivity|].
    unfold ime_session_add_char, u16. rewrite Z.mod_small by lia.
    reflexivity.
  - intros Hcell.
    assert (Hall : forall b', 0 <= b' < ThumbGrid.TG_BUTTONS ->
              ThumbGrid.thumbgrid_get_char (Hook.g_tgrid h) b'
                = Done (nth (Z.to_nat b') ThumbGrid.center 0) /\
              ThumbGrid.thumbgrid_is_special (Hook.g_tgrid h) b' = Done true).
    { intros b' Hb'.
      destruct (grid_char_spec _ b' Hgrid Hb') as (c & Hc & Hsp & Hval).
      apply Z.eqb_eq in Hcell. rewrite Hcell in Hsp, Hval.
      subst c. split; assumption. }
    unfold Hook.dispatch_face_button.
    repeat split.
    + destruct (Hall ThumbGrid.TG_BTN_TRIANGLE ltac:(vm_compute; split; congruence))
        as [-> ->]. reflexivity.
    + destruct (Hall ThumbGrid.TG_BTN_CIRCLE ltac:(vm_compute; split; congruence))
        as [-> ->]. reflexivity.
    + destruct (Hall ThumbGrid.TG_BTN_CROSS ltac:(vm_compute; split; congruence))
        as [-> ->]. reflexivity.
    + destruct (Hall ThumbGrid.TG_BTN_SQUARE ltac:(vm_compute; split; congruence))
        as [-> ->]. reflexivity.
Qed.

(** X28.  What a face button does.  On the center cell triangle inserts a
    space, circle cancels the dialog, cross selects all and square
    deletes backwards.  On every other cell the button inserts the
    character the grid shows for it, or in accent mode its accented
    variant if it has one. *)
Theorem face_button_does_what_the_cell_shows (h : Hook.hook_globals) (b : Z) :
  ThumbGrid.grid_ok (Hook.g_tgrid h) -> 0 <= b < ThumbGrid.TG_BUTTONS ->
  (ThumbGrid.selected_cell (Hook.g_tgrid h) <> ThumbGrid.TG_CENTER_CELL ->
   exists c,
     ThumbGrid.thumbgrid_get_char (Hook.g_tgrid h) b = Done c /\
     32 <= c <= 126 /\
     Hook.dispatch_face_button b h =
       Hook.with_session
         (ime_session_add_char16 (Hook.g_session h)
            (if ThumbGrid.accent_mode (Hook.g_tgrid h)
                && ThumbGrid.is_accentable c
             then ThumbGrid.thumbgrid_accent_lookup c else c)) h) /\
  (ThumbGrid.selected_cell (Hook.g_tgrid h) = ThumbGrid.TG_CENTER_CELL ->
   Hook.dispatch_face_button ThumbGrid.TG_BTN_TRIANGLE h =
     Hook.with_session (ime_session_add_char16 (Hook.g_session h) 32) h /\
   Hook.dispatch_face_button ThumbGrid.TG_BTN_CIRCLE h =
     Done (Hook.set_session (ime_session_cancel (Hook.g_session h)) h) /\
   Hook.dispatch_face_button ThumbGrid.TG_BTN_CROSS h =
     Done (Hook.set_session (ime_session_select_all (Hook.g_session h)) h) /\
   Hook.dispatch_face_button ThumbGrid.TG_BTN_SQUARE h =
     Hook.with_session (ime_session_backspace (Hook.g_session h)) h).
Proof. exact (dispatch_face_button_spec h b). Qed.

Lemma face_button_does_what_the_cell_shows_witness :
  Hook.dispatch_face_button ThumbGrid.TG_BTN_SQUARE
    (Hook.globals_at_start (session_after_init 0 10 None None)
       (replicate 48 0) 0)
  = Hook.with_session
      (ime_session_backspace (session_after_init 0 10 None None))
      (Hook.globals_at_start (session_after_init 0 10 None None)
         (replicate 48 0) 0).
Proof.
  refine (proj2 (proj2 (proj2 (proj2
    (face_button_does_what_the_cell_shows
       (Hook.globals_at_start (session_after_init 0 10 None None)
          (replicate 48 0) 0) 0 _ _) _)))).
  - unfold ThumbGrid.grid_ok. vm_compute. repeat split; congruence.
  - vm_compute. split; congruence.
  - reflexivity.
Defined.

(** X29.  The D-pad.  Each direction moves the text cursor one step inside the
    text or to one of its ends and leaves the text alone.  With the
    cross button held the selection becomes the range between the
    anchor (brought back to the end of the text) and the new cursor
    position, in either order, and the hold is marked as used; without
    it any selection, partial or select-all, is cleared. *)
Theorem dpad_moves_cursor_and_sets_selection
    (h : Hook.hook_globals) (mv : cursor_move) (l2_center_override : bool) :
  wf_session (Hook.g_session h) ->
  state (Hook.g_session h) = IME_STATE_ACTIVE ->
  0 <= Hook.g_x_anchor h ->
  exists h',
    Hook.dispatch_action (Hook.action_of_move mv) l2_center_override h
      = Done h' /\
    let s := Hook.g_session h in
    let s' := Hook.g_session h' in
    text_cursor s' = Hook.moved_cursor mv s /\
    output s' = output s /\ output_length s' = output_length s /\
    selected_all s' = false /\
    (Hook.g_x_held h = true ->
     let a := Z.min (Hook.g_x_anchor h) (output_length s) in
     sel_start s' = Z.min a (Hook.moved_cursor mv s) /\
     sel_end s' = Z.max a (Hook.moved_cursor mv s) /\
     Hook.g_x_dpad_used h' = true) /\
    (Hook.g_x_held h = false -> sel_start s' = 0 /\ sel_end s' = 0).
Proof.
  intros ([Hout Hclip] & (Hcur & Hsel & Hact) & Hmax) Hst Hanchor.
  unfold IME_MAX_OUTPUT_LENGTH in *.
  assert (Hactive : forall s0, state s0 = IME_STATE_ACTIVE ->
            negb (is_active s0) = false).
  { intros s0 H0. rewrite (is_active_true _ H0). reflexivity. }
  destruct mv; cbn [Hook.action_of_move Hook.dispatch_action Hook.moved_cursor];
    unfold Hook.cursor_action;
    (eexists; split; [reflexivity|]);
    cbv zeta;
    destruct (Hook.g_x_held h) eqn:Hheld; hook_fields;
    unfold ime_session_set_selection, ime_session_clear_selection,
      ime_session_cursor_left, ime_session_cursor_right,
      ime_session_cursor_home, ime_session_cursor_end;
    rewrite ?Hactive by (fields; exact Hst); fields;
    repeat match goal with
           | |- context [if ?a <? ?b then _ else _] =>
               destruct (Z.ltb_spec a b); fields
           end;
    rewrite ?u32_small in * by lia;
    repeat match goal with
           | |- context [if ?a <? ?b then _ else _] =>
               destruct (Z.ltb_spec a b); fields
           end;
    (split; [lia|]); (split; [reflexivity|]); (split; [reflexivity|]);
    (split; [reflexivity|]);
    (split; [intros Ht; try discriminate Ht; repeat split; lia
            |intros Hf; try discriminate Hf; split; reflexivity]).
Qed.

Lemma dpad_moves_cursor_and_sets_selection_witness :
  let h := Hook.set_x true false 3
             (Hook.globals_at_start
                (session_after [OpInsert 97; OpInsert 98; OpInsert 99]
                   (session_after_init 0 10 None None))
                (replicate 48 0) 0) in
  exists h',
    Hook.dispatch_action Input.IME_ACTION_CURSOR_LEFT false h = Done h' /\
    sel_start (Hook.g_session h') = 2 /\ sel_end (Hook.g_session h') = 3.
Proof.
  cbv zeta.
  destruct (dpad_moves_cursor_and_sets_selection
              (Hook.set_x true false 3
                 (Hook.globals_at_start
                    (session_after [OpInsert 97; OpInsert 98; OpInsert 99]
                       (session_after_init 0 10 None None))
                    (replicate 48 0) 0))
              MoveLeft false)
    as (h' & Hh' & _ & _ & _ & _ & Hheld & _).
  - apply wf_sessionb_ok. vm_compute. reflexivity.
  - vm_compute. reflexivity.
  - vm_compute. intros H. discriminate H.
  - exists h'. split; [exact Hh'|].
    destruct (Hheld eq_refl) as (Hs & He & _).
    split; [rewrite Hs | rewrite He]; vm_compute; reflexivity.
Defined.

(** ** The caller's buffer is only written by submit *)

Ltac caller_done := fields; congruence.

Lemma delete_selection_caller s s' :
  ime_session_delete_selection s = Done s' ->
  caller_buffer s' = caller_buffer s.
Proof.
  unfold ime_session_delete_selection. intros H.
  repeat frame_step H; caller_done.
Qed.

Lemma clear_all_selected_caller s s' :
  clear_all_selected s = Done s' -> caller_buffer s' = caller_buffer s.
Proof.
  unfold clear_all_selected. intros H. repeat frame_step H; caller_done.
Qed.

Lemma clear_if_selected_caller s s' :
  clear_if_selected s = Done s' -> caller_buffer s' = caller_buffer s.
Proof.
  unfold clear_if_selected. intros H.
  destruct (selected_all s); [exact (clear_all_selected_caller _ _ H)|].
  destruct (negb (sel_start s =? sel_end s));
    [exact (delete_selection_caller _ _ H)|].
  injection H as <-. reflexivity.
Qed.

Lemma add_char16_caller s c r :
  ime_session_add_char16 s c = Done r ->
  caller_buffer (snd r) = caller_buffer s.
Proof.
  unfold ime_session_add_char16. intros H.
  destruct (negb (is_active s)); [injection H as <-; reflexivity|].
  destruct (clear_if_selected s) as [s1|] eqn:E1;
    cbn [mbind outcome_bind] in H; [|discriminate H].
  apply clear_if_selected_caller in E1. rewrite <- E1.
  repeat frame_step H; caller_done.
Qed.

Lemma backspace_caller s r :
  ime_session_backspace s = Done r -> caller_buffer (snd r) = caller_buffer s.
Proof.
  unfold ime_session_backspace. intros H.
  destruct (negb (is_active s)); [injection H as <-; reflexivity|].
  destruct (selected_all s).
  { destruct (clear_all_selected s) as [s1|] eqn:E1;
      cbn [mbind outcome_bind] in H; [|discriminate H].
    injection H as <-. exact (clear_all_selected_caller _ _ E1). }
  destruct (negb (sel_start s =? sel_end s)).
  { destruct (ime_session_delete_selection s) as [s1|] eqn:E1;
      cbn [mbind outcome_bind] in H; [|discriminate H].
    injection H as <-. exact (delete_selection_caller _ _ E1). }
  repeat frame_step H; caller_done.
Qed.

Lemma copy_caller s s' :
  ime_session_copy s = Done s' -> caller_buffer s' = caller_buffer s.
Proof.
  unfold ime_session_copy. intros H.
  destruct (negb (is_active s)); [injection H as <-; reflexivity|].
  destruct (selected_all s).
  { cbv zeta in H. repeat frame_step H; caller_done. }
  destruct (negb (sel_start s =? sel_end s));
    [|injection H as <-; reflexivity].
  destruct (sel_end s <? sel_start s);
    cbv zeta in H; repeat frame_step H; caller_done.
Qed.

Lemma cut_caller s s' :
  ime_session_cut s = Done s' -> caller_buffer s' = caller_buffer s.
Proof.
  unfold ime_session_cut. intros H.
  destruct (negb (is_active s)); [injection H as <-; reflexivity|].
  destruct (ime_session_copy s) as [s1|] eqn:E1;
    cbn [mbind outcome_bind] in H; [|discriminate H].
  apply copy_caller in E1. rewrite <- E1.
  destruct (0 <? clipboard_length s1); [|injection H as <-; reflexivity].
  destruct (selected_all s1);
    [exact (clear_all_selected_caller _ _ H)
    |exact (delete_selection_caller _ _ H)].
Qed.

Lemma paste_caller s s' :
  ime_session_paste s = Done s' -> caller_buffer s' = caller_buffer s.
Proof.
  unfold ime_session_paste. intros H.
  destruct (negb (is_active s)); [injection H as <-; reflexivity|].
  destruct (clipboard_length s =? 0); [injection H as <-; reflexivity|].
  match type of H with
  | mbind _ ?m = _ => destruct m as [s1|] eqn:E1
  end; cbn [mbind outcome_bind] in H; [|discriminate H].
  assert (Hs1 : caller_buffer s1 = caller_buffer s).
  { destruct (selected_all s); [exact (clear_all_selected_caller _ _ E1)|].
    destruct (negb (sel_start s =? sel_end s));
      [exact (delete_selection_caller _ _ E1)|].
    injection E1 as <-. reflexivity. }
  rewrite <- Hs1. cbv zeta in H.
  repeat frame_step H; caller_done.
Qed.

(** ** Every poll keeps the globals well-formed *)

Lemma apply_op_caller op s s' :
  apply_op op s = Done s' -> caller_buffer s' = caller_buffer s.
Proof.
  destruct op; cbn [apply_op]; intros H.
  - destruct (ime_session_add_char16 s c) as [r|] eqn:E;
      cbn [mbind outcome_bind] in H; [|discriminate H].
    injection H as <-. exact (add_char16_caller _ _ _ E).
  - destruct (ime_session_backspace s) as [r|] eqn:E;
      cbn [mbind outcome_bind] in H; [|discriminate H].
    injection H as <-. exact (backspace_caller _ _ E).
  - exact (delete_selection_caller _ _ H).
  - injection H as <-. unfold ime_session_cursor_left.
    destruct (negb (is_active s)); [reflexivity|].
    destruct (0 <? _); reflexivity.
  - injection H as <-. unfold ime_session_cursor_right.
    destruct (negb (is_active s)); [reflexivity|].
    destruct (_ <? _); reflexivity.
  - injection H as <-. unfold ime_session_cursor_home.
    destruct (negb (is_active s)); reflexivity.
  - injection H as <-. unfold ime_session_cursor_end.
    destruct (negb (is_active s)); reflexivity.
  - injection H as <-. unfold ime_session_set_selection.
    destruct (negb (is_active s)); [reflexivity|].
    destruct (_ <? _), (_ <? _);
      match goal with |- context [if ?b then _ else _] => destruct b end;
      reflexivity.
  - injection H as <-. reflexivity.
  - injection H as <-. unfold ime_session_select_all.
    destruct (negb (is_active s)); [reflexivity|].
    destruct (_ =? _); reflexivity.
Qed.

Lemma session_ok_step cap s r :
  cap < IME_MAX_OUTPUT_LENGTH -> Hook.session_ok cap s ->
  step_full_ok s r ->
  (forall s', r = Done s' -> caller_buffer s' = caller_buffer s) ->
  exists s', r = Done s' /\ Hook.session_ok cap s' /\ state s' = state s.
Proof.
  intros Hcap (Hfull & Hmax & Hfit) [(s' & -> & Hfull' & Hmax' & Hst')|[_ H256]]
         Hcaller; [|lia].
  exists s'. split; [reflexivity|]. split; [|exact Hst'].
  split; [exact Hfull'|]. split; [congruence|].
  unfold Hook.caller_buffer_fits in *.
  rewrite (Hcaller s' eq_refl), Hmax'. exact Hfit.
Qed.

Lemma edit_session_ok cap s e :
  cap < IME_MAX_OUTPUT_LENGTH -> Hook.session_ok cap s -> valid_op e ->
  exists s', apply_op e s = Done s' /\ Hook.session_ok cap s' /\
             state s' = state s.
Proof.
  intros Hcap Hok Hv.
  apply (session_ok_step cap s _ Hcap Hok).
  - apply edit_op_full_ok; [apply Hok | exact Hv].
  - intros s'. apply apply_op_caller.
Qed.

Lemma session_ok_setter cap s s' :
  Hook.session_ok cap s ->
  output s' = output s -> clipboard s' = clipboard s ->
  output_length s' = output_length s ->
  max_output_length s' = max_output_length s ->
  0 <= text_cursor s' <= output_length s ->
  selected_all s' = selected_all s ->
  sel_start s' = sel_start s -> sel_end s' = sel_end s ->
  clipboard_length s' = clipboard_length s ->
  charset s' = charset s -> charset_length s' = charset_length s ->
  cursor_index s' = cursor_index s ->
  caller_buffer s' = caller_buffer s ->
  Hook.session_ok cap s'.
Proof.
  intros ((([Hout Hclip] & (Hcur & Hsel & Hact) & Hmax)
           & Hc & Hcs & Hcs' & Hidx) & Hcap & Hfit)
         E1 E2 E3 E4 Hnew E5 E6 E7 E8 E9 E10 E11 E12.
  unfold Hook.session_ok, Hook.caller_buffer_fits, wf_full, wf_session,
    arrays_ok, session_invariant in *.
  rewrite E1, E2, E3, E4, E6, E7, E8, E9, E10, E11, E12.
  intuition lia.
Qed.

Lemma safe_u16_copy_loop_total fuel : forall dst src i limit,
  0 <= i -> limit <= Z.of_nat (length src) ->
  limit <= Z.of_nat (length dst) -> limit < 2 ^ 32 ->
  exists d' i',
    safe_u16_copy_loop fuel dst src i limit = Done (d', i') /\
    length d' = length dst /\ i <= i' <= Z.max i limit.
Proof.
  induction fuel as [|fuel IH]; intros dst src i limit Hi Hsrc Hdst Hlim.
  - exists dst, i. split; [reflexivity|]. split; [reflexivity | lia].
  - cbn [safe_u16_copy_loop].
    destruct (Z.ltb_spec i limit) as [Hlt|Hge].
    + destruct (get_lt_Some src i) as [c Hc]; [lia|].
      rewrite (load_get _ _ _ Hc). cbn [mbind outcome_bind].
      destruct (c =? 0).
      * exists dst, i. split; [reflexivity|]. split; [reflexivity | lia].
      * rewrite store_in by lia. cbn [mbind outcome_bind].
        rewrite u32_small by lia.
        destruct (IH (<[Z.to_nat i := c]> dst) src (i + 1) limit)
          as (d' & i' & Hd' & Hlen & Hi');
          [lia | lia | rewrite length_insert; lia | lia |].
        exists d', i'. split; [exact Hd'|].
        split; [rewrite Hlen; apply length_insert | lia].
    + exists dst, i. split; [reflexivity|]. split; [reflexivity | lia].
Qed.

Lemma submit_session_ok cap s :
  Hook.session_ok cap s ->
  exists s', ime_session_submit s = Done s' /\ Hook.session_ok cap s' /\
             (state s = IME_STATE_ACTIVE -> state s' = IME_STATE_CONFIRMING).
Proof.
  intros Hok. pose proof Hok as ((([Hout Hclip] & (Hcur & Hsel & Hact) & Hmax)
                                  & Hc & Hcs & Hcs' & Hidx) & Hcap & Hfit).
  unfold ime_session_submit.
  destruct (decide (state s = IME_STATE_ACTIVE)) as [Hst|Hst].
  2:{ rewrite (is_active_false _ Hst). cbn [negb].
      exists s. split; [reflexivity|]. split; [exact Hok | contradiction]. }
  rewrite (is_active_true _ Hst). cbn [negb].
  assert (Hset : forall cb,
            match cb with
            | Some d => max_output_length s <= Z.of_nat (length d)
            | None => True
            end ->
            Hook.session_ok cap
              (set_state IME_STATE_CONFIRMING (set_caller_buffer cb s))).
  { intros cb Hcbfit.
    unfold Hook.session_ok, Hook.caller_buffer_fits, wf_full, wf_session,
      arrays_ok, session_invariant. fields. intuition. }
  unfold Hook.caller_buffer_fits in Hfit.
  unfold IME_MAX_OUTPUT_LENGTH in *.
  destruct (caller_buffer s) as [d|] eqn:Hcb.
  - unfold safe_u16_copy.
    destruct (Z.eqb_spec (max_output_length s) 0) as [H0|H0].
    + cbn [mbind outcome_bind]. eexists. split; [reflexivity|].
      split; [|reflexivity]. apply Hset. exact Hfit.
    + rewrite u32_small by lia.
      destruct (safe_u16_copy_loop_total
                  (Z.to_nat (max_output_length s - 1)) d (output s) 0
                  (max_output_length s - 1))
        as (d1 & i1 & -> & Hlen1 & Hi1); try lia.
      cbn [mbind outcome_bind].
      rewrite store_in by lia. cbn [mbind outcome_bind].
      eexists. split; [reflexivity|]. split; [|reflexivity].
      apply Hset. rewrite length_insert. lia.
  - eexists. split; [reflexivity|]. split; [|reflexivity].
    replace (set_state IME_STATE_CONFIRMING s)
      with (set_state IME_STATE_CONFIRMING (set_caller_buffer None s))
      by (rewrite <- Hcb; destruct s; reflexivity).
    apply Hset. exact I.
Qed.

Lemma cancel_session_ok cap s :
  Hook.session_ok cap s -> Hook.session_ok cap (ime_session_cancel s).
Proof.
  unfold ime_session_cancel, Hook.session_ok, Hook.caller_buffer_fits,
    wf_full, wf_session, arrays_ok, session_invariant. fields.
  exact (fun H => H).
Qed.

Lemma hook_ok_set_session cap h s' :
  Hook.hook_ok cap h -> Hook.session_ok cap s' ->
  Hook.hook_ok cap (Hook.set_session s' h).
Proof.
  unfold Hook.hook_ok. hook_fields. intuition.
Qed.

Lemma hook_ok_set_tgrid cap h tg :
  Hook.hook_ok cap h -> ThumbGrid.grid_ok tg ->
  Hook.hook_ok cap (Hook.set_tgrid tg h).
Proof.
  unfold Hook.hook_ok. hook_fields. intuition.
Qed.

Lemma hook_ok_set_x cap h held used anchor :
  Hook.hook_ok cap h -> 0 <= anchor <= U32_MAX ->
  Hook.hook_ok cap (Hook.set_x held used anchor h).
Proof.
  unfold Hook.hook_ok. hook_fields. intuition.
Qed.

Lemma hook_ok_set_l2 cap h prev active saved :
  Hook.hook_ok cap h -> saved < ThumbGrid.TG_MAX_PAGES ->
  Hook.hook_ok cap (Hook.set_l2 prev active saved h).
Proof.
  unfold Hook.hook_ok. hook_fields. intuition.
Qed.

Lemma hook_ok_set_bs cap h held start last :
  Hook.hook_ok cap h -> Hook.hook_ok cap (Hook.set_bs held start last h).
Proof.
  unfold Hook.hook_ok. hook_fields. intuition.
Qed.

Lemma hook_ok_set_l3_prev cap h v :
  Hook.hook_ok cap h -> Hook.hook_ok cap (Hook.set_l3_prev v h).
Proof.
  unfold Hook.hook_ok. hook_fields. intuition.
Qed.

Lemma hook_ok_set_input_state cap h v :
  Hook.hook_ok cap h -> Hook.hook_ok cap (Hook.set_input_state v h).
Proof.
  unfold Hook.hook_ok. hook_fields. intuition.
Qed.

(** The result of a router step: it completes and keeps the globals
    well-formed. *)
Lemma with_session_ok cap h x :
  cap < IME_MAX_OUTPUT_LENGTH -> Hook.hook_ok cap h ->
  step_full_ok (Hook.g_session h) (p ← x; Done (snd p)) ->
  (forall p, x = Done p ->
     caller_buffer (snd p) = caller_buffer (Hook.g_session h)) ->
  exists h', Hook.with_session x h = Done h' /\ Hook.hook_ok cap h'.
Proof.
  intros Hcap Hok Hstep Hcaller.
  destruct (session_ok_step cap _ _ Hcap (proj1 Hok) Hstep)
    as (s' & Hs' & Hok' & _).
  { intros s' Hs'. destruct x as [p|]; cbn [mbind outcome_bind] in Hs';
      [|discriminate Hs'].
    injection Hs' as <-. apply Hcaller. reflexivity. }
  unfold Hook.with_session.
  destruct x as [p|]; cbn [mbind outcome_bind] in *; [|discriminate Hs'].
  injection Hs' as <-.
  eexists. split; [reflexivity|]. apply hook_ok_set_session; assumption.
Qed.

Lemma add_char16_hook_ok cap h c :
  cap < IME_MAX_OUTPUT_LENGTH -> Hook.hook_ok cap h -> 0 <= c < 2 ^ 16 ->
  exists h',
    Hook.with_session (ime_session_add_char16 (Hook.g_session h) c) h
      = Done h' /\ Hook.hook_ok cap h'.
Proof.
  intros Hcap Hok Hc. apply with_session_ok; [exact Hcap | exact Hok | |].
  - exact (edit_op_full_ok (OpInsert c) _ (proj1 (proj1 Hok)) Hc).
  - intros p. apply add_char16_caller.
Qed.

Lemma backspace_hook_ok cap h :
  cap < IME_MAX_OUTPUT_LENGTH -> Hook.hook_ok cap h ->
  exists h',
    Hook.with_session (ime_session_backspace (Hook.g_session h)) h
      = Done h' /\ Hook.hook_ok cap h'.
Proof.
  intros Hcap Hok. apply with_session_ok; [exact Hcap | exact Hok | |].
  - exact (edit_op_full_ok OpBackspace _ (proj1 (proj1 Hok)) I).
  - intros p. apply backspace_caller.
Qed.

Lemma accent_lookup_range c :
  -128 <= c <= 127 -> 0 <= ThumbGrid.thumbgrid_accent_lookup c < 256.
Proof.
  intros Hc. pose proof (accent_consistent_all c Hc) as H.
  unfold ThumbGrid.accent_consistent in H. cbv zeta in H.
  apply andb_true_iff in H. destruct H as [_ H].
  destruct (Z.eqb_spec (ThumbGrid.thumbgrid_accent_lookup c) 0) as [->|_];
    [lia|].
  cbn [orb] in H.
  apply andb_true_iff in H. destruct H as [H Hlt].
  apply andb_true_iff in H. destruct H as [_ Hge]. lia.
Qed.

Lemma dispatch_face_button_ok cap h b :
  cap < IME_MAX_OUTPUT_LENGTH -> Hook.hook_ok cap h ->
  0 <= b < ThumbGrid.TG_BUTTONS ->
  exists h', Hook.dispatch_face_button b h = Done h' /\ Hook.hook_ok cap h'.
Proof.
  intros Hcap Hok Hb. pose proof Hok as (Hs & Hgrid & _).
  destruct (dispatch_face_button_spec h b Hgrid Hb) as [Hother Hcenter].
  destruct (Z.eq_dec (ThumbGrid.selected_cell (Hook.g_tgrid h))
              ThumbGrid.TG_CENTER_CELL) as [Hc|Hc].
  - destruct (Hcenter Hc) as (Htri & Hcir & Hcro & Hsq).
    unfold ThumbGrid.TG_BUTTONS in Hb.
    assert (b = ThumbGrid.TG_BTN_TRIANGLE \/ b = ThumbGrid.TG_BTN_CIRCLE \/
            b = ThumbGrid.TG_BTN_CROSS \/ b = ThumbGrid.TG_BTN_SQUARE)
      as [-> | [-> | [-> | ->]]]
      by (unfold ThumbGrid.TG_BTN_TRIANGLE, ThumbGrid.TG_BTN_CIRCLE,
            ThumbGrid.TG_BTN_CROSS, ThumbGrid.TG_BTN_SQUARE; lia).
    + rewrite Htri. apply add_char16_hook_ok; [assumption | assumption | lia].
    + rewrite Hcir. eexists. split; [reflexivity|].
      apply hook_ok_set_session; [exact Hok|].
      apply cancel_session_ok, Hs.
    + rewrite Hcro. eexists. split; [reflexivity|].
      apply hook_ok_set_session; [exact Hok|].
      destruct (edit_session_ok cap _ OpSelectAll Hcap Hs I)
        as (s' & Hs' & Hok' & _).
      cbn [apply_op] in Hs'. injection Hs' as <-. exact Hok'.
    + rewrite Hsq. apply backspace_hook_ok; assumption.
  - destruct (Hother Hc) as (c & _ & Hprint & ->).
    apply add_char16_hook_ok; [assumption | assumption |].
    pose proof (accent_lookup_range c ltac:(lia)).
    destruct (ThumbGrid.accent_mode (Hook.g_tgrid h)
              && ThumbGrid.is_accentable c); lia.
Qed.

Lemma session_op_hook_ok cap h r :
  cap < IME_MAX_OUTPUT_LENGTH -> Hook.hook_ok cap h ->
  step_full_ok (Hook.g_session h) r ->
  (forall s', r = Done s' ->
     caller_buffer s' = caller_buffer (Hook.g_session h)) ->
  exists h', (s' ← r; Done (Hook.set_session s' h)) = Done h' /\
             Hook.hook_ok cap h'.
Proof.
  intros Hcap Hok Hstep Hcaller.
  destruct (session_ok_step cap _ _ Hcap (proj1 Hok) Hstep Hcaller)
    as (s' & -> & Hok' & _).
  cbn [mbind outcome_bind]. eexists. split; [reflexivity|].
  apply hook_ok_set_session; assumption.
Qed.

Lemma pure_edit_session_ok cap s e s' :
  cap < IME_MAX_OUTPUT_LENGTH -> Hook.session_ok cap s -> valid_op e ->
  apply_op e s = Done s' -> Hook.session_ok cap s'.
Proof.
  intros Hcap Hok Hv Hs'.
  destruct (edit_session_ok cap s e Hcap Hok Hv) as (s1 & Hs1 & Hok1 & _).
  rewrite Hs' in Hs1. injection Hs1 as <-. exact Hok1.
Qed.

Lemma cursor_action_ok cap h new_cursor end_arg move :
  cap < IME_MAX_OUTPUT_LENGTH -> Hook.hook_ok cap h ->
  0 <= new_cursor <= output_length (Hook.g_session h) ->
  0 <= end_arg <= U32_MAX ->
  (forall s0, Hook.session_ok cap s0 -> Hook.session_ok cap (move s0)) ->
  Hook.hook_ok cap (Hook.cursor_action new_cursor end_arg move h).
Proof.
  intros Hcap Hok Hnew Hend Hmove. pose proof Hok as (Hs & Hgrid & Hanchor & Hsaved).
  unfold Hook.cursor_action.
  destruct (Hook.g_x_held h); hook_fields.
  - apply hook_ok_set_session; [apply hook_ok_set_x; assumption|].
    apply (pure_edit_session_ok cap
             (set_text_cursor new_cursor (Hook.g_session h))
             (OpSetSelection (Hook.g_x_anchor h) end_arg)); auto.
    + apply (session_ok_setter cap (Hook.g_session h)); fields;
        try reflexivity; assumption.
    + cbn [valid_op]. split; assumption.
  - apply hook_ok_set_session; [exact Hok|].
    apply Hmove.
    apply (pure_edit_session_ok cap (Hook.g_session h) OpClearSelection);
      auto.
    exact I.
Qed.

Lemma dispatch_action_ok cap h action l2co :
  cap < IME_MAX_OUTPUT_LENGTH -> Hook.hook_ok cap h ->
  exists h', Hook.dispatch_action action l2co h = Done h' /\
             Hook.hook_ok cap h'.
Proof.
  intros Hcap Hok. pose proof Hok as (Hs & Hgrid & Hanchor & Hsaved).
  pose proof Hs as ((((Hout & Hclip) & (Hcur & Hsel & Hact) & Hmax) & _) & _).
  unfold U32_MAX, IME_MAX_OUTPUT_LENGTH in *.
  assert (Hbtn : forall b, 0 <= b < ThumbGrid.TG_BUTTONS ->
            exists h', Hook.dispatch_face_button b h = Done h' /\
                       Hook.hook_ok cap h').
  { intros b Hb. apply dispatch_face_button_ok; assumption. }
  assert (Hmv : forall e, valid_op e ->
            forall f, (forall s0, apply_op e s0 = Done (f s0)) ->
            forall s0, Hook.session_ok cap s0 -> Hook.session_ok cap (f s0)).
  { intros e Hv f Hf s0 Hs0.
    exact (pure_edit_session_ok cap s0 e (f s0) Hcap Hs0 Hv (Hf s0)). }
  destruct action; cbn [Hook.dispatch_action]; cbv zeta;
    try (eexists; split; [reflexivity|]; exact Hok).
  - destruct l2co.
    + apply session_op_hook_ok; [assumption | assumption | |].
      * apply paste_full_ok, Hs.
      * intros s'. apply paste_caller.
    + apply Hbtn. vm_compute. split; congruence.
  - destruct l2co.
    + eexists. split; [reflexivity|].
      apply hook_ok_set_l2; [exact Hok|]. vm_compute. reflexivity.
    + apply Hbtn. vm_compute. split; congruence.
  - destruct l2co.
    + apply session_op_hook_ok; [assumption | assumption | |].
      * apply copy_full_ok, Hs.
      * intros s'. apply copy_caller.
    + apply Hbtn. vm_compute. split; congruence.
  - eexists. split; [reflexivity|].
    apply cursor_action_ok; try assumption.
    + destruct (Z.ltb_spec 0 (text_cursor (Hook.g_session h)));
        [rewrite u32_small by lia|]; lia.
    + unfold U32_MAX.
      destruct (Z.ltb_spec 0 (text_cursor (Hook.g_session h)));
        [rewrite u32_small by lia|]; lia.
    + apply (Hmv OpCursorLeft I). reflexivity.
  - eexists. split; [reflexivity|].
    apply cursor_action_ok; try assumption.
    + destruct (Z.ltb_spec (text_cursor (Hook.g_session h))
                  (output_length (Hook.g_session h)));
        [rewrite u32_small by lia|]; lia.
    + unfold U32_MAX.
      destruct (Z.ltb_spec (text_cursor (Hook.g_session h))
                  (output_length (Hook.g_session h)));
        [rewrite u32_small by lia|]; lia.
    + apply (Hmv OpCursorRight I). reflexivity.
  - eexists. split; [reflexivity|].
    apply cursor_action_ok; try assumption; try (unfold U32_MAX; lia).
    apply (Hmv OpCursorHome I). reflexivity.
  - eexists. split; [reflexivity|].
    apply cursor_action_ok; try assumption; try (unfold U32_MAX; lia).
    apply (Hmv OpCursorEnd I). reflexivity.
  - eexists. split; [reflexivity|].
    apply hook_ok_set_tgrid; [exact Hok|].
    exact (apply_grid_op_ok ThumbGrid.GToggleSymbols _ Hgrid).
  - eexists. split; [reflexivity|].
    apply hook_ok_set_tgrid; [exact Hok|].
    exact (apply_grid_op_ok ThumbGrid.GToggleSymbols _ Hgrid).
Qed.

Lemma x_step_ok cap h l2co :
  cap < IME_MAX_OUTPUT_LENGTH -> Hook.hook_ok cap h ->
  exists h', Hook.x_step l2co h = Done h' /\ Hook.hook_ok cap h'.
Proof.
  intros Hcap Hok. unfold Hook.x_step. cbv zeta.
  set (h1 := if Input.input_just_pressed _ _ then _ else h).
  assert (Hok1 : Hook.hook_ok cap h1).
  { subst h1. destruct (Input.input_just_pressed _ _); [|exact Hok].
    apply hook_ok_set_x; [exact Hok|].
    pose proof Hok as ((((_ & (Hcur & _) & Hmax) & _) & _) & _).
    unfold U32_MAX, IME_MAX_OUTPUT_LENGTH in *. lia. }
  clearbody h1.
  destruct (negb (_ =? 0) && Hook.g_x_held h1);
    [|eexists; split; [reflexivity | exact Hok1]].
  assert (Hinner : exists h2,
            (if negb (Hook.g_x_dpad_used h1)
             then if l2co
                  then s ← ime_session_cut (Hook.g_session h1);
                       Done (Hook.set_session s h1)
                  else Hook.dispatch_face_button ThumbGrid.TG_BTN_CROSS h1
             else Done h1) = Done h2 /\ Hook.hook_ok cap h2).
  { destruct (negb (Hook.g_x_dpad_used h1));
      [|eexists; split; [reflexivity | exact Hok1]].
    destruct l2co.
    - apply session_op_hook_ok; [assumption | assumption | |].
      + apply cut_full_ok, Hok1.
      + intros s'. apply cut_caller.
    - apply dispatch_face_button_ok; [assumption | assumption |].
      vm_compute. split; congruence. }
  destruct Hinner as (h2 & -> & Hok2). cbn [mbind outcome_bind].
  eexists. split; [reflexivity|].
  apply hook_ok_set_x; [exact Hok2 | apply Hok2].
Qed.

Lemma bs_step_ok cap h now_us :
  cap < IME_MAX_OUTPUT_LENGTH -> Hook.hook_ok cap h ->
  exists h', Hook.bs_step now_us h = Done h' /\ Hook.hook_ok cap h'.
Proof.
  intros Hcap Hok. pose proof Hok as (_ & Hgrid & _).
  unfold Hook.bs_step. cbv zeta.
  destruct (grid_char_spec _ ThumbGrid.TG_BTN_SQUARE Hgrid
              ltac:(vm_compute; split; congruence)) as (c & -> & _).
  cbn [mbind outcome_bind].
  destruct (_ && _);
    [|eexists; split; [reflexivity | apply hook_ok_set_bs, Hok]].
  destruct (negb (Hook.g_bs_held h));
    [eexists; split; [reflexivity | apply hook_ok_set_bs, Hok]|].
  destruct (_ <=? _); [|eexists; split; [reflexivity | exact Hok]].
  destruct (_ <=? _); [|eexists; split; [reflexivity | exact Hok]].
  destruct (backspace_hook_ok cap h Hcap Hok) as (h1 & -> & Hok1).
  cbn [mbind outcome_bind].
  eexists. split; [reflexivity | apply hook_ok_set_bs, Hok1].
Qed.

Lemma l2_step_ok cap h l2 :
  Hook.hook_ok cap h -> Hook.hook_ok cap (Hook.l2_step l2 h).
Proof.
  intros Hok. unfold Hook.l2_step. cbv zeta.
  set (h1 := if (60 <=? l2) && _ && _ then _ else h).
  assert (Hok1 : Hook.hook_ok cap h1).
  { subst h1. destruct (_ && _ && _); [|exact Hok].
    pose proof Hok as (_ & (Hp & Hc & Hpage & Hcell) & _).
    unfold ThumbGrid.TG_MAX_PAGES in *.
    apply hook_ok_set_l2; [|unfold ThumbGrid.TG_MAX_PAGES; lia].
    apply hook_ok_set_tgrid; [exact Hok|].
    unfold ThumbGrid.grid_ok, ThumbGrid.TG_MAX_PAGES. grid_fields.
    repeat split; try assumption; try lia;
      destruct (_ =? 0); try lia; destruct (_ =? 1); lia. }
  clearbody h1.
  set (h2 := if (l2 <? 40) && _ then _ else h1).
  assert (Hok2 : Hook.hook_ok cap h2).
  { subst h2. destruct (_ && _); [|exact Hok1].
    apply hook_ok_set_l2; [|vm_compute; reflexivity].
    destruct (Hook.g_l2_shift_active h1 && (0 <=? Hook.g_l2_saved_page h1))
      eqn:Hrestore; [|exact Hok1].
    apply andb_true_iff in Hrestore. destruct Hrestore as [_ Hge].
    apply Z.leb_le in Hge.
    pose proof Hok1 as (_ & (Hp & Hc & Hpage & Hcell) & _ & Hsaved).
    apply hook_ok_set_tgrid; [exact Hok1|].
    unfold ThumbGrid.grid_ok. grid_fields.
    repeat split; try assumption; lia. }
  clearbody h2.
  apply hook_ok_set_l2; [exact Hok2 | apply Hok2].
Qed.

Lemma l3_step_ok cap h raw :
  Hook.hook_ok cap h -> Hook.hook_ok cap (Hook.l3_step raw h).
Proof.
  intros Hok. unfold Hook.l3_step. cbv zeta.
  apply hook_ok_set_l3_prev.
  destruct (_ && _); [|exact Hok].
  apply hook_ok_set_tgrid; [exact Hok|].
  exact (apply_grid_op_ok ThumbGrid.GToggleAccent _ (proj1 (proj2 Hok))).
Qed.

Lemma get_status_ok cap h pad now_us :
  cap < IME_MAX_OUTPUT_LENGTH -> Hook.hook_ok cap h ->
  exists h' st,
    Hook.hooked_ime_dialog_get_status h pad now_us = Done (h', st) /\
    Hook.hook_ok cap h' /\
    (state (Hook.g_session h) <> IME_STATE_ACTIVE -> h' = h).
Proof.
  intros Hcap Hok. unfold Hook.hooked_ime_dialog_get_status.
  destruct (state (Hook.g_session h)) eqn:Hst;
    try (eexists; eexists; split; [reflexivity|];
         split; [exact Hok | reflexivity]).
  cbv zeta.
  set (h1 := Hook.set_tgrid _ (Hook.set_tgrid _ (Hook.set_input_state _ h))).
  assert (Hok1 : Hook.hook_ok cap h1).
  { subst h1. apply hook_ok_set_tgrid.
    - apply hook_ok_set_tgrid; [apply hook_ok_set_input_state, Hok|].
      hook_fields.
      exact (apply_grid_op_ok (ThumbGrid.GSelectCell _ _) _
               (proj1 (proj2 Hok))).
    - hook_fields.
      exact (apply_grid_op_ok (ThumbGrid.GUpdatePosition _ _ _ _) _
               (apply_grid_op_ok (ThumbGrid.GSelectCell _ _) _
                  (proj1 (proj2 Hok)))). }
  clearbody h1.
  destruct (_ <? Hook.IME_GRACE_PERIOD_US).
  { eexists. eexists. split; [reflexivity|].
    split; [|intros H; exfalso; apply H; reflexivity].
    apply hook_ok_set_l3_prev, hook_ok_set_l2; [exact Hok1 | apply Hok1]. }
  set (h2 := Hook.l3_step _ (Hook.l2_step _ h1)).
  assert (Hok2 : Hook.hook_ok cap h2).
  { subst h2. apply l3_step_ok, l2_step_ok, Hok1. }
  clearbody h2.
  destruct (x_step_ok cap h2
              (Hook.g_l2_shift_active h2
               && (ThumbGrid.selected_cell (Hook.g_tgrid h2)
                   =? ThumbGrid.TG_CENTER_CELL)) Hcap Hok2)
    as (h3 & -> & Hok3).
  cbn [mbind outcome_bind].
  assert (Hrun : forall action, exists h' st,
            (h4 ← Hook.dispatch_action action
                    (Hook.g_l2_shift_active h2
                     && (ThumbGrid.selected_cell (Hook.g_tgrid h2)
                         =? ThumbGrid.TG_CENTER_CELL)) h3;
             h5 ← Hook.bs_step now_us h4;
             Done (h5, Hook.ORBIS_IME_DIALOG_STATUS_RUNNING))
              = Done (h', st) /\ Hook.hook_ok cap h').
  { intros action.
    destruct (dispatch_action_ok cap h3 action
                (Hook.g_l2_shift_active h2
                 && (ThumbGrid.selected_cell (Hook.g_tgrid h2)
                     =? ThumbGrid.TG_CENTER_CELL)) Hcap Hok3)
      as (h4 & -> & Hok4).
    cbn [mbind outcome_bind].
    destruct (bs_step_ok cap h4 now_us Hcap Hok4) as (h5 & -> & Hok5).
    cbn [mbind outcome_bind].
    eexists. eexists. split; [reflexivity | exact Hok5]. }
  destruct (Input.input_get_action (Hook.g_input_state h3)) eqn:Hact;
    try (destruct (Hrun (Input.input_get_action (Hook.g_input_state h3)))
           as (h' & st & Hh' & Hok'); rewrite Hact in Hh';
         exists h', st; split; [exact Hh'|];
         split; [exact Hok' | intros H; exfalso; apply H; reflexivity]).
  - destruct (submit_session_ok cap _ (proj1 Hok3)) as (s' & -> & Hok' & _).
    cbn [mbind outcome_bind].
    eexists. eexists. split; [reflexivity|].
    split; [|intros H; exfalso; apply H; reflexivity].
    apply hook_ok_set_session; assumption.
  - eexists. eexists. split; [reflexivity|].
    split; [|intros H; exfalso; apply H; reflexivity].
    apply hook_ok_set_session; [exact Hok3|].
    apply cancel_session_ok, Hok3.
Qed.

Lemma run_polls_ok cap polls : forall h,
  cap < IME_MAX_OUTPUT_LENGTH -> Hook.hook_ok cap h ->
  exists h', Hook.run_polls polls h = Done h' /\ Hook.hook_ok cap h'.
Proof.
  induction polls as [|[pad now_us] polls IH]; intros h Hcap Hok.
  - exists h. split; [reflexivity | exact Hok].
  - cbn [Hook.run_polls].
    destruct (get_status_ok cap h pad now_us Hcap Hok)
      as (h1 & st & -> & Hok1 & _).
    cbn [mbind outcome_bind fst]. apply IH; assumption.
Qed.

(** X30.  Whatever the pad delivers, poll after poll, the input router never
    leaves an array and keeps its globals well-formed, provided the
    session capacity is below the array size 256 and the caller's buffer
    has room for the capacity: the session stays well-formed with the
    same capacity, the grid keeps a valid page and cell, and the
    selection anchor and the saved page stay in range. *)
Theorem every_poll_keeps_the_globals_well_formed
    (cap : Z) (h : Hook.hook_globals) (polls : list (Hook.pad_data * Z)) :
  cap < IME_MAX_OUTPUT_LENGTH -> Hook.hook_ok cap h ->
  exists h', Hook.run_polls polls h = Done h' /\ Hook.hook_ok cap h'.
Proof. intros Hcap Hok. exact (run_polls_ok cap polls h Hcap Hok). Qed.

Lemma every_poll_keeps_the_globals_well_formed_witness :
  exists h',
    Hook.run_polls
      [({| Hook.buttons := Input.PAD_BUTTON_TRIANGLE;
           Hook.leftStick_x := 0; Hook.leftStick_y := 0;
           Hook.rightStick_x := 128; Hook.rightStick_y := 128;
           Hook.analog_l2 := 0 |}, 400000);
       ({| Hook.buttons := Input.PAD_BUTTON_R2;
           Hook.leftStick_x := 128; Hook.leftStick_y := 128;
           Hook.rightStick_x := 128; Hook.rightStick_y := 128;
           Hook.analog_l2 := 0 |}, 500000)]
      (Hook.globals_at_start
         (session_after_init 0 10 (Some (replicate 11 9)) None)
         (replicate 48 0) 0) = Done h' /\
    Hook.hook_ok 10 h'.
Proof.
  apply (every_poll_keeps_the_globals_well_formed 10).
  - unfold IME_MAX_OUTPUT_LENGTH. lia.
  - unfold Hook.hook_ok, Hook.session_ok.
    split; [split; [|split]|].
    + split; [apply wf_sessionb_ok; vm_compute; reflexivity|].
      vm_compute. repeat split; intros H; discriminate H.
    + vm_compute. reflexivity.
    + vm_compute. intros H. discriminate H.
    + split; [unfold ThumbGrid.grid_ok; vm_compute; repeat split; congruence|].
      vm_compute. repeat split; intros H; discriminate H.
Defined.
